(** * XUPTCode: account ledger and resource counters

    A shallow embedding of the account store ([internal/repository/order.go]),
    the resource store, the account service ([internal/service/account_ser.go])
    and the resource service ([internal/service/resource_ser.go]).

    The relational store is a record of tables, each table a list of rows.
    A statement sent through [database/sql] is a primitive of a small
    state-and-error monad over the [World]; every primitive also appends the
    statement to [calls], the trace of storage calls.  Statements run one
    after the other: the model is sequential and the store itself never
    breaks (no lost connection), so a driver error only comes from a
    constraint: one the sources name, the range of a column whose type they
    give, or a constraint of a table declaration that is not in the
    sources and is left to the [Platform]. *)

From Stdlib Require Import ZArith NArith List Bool Lia String Ascii.
From Stdlib Require Import Sorted.
Import ListNotations.

Set Implicit Arguments.
Local Open Scope Z_scope.

(** ** Go strings

    A Go [string] is taken as its sequence of code points (valid UTF-8);
    [len] counts the bytes of the encoding, as Go does. *)

Definition rune := N.
Definition GoString := list rune.

Fixpoint str_eqb (s t : GoString) : bool :=
  match s, t with
  | [], [] => true
  | a :: s', b :: t' => N.eqb a b && str_eqb s' t'
  | _, _ => false
  end.

Definition utf8_RuneLen (r : rune) : Z :=
  if (r <? 128)%N then 1
  else if (r <? 2048)%N then 2
  else if (r <? 65536)%N then 3
  else 4.

Fixpoint len (s : GoString) : Z :=
  match s with
  | [] => 0
  | r :: s' => utf8_RuneLen r + len s'
  end.

(** [unicode.IsSpace]: the Latin-1 spaces and the code points of category Z
    and property Pattern_White_Space. *)
Definition unicode_IsSpace (r : rune) : bool :=
  (((9 <=? r) && (r <=? 13)) || (r =? 32) || (r =? 133) || (r =? 160)
   || (r =? 5760) || ((8192 <=? r) && (r <=? 8202))
   || (r =? 8232) || (r =? 8233) || (r =? 8239) || (r =? 8287)
   || (r =? 12288))%N.

Fixpoint TrimLeftSpace (s : GoString) : GoString :=
  match s with
  | [] => []
  | r :: s' => if unicode_IsSpace r then TrimLeftSpace s' else s
  end.

Definition TrimRightSpace (s : GoString) : GoString :=
  rev (TrimLeftSpace (rev s)).

(** [strings.TrimSpace] *)
Definition TrimSpace (s : GoString) : GoString :=
  TrimRightSpace (TrimLeftSpace s).

(** An ASCII literal as a Go string. *)
Fixpoint lit (s : string) : GoString :=
  match s with
  | EmptyString => []
  | String c s' => N_of_ascii c :: lit s'
  end.

(** ** Decimals and machine integers

    A [decimal.Decimal] is an integer [value] and an exponent [exp]: the
    number value * 10 ^ exp, of any size and any scale (0.015 is
    [decimal_New 15 (-3)], 100.00 is [decimal_New 10000 (-2)]).  [Cmp]
    brings the two numbers to the smaller exponent and compares the
    integers. *)

Record Decimal : Type := decimal_New { value : Z; exp : Z }.

(** [decimal.Zero] is [New(0, 1)]. *)
Definition decimal_Zero : Decimal := decimal_New 0 1.

Definition rescale (d : Decimal) (e : Z) : Z := value d * 10 ^ (exp d - e).

Definition Cmp (d d2 : Decimal) : comparison :=
  if exp d =? exp d2 then value d ?= value d2
  else
    let e := Z.min (exp d) (exp d2) in
    rescale d e ?= rescale d2 e.

Definition LessThanOrEqual (a b : Decimal) : bool :=
  match Cmp a b with
  | Gt => false
  | _ => true
  end.

Definition LessThan (a b : Decimal) : bool :=
  match Cmp a b with
  | Lt => true
  | _ => false
  end.

(** *** DECIMAL(10,2)

    The amounts of [user_account] are columns of type DECIMAL(10,2):
    [model.UserAccount] gives this type for the balance, and the responses
    document two decimal places for the balance and for both totals, which
    are taken to have the same type.  A stored amount is a whole number of
    hundredths between -99999999.99 and 99999999.99.  In
    [SET column = column + ?] the server takes the parameter, the text of
    the decimal, at its exact value, rounds the sum to the scale of the
    column, half away from zero, and refuses a sum out of the range of the
    column (error 1264, under the strict SQL mode that is the server's
    default). *)

Definition DECIMAL_10_2_MAX : Z := 9999999999.

Definition in_DECIMAL_10_2 (column : Z) : bool :=
  (- DECIMAL_10_2_MAX <=? column) && (column <=? DECIMAL_10_2_MAX).

(** A decimal counted in hundredths: the fraction of an integer by a power
    of ten. *)
Definition hundredths (d : Decimal) : Z * Z :=
  if -2 <=? exp d
  then (value d * 10 ^ (exp d + 2), 1)
  else (value d, 10 ^ (- 2 - exp d)).

(** The integer nearest to n / k, half away from zero. *)
Definition round_half_away (n k : Z) : Z :=
  Z.sgn n * ((2 * Z.abs n + k) / (2 * k)).

(** [column + ?] and [column - ?], as stored. *)
Definition column_plus (column : Z) (amount : Decimal) : Z :=
  let (n, k) := hundredths amount in
  round_half_away (column * k + n) k.

Definition column_minus (column : Z) (amount : Decimal) : Z :=
  let (n, k) := hundredths amount in
  round_half_away (column * k - n) k.

(** The text of a DECIMAL(10,2) column, read by [decimal.NewFromString] or
    scanned into a [decimal.Decimal]: the hundredths, with exponent -2. *)
Definition scan_decimal (column : Z) : Decimal := decimal_New column (-2).

(** An amount with at most two decimal places is a whole number of
    hundredths, [cents] of them. *)
Definition cents (d : Decimal) : Z := fst (hundredths d) / snd (hundredths d).

Definition whole_hundredths (d : Decimal) : Prop :=
  fst (hundredths d) mod snd (hundredths d) = 0.

(** Go's [int] is a 64-bit two's complement integer. *)
Definition int_wrap (z : Z) : Z := ((z + 2 ^ 63) mod 2 ^ 64 - 2 ^ 63)%Z.
Definition int_sub (a b : Z) : Z := int_wrap (a - b).
Definition int_mul (a b : Z) : Z := int_wrap (a * b).
Definition int_range (z : Z) : Prop := (- 2 ^ 63 <= z < 2 ^ 63)%Z.

Definition Time := Z.

(** ** Errors

    Each message the sources build is a constructor of [Msg]; [New] is
    [errors.New] or a [fmt.Errorf] without [%w], [Wrapf] a [fmt.Errorf] whose
    format ends in [%w]. *)

Inductive Msg : Type :=
(* repository/order.go *)
| AccountUUIDDuplicate        (* 账户表user_uuid重复 *)
| AccountUUIDNull             (* 账户表user_uuid不能为空 *)
| InsertAccountFailed         (* 插入账户失败 *)
| RechargeAmountNotPositive   (* 充值金额必须大于0 *)
| RechargeFailed              (* 充值失败 *)
| AccountMissingOrNotUpdated  (* 用户账户不存在或更新失败 *)
| ConsumeAmountNotPositive    (* 消费金额必须大于0 *)
| AccountMissing              (* 用户账户不存在 *)
| QueryBalanceFailed          (* 查询余额失败 *)
| BalanceInsufficient (balance amount : Decimal) (* 账户余额不足 *)
| DeductFailed                (* 扣减余额失败 *)
| DeductAbnormal              (* 余额扣减失败（账户状态异常） *)
| QueryAccountFailed          (* 查询账户失败 *)
(* user repository *)
| UserNotExist                (* 用户不存在 *)
| QueryUserFailed             (* 查询用户失败 *)
| UserIDNotExist              (* 用户ID不存在 *)
| ScanUserFailed              (* 扫描用户数据失败 *)
(* service/account_ser.go *)
| UUIDEmpty                   (* 用户UUID不能为空 *)
| DeductAmountNotPositive     (* 扣减金额必须大于0 *)
| CreateAccountFailed         (* 创建账户失败 *)
| RechargeOpFailed            (* 充值操作失败 *)
| QueryAfterRechargeFailed    (* 查询充值后账户信息失败 *)
| QueryAfterDeductFailed      (* 查询扣减后账户信息失败 *)
| AccountInfoMissing          (* 账户信息不存在 *)
| QueryAccountInfoFailed      (* 查询账户信息失败 *)
| AccountInfoNotFound         (* 未查询到用户账户信息 *)
(* resource repository *)
| ResourceUniqueConflict      (* 资源唯一索引冲突 *)
| ResourceRequiredNull        (* 资源必填字段为空 *)
| ResourceUserMissing         (* 关联的用户ID不存在 *)
| InsertResourceFailed        (* 插入资源失败 *)
| ListQueryMySQL (Number : N) (* 分页查询资源失败：MySQL错误 *)
| ListQueryFailed             (* 分页查询资源失败 *)
| CountQueryMySQL (Number : N) (* 统计资源总数失败：MySQL错误 *)
| CountQueryFailed            (* 统计资源总数失败 *)
| ResourceQueryMySQL (Number : N) (* 查询资源失败：MySQL错误 *)
| ResourceQueryFailed (id : N) (* 查询资源失败（id=..） *)
| ViewUpdateMySQL (Number : N) (* 更新浏览量失败：MySQL错误 *)
| ViewUpdateFailed (id : N)   (* 更新浏览量失败（id=..） *)
| LikeUpdateMySQL (Number : N) (* 更新点赞量失败：MySQL错误 *)
| LikeUpdateFailed (id : N)   (* 更新点赞量失败（id=..） *)
| CommentUpdateMySQL (Number : N) (* 更新评论量失败：MySQL错误 *)
| CommentUpdateFailed (id : N) (* 更新评论量失败（id=..） *)
(* service/resource_ser.go *)
| UserIDZero                  (* 用户ID不能为空（userID=0） *)
| TitleEmpty                  (* 资源标题不能为空 *)
| TitleTooLong (length : Z)   (* 资源标题长度不能超过100字符 *)
| QueryUserByIDFailed (userID : N) (* 查询用户失败（userID=..） *)
| UserNil (userID : N)        (* 用户不存在（userID=..） *)
| UsernameBlank (userID : N)  (* 用户（userID=..）的用户名不能为空 *)
| CreateResourceFailed (title : GoString) (userID : N) (* 创建资源失败 *)
| PageInvalid (page : Z)      (* 页码必须≥1 *)
| SizeInvalid (size : Z)      (* 每页条数必须在1~50之间 *)
| CountFailed                 (* 统计资源总数失败 *)
| ListFailed                  (* 查询资源列表失败 *)
| ResourceIDNotPositive (id : N) (* 资源ID必须为正整数 *)
| QueryResourceFailed (id : N) (* 查询资源失败（id=..） *)
| ViewCountFailed             (* 更新浏览量失败 *)
| ResourceIDInvalid (id : N)  (* 资源ID无效（id=..） *)
| LikeCountFailed             (* 更新点赞数失败 *)
| CommentEmpty                (* 评论内容不能为空 *)
| CommentCountFailed.         (* 更新评论数失败 *)

Inductive Err : Type :=
| MySQLError (Number : N)     (* *mysql.MySQLError *)
| ErrNoRows                   (* sql.ErrNoRows *)
| New (m : Msg)
| Wrapf (m : Msg) (cause : Err).

(** The message at the bottom of a chain of wrapped errors. *)
Fixpoint root (e : Err) : Err :=
  match e with
  | Wrapf _ cause => root cause
  | _ => e
  end.

(** The errors that reject a malformed or out-of-range argument. *)
Definition is_validation_error (e : Err) : bool :=
  match root e with
  | New UUIDEmpty | New RechargeAmountNotPositive
  | New ConsumeAmountNotPositive | New DeductAmountNotPositive
  | New UserIDZero | New TitleEmpty | New (TitleTooLong _)
  | New (PageInvalid _) | New (SizeInvalid _)
  | New (ResourceIDNotPositive _) | New (ResourceIDInvalid _)
  | New CommentEmpty => true
  | _ => false
  end.

(** The errors that report an absent account or user. *)
Definition is_not_found_error (e : Err) : bool :=
  match root e with
  | New AccountMissingOrNotUpdated | New AccountMissing
  | New UserNotExist | New UserIDNotExist | New (UserNil _) => true
  | _ => false
  end.

Definition is_insufficient_funds (e : Err) : bool :=
  match root e with
  | New (BalanceInsufficient _ _) => true
  | _ => false
  end.

Fixpoint errors_Is_ErrNoRows (e : Err) : bool :=
  match e with
  | ErrNoRows => true
  | Wrapf _ cause => errors_Is_ErrNoRows cause
  | _ => false
  end.

(** [errors.As(err, &mysqlErr)]: the first driver error of the chain. *)
Fixpoint errors_As_MySQLError (e : Err) : option N :=
  match e with
  | MySQLError n => Some n
  | Wrapf _ cause => errors_As_MySQLError cause
  | _ => None
  end.

(** ** Data model ([internal/model], [internal/dto]) *)

Module User.
(** The columns of [users] the modelled functions read. *)
Record t : Type := mk { ID : N; UUID : GoString; Username : GoString }.
End User.

Module UserAccount.
Record t : Type := mk {
  ID : N;
  UserUUID : GoString;
  Balance : Decimal;
  TotalRecharge : Decimal;
  TotalConsume : Decimal }.
End UserAccount.

Module AccountRow.
(** A row of [user_account]; the three amounts are DECIMAL(10,2) columns,
    in hundredths. *)
Record t : Type := mk {
  id : N;
  user_uuid : GoString;
  balance : Z;
  total_recharge : Z;
  total_consume : Z }.

Definition eqb (a b : t) : bool :=
  (id a =? id b)%N && str_eqb (user_uuid a) (user_uuid b)
  && (balance a =? balance b) && (total_recharge a =? total_recharge b)
  && (total_consume a =? total_consume b).
End AccountRow.

Module Resource.
Record t : Type := mk {
  ID : N;
  UserID : N;
  Title : GoString;
  TextContent : GoString;
  CodeContent : GoString;
  Author : GoString;
  PublishTime : Time;
  LikeCount : N;
  ViewCount : N;
  CommentCount : N }.
End Resource.

Module ResourceRow.
(** A row of [resources]: the columns the statements name; the two
    contents are nullable, [updated_at] is written by the counter
    updates.  The counters are natural numbers: the width of their column
    is not in the sources. *)
Record t : Type := mk {
  id : N;
  user_id : N;
  title : GoString;
  text_content : option GoString;
  code_content : option GoString;
  author : GoString;
  publish_time : Time;
  like_count : N;
  view_count : N;
  comment_count : N;
  updated_at : option Time }.
End ResourceRow.

Module RechargeRequest.
Record t : Type := mk { UserUUID : GoString; Amount : Decimal }.
End RechargeRequest.

Module DeductRequest.
Record t : Type := mk { UserUUID : GoString; Amount : Decimal }.
End DeductRequest.

Module AccountResponse.
Record t : Type := mk {
  UserUUID : GoString;
  Balance : Decimal;
  TotalRecharge : Decimal;
  TotalConsume : Decimal }.
End AccountResponse.

Module ResourceItem.
Record t : Type := mk {
  ID : N;
  Title : GoString;
  TextContent : GoString;
  CodeContent : GoString;
  Author : GoString;
  PublishTime : GoString;
  UserID : N;
  LikeCount : N;
  ViewCount : N;
  CommentCount : N }.
End ResourceItem.

(** ** The store and the monad of storage calls *)

Inductive Stmt : Type :=
| InsertAccount (user_uuid : GoString)
| UpdateRecharge (amount : Decimal) (user_uuid : GoString)
| SelectBalance (user_uuid : GoString)
| UpdateDeduct (amount : Decimal) (user_uuid : GoString)
| SelectAccount (user_uuid : GoString)
| SelectUserByUuid (uuid : GoString)
| SelectUserById (id : N)
| InsertResource (r : Resource.t)
| SelectResources (keyword : GoString) (offset limit : Z)
| CountResources (keyword : GoString)
| SelectResourceById (id : N)
| UpdateViewCount (id : N)
| UpdateLikeCount (id : N)
| UpdateCommentCount (id : N).

Record DB : Type := mkDB {
  users : list User.t;
  user_account : list AccountRow.t;
  resources : list ResourceRow.t;
  user_account_seq : N;       (* AUTO_INCREMENT of user_account *)
  resources_seq : N }.        (* AUTO_INCREMENT of resources *)

Record World : Type := mkWorld {
  store : DB;
  time_Now : Time;            (* the clock of the process *)
  CURRENT_TIMESTAMP : Time;   (* the clock of the store *)
  calls : list Stmt }.

Definition with_store (d : DB) (w : World) : World :=
  mkWorld d (time_Now w) (CURRENT_TIMESTAMP w) (calls w).

Definition with_user_account (l : list AccountRow.t) (d : DB) : DB :=
  mkDB (users d) l (resources d) (user_account_seq d) (resources_seq d).

Definition with_resources (l : list ResourceRow.t) (d : DB) : DB :=
  mkDB (users d) (user_account d) l (user_account_seq d) (resources_seq d).

Inductive result (A : Type) : Type :=
| Ok (a : A)
| Fail (e : Err).
Arguments Fail {A} e.

Definition M (A : Type) : Type := World -> World * result A.

Definition ret {A} (a : A) : M A := fun w => (w, Ok a).
Definition fail {A} (e : Err) : M A := fun w => (w, Fail e).

Definition bind {A B} (m : M A) (k : A -> M B) : M B :=
  fun w =>
    match m w with
    | (w', Ok a) => k a w'
    | (w', Fail e) => (w', Fail e)
    end.

(** [v, err := call(...)]: the error is handed to the caller's [if]. *)
Definition try {A} (m : M A) : M (result A) :=
  fun w => let (w', r) := m w in (w', Ok r).

Declare Scope go_scope.
Delimit Scope go_scope with go.
Notation "x <- m ;; k" := (bind m (fun x => k))
  (at level 100, m at next level, right associativity) : go_scope.
Notation "m ;; k" := (bind m (fun _ => k))
  (at level 100, right associativity) : go_scope.
Local Open Scope go_scope.

(** The world once the statement [s] has been sent. *)
Definition called (s : Stmt) (w : World) : World :=
  mkWorld (store w) (time_Now w) (CURRENT_TIMESTAMP w) (calls w ++ [s]).

Definition send (s : Stmt) : M unit := fun w => (called s w, Ok tt).
Definition read_store : M DB := fun w => (w, Ok (store w)).
Definition read_World : M World := fun w => (w, Ok w).
Definition write_store (d : DB) : M unit := fun w => (with_store d w, Ok tt).
Definition read_time_Now : M Time := fun w => (w, Ok (time_Now w)).
Definition read_CURRENT_TIMESTAMP : M Time :=
  fun w => (w, Ok (CURRENT_TIMESTAMP w)).

(** [QueryRowContext(..).Scan(..)]: the first row of the selection, or
    [sql.ErrNoRows]. *)
Definition query_row {R} (s : Stmt) (table : DB -> list R) (where_ : R -> bool)
  : M R :=
  send s ;;
  d <- read_store ;;
  match find where_ (table d) with
  | Some r => ret r
  | None => fail ErrNoRows
  end.

(** [UPDATE .. SET .. WHERE ..] on a table. *)
Definition update_where {R} (where_ : R -> bool) (set : R -> R) (rows : list R)
  : list R :=
  map (fun r => if where_ r then set r else r) rows.

(** [RowsAffected()] of an [UPDATE]: the selected rows the update changes
    (the driver's default, without [clientFoundRows]). *)
Definition rows_affected {R} (eqb : R -> R -> bool) (where_ : R -> bool)
  (set : R -> R) (rows : list R) : Z :=
  Z.of_nat (List.length (filter (fun r => where_ r && negb (eqb r (set r))) rows)).

(** What the sources leave to the store and to the standard library: the
    pattern match of [LIKE] under the collation of the column, the answer
    of the store to a negative [LIMIT] argument, the default of the column
    [updated_at] (given the time of the insertion), and [Time.Format] with
    the layout [2006-01-02 15:04:05].

    The declaration of the table [resources] is not in the sources.  Its
    unique indexes, NOT NULL columns and column widths decide whether an
    [INSERT] is refused: [INSERT_resources_refused] gives, for the tables
    as they are and the row to insert, the number of the error, or none.

    [ORDER BY publish_time DESC] names one key.  The order of rows of
    equal [publish_time] is the store's choice, and it may differ from one
    query to the next: [ORDER_BY_ties] gives, for the world in which a
    query runs (its trace holds the query itself), the rank of each row
    among its equals. *)
Class Platform : Type := {
  LIKE : GoString -> GoString -> bool;
  LIMIT_out_of_range :
    Z -> Z -> list ResourceRow.t -> result (list ResourceRow.t);
  updated_at_default : Time -> option Time;
  time_Format : Time -> GoString;
  INSERT_resources_refused : DB -> Resource.t -> option N;
  ORDER_BY_ties : World -> ResourceRow.t -> N }.

(** ** repository *)

Module repository.

Definition by_user_uuid (userUUID : GoString) (a : AccountRow.t) : bool :=
  str_eqb (AccountRow.user_uuid a) userUUID.

(** Modelled from the spec: the declaration of the [user_account] table is
    not in the sources.  A row inserted with only its [user_uuid] takes
    the column defaults, "initial balance is zero" and both running
    totals zero. *)
Definition default_account (id : N) (userUUID : GoString) : AccountRow.t :=
  AccountRow.mk id userUUID 0 0 0.

(** [INSERT INTO user_account (user_uuid) VALUES (?)]; the unique index
    [uk_user_uuid] refuses a second row for the same user (error 1062). *)
Definition exec_insert_account (userUUID : GoString) : M unit :=
  send (InsertAccount userUUID) ;;
  d <- read_store ;;
  if existsb (by_user_uuid userUUID) (user_account d)
  then fail (MySQLError 1062)
  else write_store
         (mkDB (users d)
               (user_account d ++ [default_account (user_account_seq d) userUUID])
               (resources d) (N.succ (user_account_seq d)) (resources_seq d)).

(** Whether every amount the update assigns, in the rows it selects, is in
    the range of its column. *)
Definition update_in_range (userUUID : GoString)
  (set : AccountRow.t -> AccountRow.t) (assigned : AccountRow.t -> list Z)
  (rows : list AccountRow.t) : bool :=
  forallb (fun r => negb (by_user_uuid userUUID r)
                    || forallb in_DECIMAL_10_2 (assigned (set r))) rows.

(** An [UPDATE user_account SET .. WHERE user_uuid = ?]: [set] is the row
    after the update, [assigned] the amounts the update assigns.  An
    amount out of range makes the store refuse the statement, which then
    changes nothing; otherwise the result is the number of affected
    rows. *)
Definition exec_update_account (s : Stmt) (set : AccountRow.t -> AccountRow.t)
  (assigned : AccountRow.t -> list Z) (userUUID : GoString) : M Z :=
  send s ;;
  d <- read_store ;;
  if update_in_range userUUID set assigned (user_account d)
  then
    write_store
      (with_user_account
         (update_where (by_user_uuid userUUID) set (user_account d)) d) ;;
    ret (rows_affected AccountRow.eqb (by_user_uuid userUUID) set (user_account d))
  else fail (MySQLError 1264).

(** The statement runs on the connection or on the caller's transaction;
    commit and rollback belong to the caller. *)
Definition CreateAccount (userUUID : GoString) : M unit :=
  r <- try (exec_insert_account userUUID) ;;
  match r with
  | Fail err =>
      match errors_As_MySQLError err with
      | Some 1062%N => fail (New AccountUUIDDuplicate)
      | Some 1048%N => fail (New AccountUUIDNull)
      | _ => fail (Wrapf InsertAccountFailed err)
      end
  | Ok _ => ret tt
  end.

(** [SET balance = balance + ?, total_recharge = total_recharge + ?] *)
Definition set_recharge (amount : Decimal) (a : AccountRow.t) : AccountRow.t :=
  AccountRow.mk (AccountRow.id a) (AccountRow.user_uuid a)
    (column_plus (AccountRow.balance a) amount)
    (column_plus (AccountRow.total_recharge a) amount)
    (AccountRow.total_consume a).

Definition assigned_recharge (a : AccountRow.t) : list Z :=
  [AccountRow.balance a; AccountRow.total_recharge a].

(** [SET balance = balance - ?, total_consume = total_consume + ?] *)
Definition set_deduct (amount : Decimal) (a : AccountRow.t) : AccountRow.t :=
  AccountRow.mk (AccountRow.id a) (AccountRow.user_uuid a)
    (column_minus (AccountRow.balance a) amount)
    (AccountRow.total_recharge a)
    (column_plus (AccountRow.total_consume a) amount).

Definition assigned_deduct (a : AccountRow.t) : list Z :=
  [AccountRow.balance a; AccountRow.total_consume a].

(** [RowsAffected()] of the driver's result returns no error, so that
    branch of the source has no counterpart here. *)
Definition RechargeBalance (userUUID : GoString) (amount : Decimal) : M unit :=
  if LessThanOrEqual amount decimal_Zero
  then fail (New RechargeAmountNotPositive)
  else
    r <- try (exec_update_account (UpdateRecharge amount userUUID)
                (set_recharge amount) assigned_recharge userUUID) ;;
    match r with
    | Fail err => fail (Wrapf RechargeFailed err)
    | Ok rowsAffected =>
        if rowsAffected =? 0
        then fail (New AccountMissingOrNotUpdated)
        else ret tt
    end.

(** The balance is read as the text of a decimal column, which
    [decimal.NewFromString] always parses. *)
Definition DeductBalance (userUUID : GoString) (amount : Decimal) : M unit :=
  if LessThanOrEqual amount decimal_Zero
  then fail (New ConsumeAmountNotPositive)
  else
    r <- try (query_row (SelectBalance userUUID) user_account
                (by_user_uuid userUUID)) ;;
    match r with
    | Fail err =>
        if errors_Is_ErrNoRows err
        then fail (New AccountMissing)
        else fail (Wrapf QueryBalanceFailed err)
    | Ok row =>
        let balance := scan_decimal (AccountRow.balance row) in
        if LessThan balance amount
        then fail (New (BalanceInsufficient balance amount))
        else
          r <- try (exec_update_account (UpdateDeduct amount userUUID)
                      (set_deduct amount) assigned_deduct userUUID) ;;
          match r with
          | Fail err => fail (Wrapf DeductFailed err)
          | Ok rowsAffected =>
              if rowsAffected =? 0
              then fail (New DeductAbnormal)
              else ret tt
          end
    end.

(** [Scan] of a row into a [model.UserAccount]. *)
Definition scan_account (row : AccountRow.t) : UserAccount.t :=
  UserAccount.mk (AccountRow.id row) (AccountRow.user_uuid row)
    (scan_decimal (AccountRow.balance row))
    (scan_decimal (AccountRow.total_recharge row))
    (scan_decimal (AccountRow.total_consume row)).

Definition GetAccountByUserUUID (userUUID : GoString)
  : M (option UserAccount.t) :=
  r <- try (query_row (SelectAccount userUUID) user_account
              (by_user_uuid userUUID)) ;;
  match r with
  | Fail err =>
      if errors_Is_ErrNoRows err
      then ret None
      else fail (Wrapf QueryAccountFailed err)
  | Ok row => ret (Some (scan_account row))
  end.

(** The select list of [GetUserByUuid] leaves [uuid] out, so the [UUID]
    of the result is the zero value. *)
Definition GetUserByUuid (uuid : GoString) : M User.t :=
  r <- try (query_row (SelectUserByUuid uuid) users
              (fun u => str_eqb (User.UUID u) uuid)) ;;
  match r with
  | Fail err =>
      if errors_Is_ErrNoRows err
      then fail (New UserNotExist)
      else fail (New QueryUserFailed)
  | Ok u => ret (User.mk (User.ID u) [] (User.Username u))
  end.

Definition GetUserById (id : N) : M (option User.t) :=
  r <- try (query_row (SelectUserById id) users
              (fun u => (User.ID u =? id)%N)) ;;
  match r with
  | Fail err =>
      if errors_Is_ErrNoRows err
      then fail (New UserIDNotExist)
      else fail (Wrapf ScanUserFailed err)
  | Ok u => ret (Some u)
  end.

(** *** resources *)

Section Resources.
Context `{Platform}.

Definition by_id (id : N) (r : ResourceRow.t) : bool :=
  (ResourceRow.id r =? id)%N.

Definition IFNULL (s : option GoString) : GoString :=
  match s with
  | Some v => v
  | None => []
  end.

(** [rows.Scan] into a [model.Resource]; a NULL content becomes the
    empty string. *)
Definition scan (r : ResourceRow.t) : Resource.t :=
  Resource.mk (ResourceRow.id r) (ResourceRow.user_id r)
    (ResourceRow.title r)
    (IFNULL (ResourceRow.text_content r))
    (IFNULL (ResourceRow.code_content r))
    (ResourceRow.author r) (ResourceRow.publish_time r)
    (ResourceRow.like_count r) (ResourceRow.view_count r)
    (ResourceRow.comment_count r).

(** [INSERT INTO resources (..) VALUES (..)].  The store refuses the row
    with the error of a constraint of the table it breaks (1062 for a
    unique index, 1048 for a NOT NULL column, another number for a column
    width or the like), and the foreign key on [user_id] refuses an owner
    absent from [users] (error 1452).  A refused statement changes
    nothing. *)
Definition exec_insert_resource (resource : Resource.t) : M unit :=
  send (InsertResource resource) ;;
  d <- read_store ;;
  now <- read_CURRENT_TIMESTAMP ;;
  match INSERT_resources_refused d resource with
  | Some number => fail (MySQLError number)
  | None =>
      if existsb (fun u => (User.ID u =? Resource.UserID resource)%N) (users d)
      then write_store
             (mkDB (users d) (user_account d)
                (resources d ++
                 [ResourceRow.mk (resources_seq d)
                    (Resource.UserID resource) (Resource.Title resource)
                    (Some (Resource.TextContent resource))
                    (Some (Resource.CodeContent resource))
                    (Resource.Author resource) (Resource.PublishTime resource)
                    (Resource.LikeCount resource) (Resource.ViewCount resource)
                    (Resource.CommentCount resource)
                    (updated_at_default now)])
                (user_account_seq d) (N.succ (resources_seq d)))
      else fail (MySQLError 1452)
  end.

Definition CreateResource (resource : Resource.t) : M unit :=
  r <- try (exec_insert_resource resource) ;;
  match r with
  | Fail err =>
      match errors_As_MySQLError err with
      | Some 1062%N => fail (New ResourceUniqueConflict)
      | Some 1048%N => fail (New ResourceRequiredNull)
      | Some 1452%N => fail (New ResourceUserMissing)
      | _ => fail (Wrapf InsertResourceFailed err)
      end
  | Ok _ => ret tt
  end.

(** [WHERE title LIKE ? OR IFNULL(text_content, '') LIKE ? OR
    IFNULL(code_content, '') LIKE ?], present when the keyword is not
    empty; the pattern is the keyword between two percent signs. *)
Definition keyword_filter (keyword : GoString) (r : ResourceRow.t) : bool :=
  if str_eqb keyword [] then true
  else
    let likeKeyword := (37%N :: keyword) ++ [37%N] in
    LIKE (ResourceRow.title r) likeKeyword
    || LIKE (IFNULL (ResourceRow.text_content r)) likeKeyword
    || LIKE (IFNULL (ResourceRow.code_content r)) likeKeyword.

(** [ORDER BY publish_time DESC]: a row comes before every older row;
    among rows of equal time the statement fixes nothing, and the order is
    the one of [rank], the store's choice for this query. *)
Definition precedes (rank : ResourceRow.t -> N) (a b : ResourceRow.t) : bool :=
  (ResourceRow.publish_time b <? ResourceRow.publish_time a)
  || ((ResourceRow.publish_time b =? ResourceRow.publish_time a)
      && (rank a <=? rank b)%N).

Fixpoint insert_desc (rank : ResourceRow.t -> N) (r : ResourceRow.t)
  (l : list ResourceRow.t) : list ResourceRow.t :=
  match l with
  | [] => [r]
  | x :: l' =>
      if precedes rank r x
      then r :: l
      else x :: insert_desc rank r l'
  end.

Definition order_by_publish_time_desc (rank : ResourceRow.t -> N)
  (l : list ResourceRow.t) : list ResourceRow.t :=
  fold_right (insert_desc rank) [] l.

(** [LIMIT offset, limit] *)
Definition limit_rows (offset limit : Z) (l : list ResourceRow.t)
  : result (list ResourceRow.t) :=
  if (offset <? 0) || (limit <? 0)
  then LIMIT_out_of_range offset limit l
  else Ok (firstn (Z.to_nat limit) (skipn (Z.to_nat offset) l)).

Definition query_resources (offset limit : Z) (keyword : GoString)
  : M (list ResourceRow.t) :=
  send (SelectResources keyword offset limit) ;;
  w <- read_World ;;
  match limit_rows offset limit
          (order_by_publish_time_desc (ORDER_BY_ties w)
             (filter (keyword_filter keyword) (resources (store w)))) with
  | Ok rows => ret rows
  | Fail err => fail err
  end.

Definition GetResourceList (offset limit : Z) (keyword : GoString)
  : M (list Resource.t) :=
  r <- try (query_resources offset limit keyword) ;;
  match r with
  | Fail err =>
      match errors_As_MySQLError err with
      | Some n => fail (New (ListQueryMySQL n))
      | None => fail (Wrapf ListQueryFailed err)
      end
  | Ok rows => ret (map scan rows)
  end.

Definition query_count (keyword : GoString) : M Z :=
  send (CountResources keyword) ;;
  d <- read_store ;;
  ret (Z.of_nat (List.length (filter (keyword_filter keyword) (resources d)))).

Definition CountResources (keyword : GoString) : M Z :=
  r <- try (query_count keyword) ;;
  match r with
  | Fail err =>
      match errors_As_MySQLError err with
      | Some n => fail (New (CountQueryMySQL n))
      | None => fail (Wrapf CountQueryFailed err)
      end
  | Ok total => ret total
  end.

Definition GetResourceByID (id : N) : M (option Resource.t) :=
  r <- try (query_row (SelectResourceById id) resources (by_id id)) ;;
  match r with
  | Fail err =>
      match err with
      | ErrNoRows => ret None
      | _ =>
          match errors_As_MySQLError err with
          | Some n => fail (New (ResourceQueryMySQL n))
          | None => fail (Wrapf (ResourceQueryFailed id) err)
          end
      end
  | Ok row => ret (Some (scan row))
  end.

(** [UPDATE resources SET .. WHERE id = ?]; the callers drop the
    result and keep the error. *)
Definition exec_update_resource (s : Stmt)
  (set : Time -> ResourceRow.t -> ResourceRow.t) (id : N) : M unit :=
  send s ;;
  d <- read_store ;;
  now <- read_CURRENT_TIMESTAMP ;;
  write_store
    (with_resources (update_where (by_id id) (set now) (resources d)) d).

Definition set_view_count (now : Time) (r : ResourceRow.t) : ResourceRow.t :=
  ResourceRow.mk (ResourceRow.id r) (ResourceRow.user_id r)
    (ResourceRow.title r) (ResourceRow.text_content r)
    (ResourceRow.code_content r) (ResourceRow.author r)
    (ResourceRow.publish_time r)
    (ResourceRow.like_count r) (ResourceRow.view_count r + 1)%N
    (ResourceRow.comment_count r) (Some now).

Definition set_like_count (now : Time) (r : ResourceRow.t) : ResourceRow.t :=
  ResourceRow.mk (ResourceRow.id r) (ResourceRow.user_id r)
    (ResourceRow.title r) (ResourceRow.text_content r)
    (ResourceRow.code_content r) (ResourceRow.author r)
    (ResourceRow.publish_time r)
    (ResourceRow.like_count r + 1)%N (ResourceRow.view_count r)
    (ResourceRow.comment_count r) (Some now).

Definition set_comment_count (now : Time) (r : ResourceRow.t) : ResourceRow.t :=
  ResourceRow.mk (ResourceRow.id r) (ResourceRow.user_id r)
    (ResourceRow.title r) (ResourceRow.text_content r)
    (ResourceRow.code_content r) (ResourceRow.author r)
    (ResourceRow.publish_time r)
    (ResourceRow.like_count r) (ResourceRow.view_count r)
    (ResourceRow.comment_count r + 1)%N (Some now).

Definition IncrViewCount (id : N) : M unit :=
  r <- try (exec_update_resource (UpdateViewCount id) set_view_count id) ;;
  match r with
  | Fail err =>
      match errors_As_MySQLError err with
      | Some n => fail (New (ViewUpdateMySQL n))
      | None => fail (Wrapf (ViewUpdateFailed id) err)
      end
  | Ok _ => ret tt
  end.

Definition IncrLikeCount (id : N) : M unit :=
  r <- try (exec_update_resource (UpdateLikeCount id) set_like_count id) ;;
  match r with
  | Fail err =>
      match errors_As_MySQLError err with
      | Some n => fail (New (LikeUpdateMySQL n))
      | None => fail (Wrapf (LikeUpdateFailed id) err)
      end
  | Ok _ => ret tt
  end.

Definition IncrCommentCount (id : N) : M unit :=
  r <- try (exec_update_resource (UpdateCommentCount id) set_comment_count id) ;;
  match r with
  | Fail err =>
      match errors_As_MySQLError err with
      | Some n => fail (New (CommentUpdateMySQL n))
      | None => fail (Wrapf (CommentUpdateFailed id) err)
      end
  | Ok _ => ret tt
  end.

End Resources.

End repository.

(** ** service *)

Module service.

Definition CreateAccount (userUUID : GoString) : M unit :=
  if str_eqb userUUID []
  then fail (New UUIDEmpty)
  else
    r <- try (repository.CreateAccount userUUID) ;;
    match r with
    | Fail err => fail (Wrapf CreateAccountFailed err)
    | Ok _ => ret tt
    end.

Definition response (account : UserAccount.t) : AccountResponse.t :=
  AccountResponse.mk (UserAccount.UserUUID account)
    (UserAccount.Balance account)
    (UserAccount.TotalRecharge account)
    (UserAccount.TotalConsume account).

Definition Recharge (req : RechargeRequest.t) : M AccountResponse.t :=
  if str_eqb (RechargeRequest.UserUUID req) []
  then fail (New UUIDEmpty)
  else if LessThanOrEqual (RechargeRequest.Amount req) decimal_Zero
  then fail (New RechargeAmountNotPositive)
  else
    r <- try (repository.GetUserByUuid (RechargeRequest.UserUUID req)) ;;
    match r with
    | Fail err => fail (Wrapf UserNotExist err)
    | Ok _ =>
        r <- try (repository.RechargeBalance (RechargeRequest.UserUUID req)
                    (RechargeRequest.Amount req)) ;;
        match r with
        | Fail err => fail (Wrapf RechargeOpFailed err)
        | Ok _ =>
            r <- try (repository.GetAccountByUserUUID
                        (RechargeRequest.UserUUID req)) ;;
            match r with
            | Fail err => fail (Wrapf QueryAfterRechargeFailed err)
            | Ok None => fail (New AccountInfoMissing)
            | Ok (Some account) => ret (response account)
            end
        end
    end.

Definition Deduct (req : DeductRequest.t) : M AccountResponse.t :=
  if str_eqb (DeductRequest.UserUUID req) []
  then fail (New UUIDEmpty)
  else if LessThanOrEqual (DeductRequest.Amount req) decimal_Zero
  then fail (New DeductAmountNotPositive)
  else
    r <- try (repository.GetUserByUuid (DeductRequest.UserUUID req)) ;;
    match r with
    | Fail err => fail (Wrapf UserNotExist err)
    | Ok _ =>
        r <- try (repository.DeductBalance (DeductRequest.UserUUID req)
                    (DeductRequest.Amount req)) ;;
        match r with
        | Fail err => fail (Wrapf DeductFailed err)
        | Ok _ =>
            r <- try (repository.GetAccountByUserUUID
                        (DeductRequest.UserUUID req)) ;;
            match r with
            | Fail err => fail (Wrapf QueryAfterDeductFailed err)
            | Ok None => fail (New AccountInfoMissing)
            | Ok (Some account) => ret (response account)
            end
        end
    end.

Definition GetAccountByUserUUID (userUUID : GoString) : M AccountResponse.t :=
  if str_eqb userUUID []
  then fail (New UUIDEmpty)
  else
    r <- try (repository.GetAccountByUserUUID userUUID) ;;
    match r with
    | Fail err => fail (Wrapf QueryAccountInfoFailed err)
    | Ok None => fail (New AccountInfoNotFound)
    | Ok (Some account) => ret (response account)
    end.

(** *** resources *)

Section Resources.
Context `{Platform}.

Definition CreateResource (userID : N) (title text code : GoString) : M unit :=
  if (userID =? 0)%N
  then fail (New UserIDZero)
  else
    let title := TrimSpace title in
    if str_eqb title []
    then fail (New TitleEmpty)
    else if len title >? 100
    then fail (New (TitleTooLong (len title)))
    else
      r <- try (repository.GetUserById userID) ;;
      match r with
      | Fail err => fail (Wrapf (QueryUserByIDFailed userID) err)
      | Ok None => fail (New (UserNil userID))
      | Ok (Some user) =>
          if str_eqb (TrimSpace (User.Username user)) []
          then fail (New (UsernameBlank userID))
          else
            now <- read_time_Now ;;
            let resource :=
              Resource.mk 0 userID title (TrimSpace text) code
                (User.Username user) now 0 0 0 in
            r <- try (repository.CreateResource resource) ;;
            match r with
            | Fail err => fail (Wrapf (CreateResourceFailed title userID) err)
            | Ok _ => ret tt
            end
      end.

Definition convertModelToDTO (res : Resource.t) : ResourceItem.t :=
  let publishTime := time_Format (Resource.PublishTime res) in
  ResourceItem.mk (Resource.ID res) (Resource.Title res)
    (Resource.TextContent res) (Resource.CodeContent res)
    (Resource.Author res) publishTime (Resource.UserID res)
    (Resource.LikeCount res) (Resource.ViewCount res)
    (Resource.CommentCount res).

Definition GetResourceList (page size : Z) (keyword : GoString)
  : M (list ResourceItem.t * Z) :=
  if page <? 1
  then fail (New (PageInvalid page))
  else if (size <? 1) || (size >? 50)
  then fail (New (SizeInvalid size))
  else
    let offset := int_mul (int_sub page 1) size in
    r <- try (repository.CountResources keyword) ;;
    match r with
    | Fail err => fail (Wrapf CountFailed err)
    | Ok total =>
        if total =? 0
        then ret ([], 0)
        else
          r <- try (repository.GetResourceList offset size keyword) ;;
          match r with
          | Fail err => fail (Wrapf ListFailed err)
          | Ok resourceModels =>
              let resourceDTOs :=
                fold_left
                  (fun dtos resModel => dtos ++ [convertModelToDTO resModel])
                  resourceModels [] in
              ret (resourceDTOs, total)
          end
    end.

Definition GetResourceByID (id : N) : M (option Resource.t) :=
  if (id <=? 0)%N
  then fail (New (ResourceIDNotPositive id))
  else
    r <- try (repository.GetResourceByID id) ;;
    match r with
    | Fail err => fail (Wrapf (QueryResourceFailed id) err)
    | Ok resource => ret resource
    end.

Definition IncrViewCount (id : N) : M unit :=
  r <- try (repository.IncrViewCount id) ;;
  match r with
  | Fail err => fail (Wrapf ViewCountFailed err)
  | Ok _ => ret tt
  end.

Definition IncrLikeCount (id : N) : M unit :=
  if (id <=? 0)%N
  then fail (New (ResourceIDInvalid id))
  else
    r <- try (repository.IncrLikeCount id) ;;
    match r with
    | Fail err => fail (Wrapf LikeCountFailed err)
    | Ok _ => ret tt
    end.

Definition CreateComment (id : N) (content : GoString) : M unit :=
  if (id <=? 0)%N
  then fail (New (ResourceIDInvalid id))
  else
    let content := TrimSpace content in
    if str_eqb content []
    then fail (New CommentEmpty)
    else
      r <- try (repository.IncrCommentCount id) ;;
      match r with
      | Fail err => fail (Wrapf CommentCountFailed err)
      | Ok _ => ret tt
      end.

End Resources.

End service.

(** ** Runs of ledger operations *)

Inductive LedgerOp : Type :=
| CallRechargeBalance (userUUID : GoString) (amount : Decimal)
| CallDeductBalance (userUUID : GoString) (amount : Decimal)
| CallRecharge (req : RechargeRequest.t)
| CallDeduct (req : DeductRequest.t).

(** The world after one call, whatever the call returns. *)
Definition ledger_step (op : LedgerOp) (w : World) : World :=
  match op with
  | CallRechargeBalance u a => fst (repository.RechargeBalance u a w)
  | CallDeductBalance u a => fst (repository.DeductBalance u a w)
  | CallRecharge req => fst (service.Recharge req w)
  | CallDeduct req => fst (service.Deduct req w)
  end.

Definition ledger_run (ops : list LedgerOp) (w : World) : World :=
  fold_left (fun w op => ledger_step op w) ops w.

(** The amount and the account a ledger call names. *)
Definition ledger_amount (op : LedgerOp) : Decimal :=
  match op with
  | CallRechargeBalance _ a => a
  | CallDeductBalance _ a => a
  | CallRecharge req => RechargeRequest.Amount req
  | CallDeduct req => DeductRequest.Amount req
  end.

Definition ledger_target (op : LedgerOp) : GoString :=
  match op with
  | CallRechargeBalance u _ => u
  | CallDeductBalance u _ => u
  | CallRecharge req => RechargeRequest.UserUUID req
  | CallDeduct req => DeductRequest.UserUUID req
  end.

(** The account row a query by [user_uuid] reads. *)
Definition account_of (w : World) (userUUID : GoString) : option AccountRow.t :=
  find (repository.by_user_uuid userUUID) (user_account (store w)).

Definition ledger_equation (a : AccountRow.t) : Prop :=
  AccountRow.balance a = AccountRow.total_recharge a - AccountRow.total_consume a.

Definition nonnegative (a : AccountRow.t) : Prop :=
  0 <= AccountRow.balance a
  /\ 0 <= AccountRow.total_recharge a
  /\ 0 <= AccountRow.total_consume a.

(** What the two updates do to the store, as functions of the store. *)
Definition update_store (u : GoString) (set : AccountRow.t -> AccountRow.t)
  (assigned : AccountRow.t -> list Z) (d : DB) : DB :=
  if repository.update_in_range u set assigned (user_account d)
  then with_user_account
         (update_where (repository.by_user_uuid u) set (user_account d)) d
  else d.

Definition recharge_store (u : GoString) (amount : Decimal) (d : DB) : DB :=
  if LessThanOrEqual amount decimal_Zero then d
  else update_store u (repository.set_recharge amount)
         repository.assigned_recharge d.

Definition deduct_store (u : GoString) (amount : Decimal) (d : DB) : DB :=
  if LessThanOrEqual amount decimal_Zero then d
  else
    match find (repository.by_user_uuid u) (user_account d) with
    | None => d
    | Some row =>
        if LessThan (scan_decimal (AccountRow.balance row)) amount then d
        else update_store u (repository.set_deduct amount)
               repository.assigned_deduct d
    end.

(** The moves of one account row across a call with [amount]: untouched,
    recharged by the amount, which is positive, or reduced by the amount,
    which is positive and which its balance covers. *)
Definition account_moves (amount : Decimal) (a a' : AccountRow.t) : Prop :=
  a' = a
  \/ (LessThanOrEqual amount decimal_Zero = false
      /\ a' = repository.set_recharge amount a)
  \/ (LessThanOrEqual amount decimal_Zero = false
      /\ LessThan (scan_decimal (AccountRow.balance a)) amount = false
      /\ a' = repository.set_deduct amount a).

(** ** Sample worlds *)

Definition empty_DB : DB := mkDB [] [] [] 1 1.
Definition empty_World : World := mkWorld empty_DB 0 0 [].

Definition u1 : GoString := lit "u1".

(** A store with the user [u1] and no account yet. *)
Definition world_u1 : World :=
  mkWorld (mkDB [User.mk 1 u1 (lit "alice")] [] [] 1 1) 0 0 [].

(** The user row a query by [uuid] reads. *)
Definition user_of (w : World) (uuid : GoString) : option User.t :=
  find (fun u => str_eqb (User.UUID u) uuid) (users (store w)).

(** [u1] is registered and has a fresh account. *)
Definition world_account : World := fst (repository.CreateAccount u1 world_u1).

(** ** Resources: views of the store and sample worlds *)

(** The resource row a query by [id] reads. *)
Definition resource_of (w : World) (id : N) : option ResourceRow.t :=
  find (repository.by_id id) (resources (store w)).

(** The world after a counter update: the statement is sent and [set] is
    applied, with the store's clock, to the rows of that [id]. *)
Definition counted (s : Stmt) (set : Time -> ResourceRow.t -> ResourceRow.t)
  (id : N) (w : World) : World :=
  with_store
    (with_resources
       (update_where (repository.by_id id) (set (CURRENT_TIMESTAMP w))
          (resources (store w)))
       (store w))
    (called s w).

(** The rows matching a keyword, newest first, as the store orders them
    for a query that runs in the world [w]: what a page is cut from. *)
Definition listing `{Platform} (keyword : GoString) (w : World)
  : list ResourceRow.t :=
  repository.order_by_publish_time_desc (ORDER_BY_ties w)
    (filter (repository.keyword_filter keyword) (resources (store w))).

(** The matching rows have pairwise distinct publication times. *)
Definition distinct_times `{Platform} (keyword : GoString) (w : World) : Prop :=
  NoDup (map ResourceRow.publish_time
           (filter (repository.keyword_filter keyword) (resources (store w)))).

Definition total_of `{Platform} (keyword : GoString) (w : World) : Z :=
  Z.of_nat (List.length (filter (repository.keyword_filter keyword)
                           (resources (store w)))).

(** The error the store's CreateResource returns for the number of the
    driver error of a refused [INSERT]. *)
Definition insert_resource_error (number : N) : Err :=
  match number with
  | 1062%N => New ResourceUniqueConflict
  | 1048%N => New ResourceRequiredNull
  | 1452%N => New ResourceUserMissing
  | _ => Wrapf InsertResourceFailed (MySQLError number)
  end.

(** The effect the specification words give to a comment: one more in
    [comment_count], nothing else. *)
Definition spec_comment_effect (id : N) (d : DB) : DB :=
  with_resources
    (update_where (repository.by_id id)
       (fun r =>
          ResourceRow.mk (ResourceRow.id r) (ResourceRow.user_id r)
            (ResourceRow.title r) (ResourceRow.text_content r)
            (ResourceRow.code_content r) (ResourceRow.author r)
            (ResourceRow.publish_time r)
            (ResourceRow.like_count r) (ResourceRow.view_count r)
            (ResourceRow.comment_count r + 1)%N (ResourceRow.updated_at r))
       (resources d)) d.

(** A binary [LIKE]: percent matches any run of code points, underscore
    any single one. *)
Fixpoint like_binary (pattern subject : GoString) : bool :=
  match pattern with
  | [] => match subject with [] => true | _ => false end
  | c :: pattern' =>
      if (c =? 37)%N then
        (fix any (s : GoString) : bool :=
           like_binary pattern' s
           || match s with
              | [] => false
              | _ :: s' => any s'
              end) subject
      else
        match subject with
        | [] => false
        | d :: subject' =>
            ((c =? 95)%N || (c =? d)%N) && like_binary pattern' subject'
        end
  end.

(** A platform for the sample worlds: [resources] has no constraint beyond
    its foreign key, and rows of equal time come in the order of the
    table. *)
Definition sample_Platform : Platform :=
  Build_Platform
    (fun subject pattern => like_binary pattern subject)
    (fun _ _ _ => Fail (MySQLError 1210))
    (fun now => Some now)
    (fun _ => lit "1970-01-01 00:00:00")
    (fun _ _ => None)
    (fun _ _ => 0%N).

(** The same platform with a unique index on [title] and [user_id], the
    example the store's CreateResource gives for error 1062. *)
Definition unique_title_Platform : Platform :=
  Build_Platform
    (fun subject pattern => like_binary pattern subject)
    (fun _ _ _ => Fail (MySQLError 1210))
    (fun now => Some now)
    (fun _ => lit "1970-01-01 00:00:00")
    (fun d resource =>
       if existsb (fun r => (ResourceRow.user_id r =? Resource.UserID resource)%N
                            && str_eqb (ResourceRow.title r) (Resource.Title resource))
            (resources d)
       then Some 1062%N else None)
    (fun _ _ => 0%N).

(** [alice] has published one resource at time 0. *)
Definition world_resource : World :=
  fst (@service.CreateResource sample_Platform 1
         (lit "  Go Tutorial ") (lit "basics") (lit "package main") world_u1).

(** The same store, read when both clocks show 9. *)
Definition world_later : World :=
  mkWorld (store world_resource) 9 9 (calls world_resource).

(** Twenty-five resources published at the times 1 to 25. *)
Definition world_25 : World :=
  mkWorld
    (mkDB [User.mk 1 u1 (lit "alice")] []
       (map (fun i => ResourceRow.mk (N.of_nat i) 1 (lit "snippet") None None
                        (lit "alice") (Z.of_nat i) 0 0 0 None)
          (seq 1 25))
       1 26)
    0 0 [].

(** A title of 34 code points U+4E2D, 102 bytes in UTF-8. *)
Definition title_34 : GoString := repeat 20013%N 34.

(** A page number whose offset does not fit a machine integer. *)
Definition page_overflow : Z := 4611686018427387905.

(** ** Runs of account calls *)

Inductive AccountCall : Type :=
| CallRepositoryCreateAccount (userUUID : GoString)
| CallCreateAccount (userUUID : GoString)
| CallGetAccountByUserUUID (userUUID : GoString)
| CallLedger (op : LedgerOp).

Definition account_step (c : AccountCall) (w : World) : World :=
  match c with
  | CallRepositoryCreateAccount u => fst (repository.CreateAccount u w)
  | CallCreateAccount u => fst (service.CreateAccount u w)
  | CallGetAccountByUserUUID u => fst (service.GetAccountByUserUUID u w)
  | CallLedger op => ledger_step op w
  end.

Definition account_run (cs : list AccountCall) (w : World) : World :=
  fold_left (fun w c => account_step c w) cs w.

(** No two rows of [user_account] carry the same [user_uuid]. *)
Definition unique_accounts (w : World) : Prop :=
  NoDup (map AccountRow.user_uuid (user_account (store w))).

(** What a ledger call leaves alone in a store. *)
Definition ledger_frame (u' : GoString) (d d' : DB) : Prop :=
  find (repository.by_user_uuid u') (user_account d')
  = find (repository.by_user_uuid u') (user_account d)
  /\ users d' = users d /\ resources d' = resources d
  /\ List.length (user_account d') = List.length (user_account d).

(** A second identity: it has an account row and no user row. *)
Definition u2 : GoString := lit "u2".
Definition world_two : World := fst (repository.CreateAccount u2 world_account).

(** ** Runs of counter updates and pages *)

(** The auto-increment of [resources] is positive and above every id in
    the table. *)
Definition sequence_ahead (w : World) : Prop :=
  (0 < resources_seq (store w))%N
  /\ forall r, In r (resources (store w)) ->
               (ResourceRow.id r < resources_seq (store w))%N.

(** The items of one page, empty when the call fails. *)
Definition page_items `{Platform} (size : Z) (keyword : GoString) (w : World)
  (page : Z) : list ResourceItem.t :=
  match snd (service.GetResourceList page size keyword w) with
  | Ok (items, _) => items
  | Fail _ => []
  end.

(** Newest first. *)
Definition newest_first (l : list Resource.t) : Prop :=
  Sorted (fun a b => Resource.PublishTime b <= Resource.PublishTime a) l.

(** Rows in the order of [ORDER BY publish_time DESC]. *)
Definition rows_newest_first (l : list ResourceRow.t) : Prop :=
  StronglySorted
    (fun a b => ResourceRow.publish_time b <= ResourceRow.publish_time a) l.

(** ** pkg: tokens, upload limits, verification codes *)

Module pkg.

(** [strings.EqualFold] against a pattern of ASCII letters that have no
    case variant outside ASCII (every letter but k and s): letters are
    compared without case, anything else must be equal. *)
Definition fold_ascii (r : rune) : rune :=
  if ((65 <=? r) && (r <=? 90))%N then (r + 32)%N else r.

Fixpoint EqualFold (s t : GoString) : bool :=
  match s, t with
  | [], [] => true
  | a :: s', b :: t' => (fold_ascii a =? fold_ascii b)%N && EqualFold s' t'
  | _, _ => false
  end.

(** [tokenStr[:7]] and [tokenStr[7:]] cut at byte 7.  The comparison with
    the seven ASCII bytes of the prefix only succeeds when the first seven
    bytes are seven ASCII code points, and then byte 7 is where the eighth
    code point starts: the cut is taken after seven code points. *)
Definition CleanToken (tokenStr : GoString) : GoString :=
  let tokenStr := TrimSpace tokenStr in
  if (len tokenStr >? 7) && EqualFold (firstn 7 tokenStr) (lit "bearer ")
  then skipn 7 tokenStr
  else tokenStr.

(** *** sizeLimitWriter *)

Section SizeLimit.

(** The wrapped [io.Writer]: a state, and a [Write] that returns the new
    state, the count of bytes written and an error or none. *)
Variable Writer : Type.
Variable InnerErr : Type.
Variable inner_Write :
  Writer -> list Byte.byte -> Writer * (Z * option InnerErr).

Inductive WriteErr : Type :=
| errSizeExceed               (* 文件大小超限 *)
| InnerError (e : InnerErr).

Record sizeLimitWriter : Type := mkSizeLimitWriter {
  writer : Writer;
  maxSize : Z;
  written : Z }.

(** [len(p)] and the returned count are Go [int]s, the two sums are
    computed in [int64]. *)
Definition Write (w : sizeLimitWriter) (p : list Byte.byte)
  : sizeLimitWriter * (Z * option WriteErr) :=
  if int_wrap (written w + Z.of_nat (List.length p)) >? maxSize w
  then (w, (0, Some errSizeExceed))
  else
    let '(inner, (n, err)) := inner_Write (writer w) p in
    (mkSizeLimitWriter inner (maxSize w) (int_wrap (written w + n)),
     (n, option_map InnerError err)).

(** The writer after a sequence of [Write] calls, and the counts they
    returned. *)
Fixpoint Write_all (w : sizeLimitWriter) (chunks : list (list Byte.byte))
  : sizeLimitWriter * list Z :=
  match chunks with
  | [] => (w, [])
  | p :: chunks' =>
      let '(w', (n, _)) := Write w p in
      let '(w'', ns) := Write_all w' chunks' in
      (w'', n :: ns)
  end.

End SizeLimit.

(** *** verification codes *)

Record codeItem : Type := mkCodeItem { Code : GoString; ExpireAt : Time }.

(** [codeStore], a [sync.Map] from e-mail address to [codeItem], as the
    list of its entries. *)
Definition CodeStore : Type := list (GoString * codeItem).

Definition Load (m : CodeStore) (key : GoString) : option codeItem :=
  option_map snd (find (fun kv => str_eqb (fst kv) key) m).

Definition Delete (key : GoString) (m : CodeStore) : CodeStore :=
  filter (fun kv => negb (str_eqb (fst kv) key)) m.

Definition Store (key : GoString) (value : codeItem) (m : CodeStore) : CodeStore :=
  (key, value) :: Delete key m.

(** [time.Minute], in nanoseconds. *)
Definition Minute : Z := 60 * 1000000000.

(** [now] is what [time.Now()] returns inside the call. *)
Definition saveCodeToMap (now : Time) (email code : GoString) (m : CodeStore)
  : CodeStore :=
  let expireAt := now + 5 * Minute in
  Store email (mkCodeItem code expireAt) m.

Inductive VerifyErr : Type :=
| CodeInvalid                 (* 验证码无效 *)
| CodeExpired                 (* 验证码已过期 *)
| CodeWrong.                  (* 验证码错误 *)

(** Only [codeItem]s are stored, so the type assertion of the source
    always holds. *)
Definition VerifyCodeFromMap (now : Time) (email inputCode : GoString)
  (m : CodeStore) : CodeStore * option VerifyErr :=
  match Load m email with
  | None => (m, Some CodeInvalid)
  | Some item =>
      if ExpireAt item <? now
      then (Delete email m, Some CodeExpired)
      else if negb (str_eqb (Code item) inputCode)
      then (m, Some CodeWrong)
      else (Delete email m, None)
  end.

(** *** base64Encode *)

(** The UTF-8 bytes of a code point. *)
Definition utf8_EncodeRune (r : rune) : list N :=
  (if r <? 128 then [r]
   else if r <? 2048 then [192 + (r / 64) mod 32; 128 + r mod 64]
   else if r <? 65536
   then [224 + (r / 4096) mod 16; 128 + (r / 64) mod 64; 128 + r mod 64]
   else [240 + (r / 262144) mod 8; 128 + (r / 4096) mod 64;
         128 + (r / 64) mod 64; 128 + r mod 64])%N.

(** [[]byte(str)] *)
Definition bytes (str : GoString) : list N := flat_map utf8_EncodeRune str.

Definition hex_digit (d : N) : rune :=
  (if d <? 10 then 48 + d else 87 + d)%N.

(** [fmt.Sprintf("%x", []byte(str))]: two lower-case hexadecimal digits for
    each byte. *)
Definition base64Encode (str : GoString) : GoString :=
  flat_map (fun b => [hex_digit (b / 16)%N; hex_digit (b mod 16)%N]) (bytes str).

End pkg.

(** A writer that keeps every byte it is given. *)
Definition buffer_Write (buf : list Byte.byte) (p : list Byte.byte)
  : list Byte.byte * (Z * option unit) :=
  (buf ++ p, (Z.of_nat (List.length p), None)).

(** * Properties *)

(** ** Strings *)

Lemma str_eqb_eq (s t : GoString) : str_eqb s t = true <-> s = t.
Proof.
  revert t; induction s as [|a s IH]; intros [|b t]; cbn; split;
    try congruence; try reflexivity.
  - intros E. apply andb_true_iff in E as [E1 E2].
    apply N.eqb_eq in E1. apply IH in E2. congruence.
  - intros E. injection E as -> ->. rewrite N.eqb_refl. cbn. now apply IH.
Qed.

Lemma str_eqb_refl (s : GoString) : str_eqb s s = true.
Proof. now apply str_eqb_eq. Qed.

Lemma str_eqb_nil (s : GoString) : str_eqb s [] = true <-> s = [].
Proof. apply str_eqb_eq. Qed.

Lemma utf8_RuneLen_pos (r : rune) : 1 <= utf8_RuneLen r.
Proof.
  unfold utf8_RuneLen.
  destruct (r <? 128)%N, (r <? 2048)%N, (r <? 65536)%N; lia.
Qed.

(** A string has at most as many code points as bytes. *)
Lemma length_le_len (s : GoString) : Z.of_nat (List.length s) <= len s.
Proof.
  induction s as [|r s IH]; cbn [len List.length]; [lia|].
  pose proof (utf8_RuneLen_pos r). lia.
Qed.

(** ** Decimals and the amounts of a column *)

Lemma pow10_pos (z : Z) : 0 <= z -> 0 < 10 ^ z.
Proof. intros Hz. apply Z.pow_pos_nonneg; lia. Qed.

Lemma hundredths_pos (d : Decimal) : 0 < snd (hundredths d).
Proof.
  unfold hundredths. destruct (Z.leb_spec (-2) (exp d)); cbn [snd]; [lia|].
  apply pow10_pos. lia.
Qed.

Lemma compare_scaled (v P : Z) : 0 < P -> (v * P ?= 0) = (v ?= 0).
Proof.
  intros HP. destruct (Z.compare_spec v 0) as [->|Hv|Hv].
  - reflexivity.
  - apply Z.compare_lt_iff. nia.
  - apply Z.compare_gt_iff. nia.
Qed.

(** The guard of the sources, [amount.LessThanOrEqual(decimal.Zero)], reads
    the sign of the integer of the decimal. *)
Lemma LessThanOrEqual_Zero (d : Decimal) :
  LessThanOrEqual d decimal_Zero = (value d <=? 0).
Proof.
  unfold LessThanOrEqual, Cmp, decimal_Zero, rescale, Z.leb. cbn [exp value].
  destruct (exp d =? 1); [reflexivity|].
  cbv zeta. rewrite Z.mul_0_l, compare_scaled; [reflexivity|].
  apply pow10_pos. lia.
Qed.

Lemma hundredths_positive (d : Decimal) :
  LessThanOrEqual d decimal_Zero = false <-> 0 < fst (hundredths d).
Proof.
  rewrite LessThanOrEqual_Zero, Z.leb_gt.
  unfold hundredths. destruct (Z.leb_spec (-2) (exp d)); cbn [fst]; [|tauto].
  pose proof (@pow10_pos (exp d + 2) ltac:(lia)). nia.
Qed.

(** The balance check of the sources, [balance.LessThan(amount)] on a
    balance read from its column, compares the hundredths. *)
Lemma LessThan_column (c : Z) (d : Decimal) :
  LessThan (scan_decimal c) d
  = (c * snd (hundredths d) <? fst (hundredths d)).
Proof.
  unfold LessThan, Cmp, scan_decimal, rescale, hundredths, Z.ltb.
  cbn [exp value].
  destruct (Z.eqb_spec (-2) (exp d)) as [E|E].
  - rewrite <- E. cbn [Z.leb Z.compare fst snd Z.add Z.pow Z.pow_pos Pos.iter
                       Pos.add Z.pos_sub Z.opp].
    now rewrite !Z.mul_1_r.
  - cbv zeta. destruct (Z.leb_spec (-2) (exp d)) as [H|H]; cbn [fst snd].
    + rewrite Z.min_l by lia.
      replace (-2 - -2) with 0 by lia.
      replace (exp d - -2) with (exp d + 2) by lia.
      now rewrite Z.pow_0_r, !Z.mul_1_r.
    + rewrite Z.min_r by lia.
      replace (exp d - exp d) with 0 by lia.
      now rewrite Z.pow_0_r, Z.mul_1_r.
Qed.

Lemma round_half_away_whole (c k : Z) : 0 < k -> round_half_away (c * k) k = c.
Proof.
  intros Hk. unfold round_half_away.
  assert (E : (2 * Z.abs (c * k) + k) / (2 * k) = Z.abs c).
  { symmetry. apply Z.div_unique_pos with (r := k); [lia|].
    rewrite Z.abs_mul, (Z.abs_eq k) by lia. ring. }
  rewrite E. destruct (Z.lt_trichotomy c 0) as [H|[->|H]].
  - rewrite Z.sgn_neg by nia. lia.
  - reflexivity.
  - rewrite Z.sgn_pos by nia. lia.
Qed.

Lemma round_half_away_nonneg (n k : Z) :
  0 < k -> 0 <= n -> 0 <= round_half_away n k.
Proof.
  intros Hk Hn. unfold round_half_away.
  apply Z.mul_nonneg_nonneg; [now apply Z.sgn_nonneg|].
  apply Z.div_pos; lia.
Qed.

Lemma round_half_away_ge (c n k : Z) :
  0 < k -> 0 <= c -> 0 <= n -> c <= round_half_away (c * k + n) k.
Proof.
  intros Hk Hc Hn. unfold round_half_away.
  destruct (Z.eq_dec (c * k + n) 0) as [E|E].
  - rewrite E. cbn. nia.
  - rewrite Z.sgn_pos, Z.abs_eq, Z.mul_1_l by nia.
    apply Z.div_le_lower_bound; [lia|nia].
Qed.

(** A positive amount never lowers the column it is added to, and a covered
    amount never takes a balance below zero, whatever the rounding. *)
Lemma column_plus_ge (c : Z) (d : Decimal) :
  0 <= c -> LessThanOrEqual d decimal_Zero = false -> c <= column_plus c d.
Proof.
  intros Hc Hd. apply hundredths_positive in Hd.
  pose proof (hundredths_pos d) as Hk. unfold column_plus.
  destruct (hundredths d) as [n k]. cbn [fst snd] in *.
  apply round_half_away_ge; lia.
Qed.

Lemma column_minus_nonneg (c : Z) (d : Decimal) :
  LessThan (scan_decimal c) d = false -> 0 <= column_minus c d.
Proof.
  rewrite LessThan_column. intros Hd. apply Z.ltb_ge in Hd.
  pose proof (hundredths_pos d) as Hk. unfold column_minus.
  destruct (hundredths d) as [n k]. cbn [fst snd] in *.
  apply round_half_away_nonneg; lia.
Qed.

(** Amounts of whole hundredths are added and subtracted exactly. *)
Lemma whole_hundredths_cents (d : Decimal) :
  whole_hundredths d -> fst (hundredths d) = cents d * snd (hundredths d).
Proof.
  unfold whole_hundredths, cents. intros Hm. pose proof (hundredths_pos d) as Hk.
  pose proof (Z.div_mod (fst (hundredths d)) (snd (hundredths d)) ltac:(lia)) as E.
  rewrite Hm in E. nia.
Qed.

Lemma column_plus_whole (c : Z) (d : Decimal) :
  whole_hundredths d -> column_plus c d = c + cents d.
Proof.
  intros Hw. apply whole_hundredths_cents in Hw.
  pose proof (hundredths_pos d) as Hk. unfold column_plus.
  destruct (hundredths d) as [n k]. cbn [fst snd] in *. rewrite Hw.
  replace (c * k + cents d * k) with ((c + cents d) * k) by ring.
  now apply round_half_away_whole.
Qed.

Lemma column_minus_whole (c : Z) (d : Decimal) :
  whole_hundredths d -> column_minus c d = c - cents d.
Proof.
  intros Hw. apply whole_hundredths_cents in Hw.
  pose proof (hundredths_pos d) as Hk. unfold column_minus.
  destruct (hundredths d) as [n k]. cbn [fst snd] in *. rewrite Hw.
  replace (c * k - cents d * k) with ((c - cents d) * k) by ring.
  now apply round_half_away_whole.
Qed.

Lemma LessThan_column_whole (c : Z) (d : Decimal) :
  whole_hundredths d -> LessThan (scan_decimal c) d = (c <? cents d).
Proof.
  intros Hw. apply whole_hundredths_cents in Hw.
  pose proof (hundredths_pos d) as Hk. rewrite LessThan_column, Hw.
  destruct (Z.ltb_spec c (cents d)); [apply Z.ltb_lt|apply Z.ltb_ge]; nia.
Qed.

Lemma cents_positive (d : Decimal) :
  whole_hundredths d -> LessThanOrEqual d decimal_Zero = false -> 0 < cents d.
Proof.
  intros Hw Hd. apply whole_hundredths_cents in Hw.
  apply hundredths_positive in Hd. pose proof (hundredths_pos d) as Hk. nia.
Qed.

(** A balance that is not negative is below positive amounts only. *)
Lemma LessThan_column_positive (c : Z) (d : Decimal) :
  0 <= c -> LessThan (scan_decimal c) d = true ->
  LessThanOrEqual d decimal_Zero = false.
Proof.
  intros Hc. rewrite LessThan_column. intros Hd. apply Z.ltb_lt in Hd.
  apply hundredths_positive. pose proof (hundredths_pos d) as Hk. nia.
Qed.

(** ** Tables *)

Lemma update_where_none {R} (p : R -> bool) (f : R -> R) (l : list R) :
  find p l = None -> update_where p f l = l.
Proof.
  unfold update_where. induction l as [|r l IH]; cbn; [reflexivity|].
  destruct (p r) eqn:E; [discriminate|]. intros Hf. now rewrite IH.
Qed.

Lemma rows_affected_none {R} (eqb : R -> R -> bool) (p : R -> bool)
  (f : R -> R) (l : list R) :
  find p l = None -> rows_affected eqb p f l = 0.
Proof.
  unfold rows_affected. induction l as [|r l IH]; cbn; [reflexivity|].
  destruct (p r) eqn:E; [discriminate|]. cbn. exact IH.
Qed.

Lemma rows_affected_some {R} (eqb : R -> R -> bool) (p : R -> bool)
  (f : R -> R) (l : list R) (r0 : R) :
  (forall r, p r = true -> eqb r (f r) = false) ->
  find p l = Some r0 -> 0 < rows_affected eqb p f l.
Proof.
  unfold rows_affected. intros Hch.
  induction l as [|r l IH]; cbn; [discriminate|].
  destruct (p r) eqn:E.
  - intros _. rewrite (Hch r E). cbn [negb andb List.length]. lia.
  - cbn. exact IH.
Qed.

Lemma find_update_account (u u' : GoString) (f : AccountRow.t -> AccountRow.t)
  (l : list AccountRow.t) :
  (forall r, AccountRow.user_uuid (f r) = AccountRow.user_uuid r) ->
  find (repository.by_user_uuid u) (update_where (repository.by_user_uuid u') f l)
  = option_map (fun r => if repository.by_user_uuid u' r then f r else r)
      (find (repository.by_user_uuid u) l).
Proof.
  intros Hf. unfold update_where.
  induction l as [|r l IH]; cbn; [reflexivity|].
  assert (E : repository.by_user_uuid u
                (if repository.by_user_uuid u' r then f r else r)
              = repository.by_user_uuid u r).
  { destruct (repository.by_user_uuid u' r); [|reflexivity].
    unfold repository.by_user_uuid. now rewrite Hf. }
  rewrite E. destruct (repository.by_user_uuid u r); [reflexivity|exact IH].
Qed.

Lemma find_by_user_uuid (u : GoString) (l : list AccountRow.t) (a : AccountRow.t) :
  find (repository.by_user_uuid u) l = Some a -> AccountRow.user_uuid a = u.
Proof.
  intros Hf. apply find_some in Hf as [_ E]. now apply str_eqb_eq in E.
Qed.

Lemma existsb_find_none {R} (p : R -> bool) (l : list R) :
  existsb p l = false <-> find p l = None.
Proof.
  induction l as [|r l IH]; cbn; [tauto|].
  destruct (p r); cbn; [split; discriminate|exact IH].
Qed.

(** An update that selects no row assigns nothing. *)
Lemma update_in_range_none (u : GoString) (f : AccountRow.t -> AccountRow.t)
  (assigned : AccountRow.t -> list Z) (l : list AccountRow.t) :
  find (repository.by_user_uuid u) l = None ->
  repository.update_in_range u f assigned l = true.
Proof.
  intros Hf. unfold repository.update_in_range. apply forallb_forall.
  intros r Hin. now rewrite (find_none _ _ Hf r Hin).
Qed.

(** ** The account store, statement by statement *)

Ltac run_calls :=
  cbv [repository.RechargeBalance repository.DeductBalance
       repository.GetAccountByUserUUID repository.GetUserByUuid
       repository.CreateAccount repository.exec_insert_account
       repository.exec_update_account query_row
       bind try ret fail send called read_store write_store
       with_store store time_Now CURRENT_TIMESTAMP calls].

Lemma RechargeBalance_rejects (u : GoString) (amount : Decimal) (w : World) :
  LessThanOrEqual amount decimal_Zero = true ->
  repository.RechargeBalance u amount w = (w, Fail (New RechargeAmountNotPositive)).
Proof. intros Ha. unfold repository.RechargeBalance. now rewrite Ha. Qed.

Lemma DeductBalance_rejects (u : GoString) (amount : Decimal) (w : World) :
  LessThanOrEqual amount decimal_Zero = true ->
  repository.DeductBalance u amount w = (w, Fail (New ConsumeAmountNotPositive)).
Proof. intros Ha. unfold repository.DeductBalance. now rewrite Ha. Qed.

Lemma RechargeBalance_runs (u : GoString) (amount : Decimal) (w : World) :
  LessThanOrEqual amount decimal_Zero = false ->
  repository.RechargeBalance u amount w =
  (with_store (recharge_store u amount (store w))
     (called (UpdateRecharge amount u) w),
   if repository.update_in_range u (repository.set_recharge amount)
        repository.assigned_recharge (user_account (store w))
   then
     if rows_affected AccountRow.eqb (repository.by_user_uuid u)
          (repository.set_recharge amount) (user_account (store w)) =? 0
     then Fail (New AccountMissingOrNotUpdated) else Ok tt
   else Fail (Wrapf RechargeFailed (MySQLError 1264))).
Proof.
  intros Ha. unfold recharge_store, update_store, repository.RechargeBalance.
  rewrite Ha. run_calls. destruct w as [d tn ts cs].
  destruct (repository.update_in_range _ _ _ _); [|reflexivity].
  destruct (_ =? 0); reflexivity.
Qed.

Lemma DeductBalance_runs (u : GoString) (amount : Decimal) (w : World) :
  LessThanOrEqual amount decimal_Zero = false ->
  repository.DeductBalance u amount w =
  match account_of w u with
  | None => (called (SelectBalance u) w, Fail (New AccountMissing))
  | Some row =>
      if LessThan (scan_decimal (AccountRow.balance row)) amount
      then (called (SelectBalance u) w,
            Fail (New (BalanceInsufficient
                         (scan_decimal (AccountRow.balance row)) amount)))
      else (with_store (deduct_store u amount (store w))
              (called (UpdateDeduct amount u) (called (SelectBalance u) w)),
            if repository.update_in_range u (repository.set_deduct amount)
                 repository.assigned_deduct (user_account (store w))
            then
              if rows_affected AccountRow.eqb (repository.by_user_uuid u)
                   (repository.set_deduct amount) (user_account (store w)) =? 0
              then Fail (New DeductAbnormal) else Ok tt
            else Fail (Wrapf DeductFailed (MySQLError 1264)))
  end.
Proof.
  intros Ha. unfold deduct_store, update_store, account_of,
    repository.DeductBalance.
  rewrite Ha. run_calls. destruct w as [d tn ts cs].
  destruct (find _ _) as [row|]; [|reflexivity].
  destruct (LessThan _ amount); [reflexivity|].
  destruct (repository.update_in_range _ _ _ _); [|reflexivity].
  destruct (_ =? 0); reflexivity.
Qed.

Lemma store_with_store (d : DB) (w : World) : store (with_store d w) = d.
Proof. reflexivity. Qed.

Lemma store_called (s : Stmt) (w : World) : store (called s w) = store w.
Proof. reflexivity. Qed.

Lemma store_RechargeBalance (u : GoString) (amount : Decimal) (w : World) :
  store (fst (repository.RechargeBalance u amount w))
  = recharge_store u amount (store w).
Proof.
  destruct (LessThanOrEqual amount decimal_Zero) eqn:Ha.
  - rewrite RechargeBalance_rejects by exact Ha. unfold recharge_store.
    now rewrite Ha.
  - now rewrite RechargeBalance_runs by exact Ha.
Qed.

Lemma store_DeductBalance (u : GoString) (amount : Decimal) (w : World) :
  store (fst (repository.DeductBalance u amount w))
  = deduct_store u amount (store w).
Proof.
  destruct (LessThanOrEqual amount decimal_Zero) eqn:Ha.
  - rewrite DeductBalance_rejects by exact Ha. unfold deduct_store.
    now rewrite Ha.
  - rewrite DeductBalance_runs by exact Ha. unfold account_of, deduct_store.
    rewrite Ha. destruct (find _ _) as [row|]; [|reflexivity].
    destruct (LessThan _ amount); reflexivity.
Qed.

(** The two reads leave the store as it is. *)
Lemma GetUserByUuid_store (u : GoString) (w : World) :
  store (fst (repository.GetUserByUuid u w)) = store w.
Proof.
  run_calls. destruct w as [d tn ts cs]. cbn.
  destruct (find _ _); reflexivity.
Qed.

Lemma GetAccountByUserUUID_runs (u : GoString) (w : World) :
  repository.GetAccountByUserUUID u w
  = (called (SelectAccount u) w,
     Ok (option_map repository.scan_account (account_of w u))).
Proof.
  unfold account_of. run_calls. destruct w as [d tn ts cs]. cbn.
  destruct (find _ _); reflexivity.
Qed.

Lemma store_Recharge (req : RechargeRequest.t) (w : World) (P : DB -> Prop) :
  P (store w) ->
  P (recharge_store (RechargeRequest.UserUUID req) (RechargeRequest.Amount req)
       (store w)) ->
  P (store (fst (service.Recharge req w))).
Proof.
  intros Hsame Hupd. unfold service.Recharge.
  destruct (str_eqb _ []); [exact Hsame|].
  destruct (LessThanOrEqual _ _); [exact Hsame|].
  unfold bind at 1, try at 1.
  pose proof (GetUserByUuid_store (RechargeRequest.UserUUID req) w) as Hu.
  destruct (repository.GetUserByUuid _ w) as [w1 [usr|e]]; cbn in Hu;
    [|cbn; now rewrite Hu].
  unfold bind at 1, try at 1.
  pose proof (store_RechargeBalance (RechargeRequest.UserUUID req)
                (RechargeRequest.Amount req) w1) as Hr.
  destruct (repository.RechargeBalance _ _ w1) as [w2 [[]|e]]; cbn in Hr;
    rewrite Hu in Hr; [|cbn; now rewrite Hr].
  unfold bind at 1, try at 1. rewrite GetAccountByUserUUID_runs.
  destruct (account_of w2 _); cbn; now rewrite Hr.
Qed.

Lemma store_Deduct (req : DeductRequest.t) (w : World) (P : DB -> Prop) :
  P (store w) ->
  P (deduct_store (DeductRequest.UserUUID req) (DeductRequest.Amount req)
       (store w)) ->
  P (store (fst (service.Deduct req w))).
Proof.
  intros Hsame Hupd. unfold service.Deduct.
  destruct (str_eqb _ []); [exact Hsame|].
  destruct (LessThanOrEqual _ _); [exact Hsame|].
  unfold bind at 1, try at 1.
  pose proof (GetUserByUuid_store (DeductRequest.UserUUID req) w) as Hu.
  destruct (repository.GetUserByUuid _ w) as [w1 [usr|e]]; cbn in Hu;
    [|cbn; now rewrite Hu].
  unfold bind at 1, try at 1.
  pose proof (store_DeductBalance (DeductRequest.UserUUID req)
                (DeductRequest.Amount req) w1) as Hr.
  destruct (repository.DeductBalance _ _ w1) as [w2 [[]|e]]; cbn in Hr;
    rewrite Hu in Hr; [|cbn; now rewrite Hr].
  unfold bind at 1, try at 1. rewrite GetAccountByUserUUID_runs.
  destruct (account_of w2 _); cbn; now rewrite Hr.
Qed.

(** ** One account across a run *)

(** What a move keeps.  Rounding or not, the three amounts stay at or above
    zero and neither total goes down; an amount of whole hundredths keeps
    the equation of the ledger. *)
Lemma account_moves_keep (amount : Decimal) (a a' : AccountRow.t) :
  account_moves amount a a' ->
  (nonnegative a ->
   nonnegative a'
   /\ AccountRow.total_recharge a <= AccountRow.total_recharge a'
   /\ AccountRow.total_consume a <= AccountRow.total_consume a')
  /\ (whole_hundredths amount -> ledger_equation a -> ledger_equation a').
Proof.
  unfold ledger_equation, nonnegative.
  intros [->|[(Ha & ->)|(Ha & Hb & ->)]]; cbn.
  - split; [intros H; repeat split; try apply H; lia|tauto].
  - split.
    + intros (H1 & H2 & H3).
      pose proof (column_plus_ge amount H1 Ha).
      pose proof (column_plus_ge amount H2 Ha). lia.
    + intros Hw. rewrite !column_plus_whole by exact Hw. lia.
  - split.
    + intros (H1 & H2 & H3).
      pose proof (column_minus_nonneg _ _ Hb).
      pose proof (column_plus_ge amount H3 Ha). lia.
    + intros Hw. rewrite column_plus_whole, column_minus_whole by exact Hw. lia.
Qed.

Lemma update_store_account (u : GoString) (f : AccountRow.t -> AccountRow.t)
  (assigned : AccountRow.t -> list Z) (d : DB) (userUUID : GoString)
  (a : AccountRow.t) :
  (forall r, AccountRow.user_uuid (f r) = AccountRow.user_uuid r) ->
  find (repository.by_user_uuid userUUID) (user_account d) = Some a ->
  exists a',
    find (repository.by_user_uuid userUUID)
      (user_account (update_store u f assigned d)) = Some a'
    /\ (a' = a \/ repository.by_user_uuid u a = true /\ a' = f a).
Proof.
  intros Hid Hf. unfold update_store.
  destruct (repository.update_in_range _ _ _ _).
  - cbn. rewrite find_update_account by exact Hid. rewrite Hf. cbn.
    destruct (repository.by_user_uuid u a).
    + eexists. split; [reflexivity|]. right. now split.
    + exists a. split; [reflexivity|now left].
  - exists a. split; [exact Hf|now left].
Qed.

Lemma recharge_store_account (u : GoString) (amount : Decimal) (d : DB)
  (userUUID : GoString) (a : AccountRow.t) :
  find (repository.by_user_uuid userUUID) (user_account d) = Some a ->
  exists a',
    find (repository.by_user_uuid userUUID)
      (user_account (recharge_store u amount d)) = Some a'
    /\ account_moves amount a a'.
Proof.
  intros Hf. unfold recharge_store.
  destruct (LessThanOrEqual amount decimal_Zero) eqn:Ha.
  - exists a. split; [exact Hf|now left].
  - destruct (@update_store_account u (repository.set_recharge amount)
                repository.assigned_recharge d userUUID a)
      as (a' & Hf' & [->|[_ ->]]); [reflexivity|exact Hf| |].
    + exists a. split; [exact Hf'|now left].
    + eexists. split; [exact Hf'|]. right; left. now split.
Qed.

Lemma deduct_store_account (u : GoString) (amount : Decimal) (d : DB)
  (userUUID : GoString) (a : AccountRow.t) :
  find (repository.by_user_uuid userUUID) (user_account d) = Some a ->
  exists a',
    find (repository.by_user_uuid userUUID)
      (user_account (deduct_store u amount d)) = Some a'
    /\ account_moves amount a a'.
Proof.
  intros Hf. unfold deduct_store.
  destruct (LessThanOrEqual amount decimal_Zero) eqn:Ha.
  { exists a. split; [exact Hf|now left]. }
  destruct (find (repository.by_user_uuid u) _) as [row|] eqn:Hrow.
  2:{ exists a. split; [exact Hf|now left]. }
  destruct (LessThan (scan_decimal (AccountRow.balance row)) amount) eqn:Hb.
  { exists a. split; [exact Hf|now left]. }
  destruct (@update_store_account u (repository.set_deduct amount)
              repository.assigned_deduct d userUUID a)
    as (a' & Hf' & [->|[Hu ->]]); [reflexivity|exact Hf| |].
  - exists a. split; [exact Hf'|now left].
  - assert (u = userUUID) as ->.
    { apply str_eqb_eq in Hu. apply find_by_user_uuid in Hf. congruence. }
    assert (row = a) as -> by congruence.
    eexists. split; [exact Hf'|]. right; right. now repeat split.
Qed.

Lemma ledger_step_account (op : LedgerOp) (w : World) (userUUID : GoString)
  (a : AccountRow.t) :
  account_of w userUUID = Some a ->
  exists a', account_of (ledger_step op w) userUUID = Some a'
             /\ account_moves (ledger_amount op) a a'.
Proof.
  unfold account_of. intros Hf. destruct op as [u amt|u amt|req|req]; cbn.
  - rewrite store_RechargeBalance. now apply recharge_store_account.
  - rewrite store_DeductBalance. now apply deduct_store_account.
  - apply store_Recharge.
    + exists a. split; [exact Hf|now left].
    + now apply recharge_store_account.
  - apply store_Deduct.
    + exists a. split; [exact Hf|now left].
    + now apply deduct_store_account.
Qed.

Lemma ledger_run_snoc (ops : list LedgerOp) (op : LedgerOp) (w : World) :
  ledger_run (ops ++ [op]) w = ledger_step op (ledger_run ops w).
Proof. unfold ledger_run. now rewrite fold_left_app. Qed.

Lemma ledger_run_account (ops : list LedgerOp) :
  forall (w : World) (userUUID : GoString) (a0 : AccountRow.t),
    account_of w userUUID = Some a0 -> nonnegative a0 ->
    exists a, account_of (ledger_run ops w) userUUID = Some a
              /\ nonnegative a
              /\ (Forall (fun op => whole_hundredths (ledger_amount op)) ops ->
                  ledger_equation a0 -> ledger_equation a).
Proof.
  induction ops as [|op ops IH]; intros w u a0 Hf Hn.
  - exists a0. split; [exact Hf|]. split; [exact Hn|]. auto.
  - cbn. destruct (ledger_step_account op w u Hf) as (a1 & Hf1 & Hm).
    apply account_moves_keep in Hm as (Hn1 & He1).
    destruct (Hn1 Hn) as (Hn1' & _).
    destruct (IH _ u a1 Hf1 Hn1') as (a & Hfa & Hna & Hea).
    exists a. split; [exact Hfa|]. split; [exact Hna|].
    intros Hall He. apply Forall_cons_iff in Hall as [Hop Hall]. auto.
Qed.

Lemma find_snoc_fresh {R} (p : R -> bool) (l : list R) (x : R) :
  find p l = None -> p x = true -> find p (l ++ [x]) = Some x.
Proof.
  induction l as [|r l IH]; cbn; intros Hf Hx.
  - now rewrite Hx.
  - destruct (p r); [discriminate|now apply IH].
Qed.

Lemma CreateAccount_runs (u : GoString) (w w0 : World) :
  repository.CreateAccount u w = (w0, Ok tt) ->
  account_of w u = None
  /\ account_of w0 u
     = Some (repository.default_account (user_account_seq (store w)) u).
Proof.
  unfold account_of. run_calls. destruct w as [d tn ts cs]. cbn.
  destruct (existsb _ _) eqn:E; cbn; [discriminate|].
  apply existsb_find_none in E. intros [= <-]. cbn. split; [exact E|].
  apply find_snoc_fresh; [exact E|]. apply str_eqb_refl.
Qed.

Lemma service_CreateAccount_runs (u : GoString) (w w0 : World) :
  service.CreateAccount u w = (w0, Ok tt) ->
  repository.CreateAccount u w = (w0, Ok tt).
Proof.
  unfold service.CreateAccount. destruct (str_eqb u []); [discriminate|].
  unfold bind at 1, try at 1.
  destruct (repository.CreateAccount u w) as [w1 [[]|e]];
    unfold ret, fail; congruence.
Qed.

(** ** The account service, call by call *)

Lemma GetUserByUuid_runs (u : GoString) (w : World) :
  repository.GetUserByUuid u w =
  (called (SelectUserByUuid u) w,
   match user_of w u with
   | Some usr => Ok (User.mk (User.ID usr) [] (User.Username usr))
   | None => Fail (New UserNotExist)
   end).
Proof.
  unfold user_of. run_calls. destruct w as [d tn ts cs]. cbn.
  destruct (find _ _); reflexivity.
Qed.

Lemma account_of_called (s : Stmt) (w : World) (u : GoString) :
  account_of (called s w) u = account_of w u.
Proof. reflexivity. Qed.

Lemma service_Recharge_runs (req : RechargeRequest.t) (w : World) :
  RechargeRequest.UserUUID req <> [] ->
  LessThanOrEqual (RechargeRequest.Amount req) decimal_Zero = false ->
  service.Recharge req w =
  let u := RechargeRequest.UserUUID req in
  let w1 := called (SelectUserByUuid u) w in
  match user_of w u with
  | None => (w1, Fail (Wrapf UserNotExist (New UserNotExist)))
  | Some _ =>
      match repository.RechargeBalance u (RechargeRequest.Amount req) w1 with
      | (w2, Fail e) => (w2, Fail (Wrapf RechargeOpFailed e))
      | (w2, Ok _) =>
          (called (SelectAccount u) w2,
           match account_of w2 u with
           | Some row => Ok (service.response (repository.scan_account row))
           | None => Fail (New AccountInfoMissing)
           end)
      end
  end.
Proof.
  intros Hu Ha. unfold service.Recharge.
  destruct (str_eqb _ []) eqn:E; [now apply str_eqb_nil in E|].
  rewrite Ha.
  unfold bind at 1, try at 1. rewrite GetUserByUuid_runs. cbn zeta.
  destruct (user_of w _); [|reflexivity].
  unfold bind at 1, try at 1.
  destruct (repository.RechargeBalance _ _ _) as [w2 [[]|e]]; [|reflexivity].
  unfold bind at 1, try at 1. rewrite GetAccountByUserUUID_runs.
  destruct (account_of w2 _); reflexivity.
Qed.

Lemma service_Deduct_runs (req : DeductRequest.t) (w : World) :
  DeductRequest.UserUUID req <> [] ->
  LessThanOrEqual (DeductRequest.Amount req) decimal_Zero = false ->
  service.Deduct req w =
  let u := DeductRequest.UserUUID req in
  let w1 := called (SelectUserByUuid u) w in
  match user_of w u with
  | None => (w1, Fail (Wrapf UserNotExist (New UserNotExist)))
  | Some _ =>
      match repository.DeductBalance u (DeductRequest.Amount req) w1 with
      | (w2, Fail e) => (w2, Fail (Wrapf DeductFailed e))
      | (w2, Ok _) =>
          (called (SelectAccount u) w2,
           match account_of w2 u with
           | Some row => Ok (service.response (repository.scan_account row))
           | None => Fail (New AccountInfoMissing)
           end)
      end
  end.
Proof.
  intros Hu Ha. unfold service.Deduct.
  destruct (str_eqb _ []) eqn:E; [now apply str_eqb_nil in E|].
  rewrite Ha.
  unfold bind at 1, try at 1. rewrite GetUserByUuid_runs. cbn zeta.
  destruct (user_of w _); [|reflexivity].
  unfold bind at 1, try at 1.
  destruct (repository.DeductBalance _ _ _) as [w2 [[]|e]]; [|reflexivity].
  unfold bind at 1, try at 1. rewrite GetAccountByUserUUID_runs.
  destruct (account_of w2 _); reflexivity.
Qed.

Lemma service_Recharge_rejects (req : RechargeRequest.t) (w : World) :
  LessThanOrEqual (RechargeRequest.Amount req) decimal_Zero = true ->
  service.Recharge req w =
  (w, Fail (New (if str_eqb (RechargeRequest.UserUUID req) []
                 then UUIDEmpty else RechargeAmountNotPositive))).
Proof.
  intros Ha. unfold service.Recharge.
  destruct (str_eqb _ []); [reflexivity|]. now rewrite Ha.
Qed.

Lemma service_Deduct_rejects (req : DeductRequest.t) (w : World) :
  LessThanOrEqual (DeductRequest.Amount req) decimal_Zero = true ->
  service.Deduct req w =
  (w, Fail (New (if str_eqb (DeductRequest.UserUUID req) []
                 then UUIDEmpty else DeductAmountNotPositive))).
Proof.
  intros Ha. unfold service.Deduct.
  destruct (str_eqb _ []); [reflexivity|]. now rewrite Ha.
Qed.

(** A deduction above the balance the check reads is refused and changes
    no table. *)
Lemma DeductBalance_insufficient (u : GoString) (amount : Decimal) (w : World)
  (a : AccountRow.t) :
  account_of w u = Some a ->
  LessThanOrEqual amount decimal_Zero = false ->
  LessThan (scan_decimal (AccountRow.balance a)) amount = true ->
  repository.DeductBalance u amount w =
  (called (SelectBalance u) w,
   Fail (New (BalanceInsufficient (scan_decimal (AccountRow.balance a)) amount))).
Proof.
  intros Hf Ha Hb. rewrite DeductBalance_runs by exact Ha. now rewrite Hf, Hb.
Qed.

Lemma service_Deduct_insufficient (u : GoString) (amount : Decimal) (w : World)
  (a : AccountRow.t) :
  account_of w u = Some a ->
  LessThanOrEqual amount decimal_Zero = false ->
  LessThan (scan_decimal (AccountRow.balance a)) amount = true ->
  exists w' e,
    service.Deduct (DeductRequest.mk u amount) w = (w', Fail e)
    /\ store w' = store w
    /\ (u <> [] -> user_of w u <> None ->
        e = Wrapf DeductFailed
              (New (BalanceInsufficient
                      (scan_decimal (AccountRow.balance a)) amount))).
Proof.
  intros Hf Ha Hb. destruct (str_eqb u []) eqn:E.
  - exists w, (New UUIDEmpty). unfold service.Deduct. cbn. rewrite E.
    apply str_eqb_nil in E. repeat split; congruence.
  - assert (Hu : u <> []) by (intros ->; discriminate).
    rewrite service_Deduct_runs by (cbn; assumption). cbn.
    destruct (user_of w u) as [usr|].
    + rewrite (@DeductBalance_insufficient u amount _ a) by assumption.
      do 2 eexists. repeat split.
    + do 2 eexists. repeat split. congruence.
Qed.

(** ** The ledger claims *)

(** C1, as stated, fails.  On the account CreateAccount has just created, a
    recharge of 1.00 and then a deduction of 0.015 both succeed; the store
    rounds the balance 1.00 - 0.015 to 0.99 and the total 0.00 + 0.015 to
    0.02, and 0.99 is not 1.00 - 0.02. *)
Lemma C1_counterexample :
  let w1 :=
    fst (service.Recharge (RechargeRequest.mk u1 (decimal_New 100 (-2)))
           world_account) in
  let w2 :=
    fst (service.Deduct (DeductRequest.mk u1 (decimal_New 15 (-3))) w1) in
  repository.CreateAccount u1 world_u1 = (world_account, Ok tt)
  /\ account_of world_account u1 = Some (AccountRow.mk 1 u1 0 0 0)
  /\ snd (service.Recharge (RechargeRequest.mk u1 (decimal_New 100 (-2)))
            world_account)
     = Ok (AccountResponse.mk u1 (decimal_New 100 (-2)) (decimal_New 100 (-2))
             (decimal_New 0 (-2)))
  /\ snd (service.Deduct (DeductRequest.mk u1 (decimal_New 15 (-3))) w1)
     = Ok (AccountResponse.mk u1 (decimal_New 99 (-2)) (decimal_New 100 (-2))
             (decimal_New 2 (-2)))
  /\ account_of w2 u1 = Some (AccountRow.mk 1 u1 99 100 2)
  /\ ~ ledger_equation (AccountRow.mk 1 u1 99 100 2).
Proof.
  cbv zeta. split; [reflexivity|]. split; [reflexivity|].
  split; [vm_compute; reflexivity|].
  split; [vm_compute; reflexivity|]. split; [vm_compute; reflexivity|].
  unfold ledger_equation. cbn. lia.
Qed.

(** C1, amended.  An account created by CreateAccount starts with a zero
    balance and zero totals.  After any run of recharge and deduct calls
    (store level or service level, on this or on other accounts, successful
    or refused, with any amounts), one more call lowers neither
    total_recharge nor total_consume; and when every amount of the run and
    of the call is a whole number of hundredths (has at most two decimal
    places), the account satisfies
    balance = total_recharge - total_consume before and after the call. *)
Theorem C1_balance_equation_and_monotone_totals
  (w w0 : World) (userUUID : GoString) :
  repository.CreateAccount userUUID w = (w0, Ok tt)
  \/ service.CreateAccount userUUID w = (w0, Ok tt) ->
  (exists a0, account_of w0 userUUID = Some a0
              /\ AccountRow.balance a0 = 0
              /\ AccountRow.total_recharge a0 = 0
              /\ AccountRow.total_consume a0 = 0)
  /\ forall (ops : list LedgerOp) (op : LedgerOp),
       exists a a',
         account_of (ledger_run ops w0) userUUID = Some a
         /\ account_of (ledger_step op (ledger_run ops w0)) userUUID = Some a'
         /\ AccountRow.total_recharge a <= AccountRow.total_recharge a'
         /\ AccountRow.total_consume a <= AccountRow.total_consume a'
         /\ (Forall (fun o => whole_hundredths (ledger_amount o)) (ops ++ [op]) ->
             ledger_equation a /\ ledger_equation a').
Proof.
  intros Hc.
  assert (Hr : repository.CreateAccount userUUID w = (w0, Ok tt)).
  { destruct Hc as [Hc|Hc]; [exact Hc|now apply service_CreateAccount_runs]. }
  apply CreateAccount_runs in Hr as [_ H0]. split.
  - eexists. split; [exact H0|]. now cbn.
  - intros ops op.
    destruct (@ledger_run_account ops w0 userUUID _ H0) as (a & Hf & Hn & He);
      [unfold nonnegative; cbn; lia|].
    destruct (ledger_step_account op _ _ Hf) as (a' & Hf' & Hm).
    apply account_moves_keep in Hm as (Hn' & He').
    destruct (Hn' Hn) as (_ & Htr & Htc).
    exists a, a'. repeat split; auto.
    + apply Forall_app in H as [Hops _]. apply He; [exact Hops|reflexivity].
    + apply Forall_app in H as [Hops Hop].
      apply Forall_cons_iff in Hop as [Hop _].
      apply He'; [exact Hop|]. apply He; [exact Hops|reflexivity].
Qed.

Lemma C1_balance_equation_witness :
  exists a a',
    account_of
      (ledger_run [CallRecharge (RechargeRequest.mk u1 (decimal_New 10000 (-2)));
                   CallDeductBalance u1 (decimal_New 30 0)] world_account) u1
    = Some a
    /\ account_of
         (ledger_step (CallDeduct (DeductRequest.mk u1 (decimal_New 1 2)))
            (ledger_run
               [CallRecharge (RechargeRequest.mk u1 (decimal_New 10000 (-2)));
                CallDeductBalance u1 (decimal_New 30 0)] world_account)) u1
       = Some a'
    /\ ledger_equation a /\ ledger_equation a'
    /\ AccountRow.total_recharge a <= AccountRow.total_recharge a'
    /\ AccountRow.total_consume a <= AccountRow.total_consume a'.
Proof.
  destruct (proj2 (@C1_balance_equation_and_monotone_totals
                     world_u1 world_account u1 (or_introl eq_refl))
              [CallRecharge (RechargeRequest.mk u1 (decimal_New 10000 (-2)));
               CallDeductBalance u1 (decimal_New 30 0)]
              (CallDeduct (DeductRequest.mk u1 (decimal_New 1 2))))
    as (a & a' & Hf & Hf' & Htr & Htc & He).
  destruct He as [He He']; [repeat constructor|].
  exists a, a'. repeat split; assumption.
Defined.

(** The scenario of the specification: recharge 100.00, deduct 30.00, then
    a deduction of 100.00 is refused and the balance stays at 70.00. *)
Example scenario_u1 :
  let w1 :=
    ledger_step (CallRecharge (RechargeRequest.mk u1 (decimal_New 10000 (-2))))
      world_account in
  let w2 :=
    ledger_step (CallDeduct (DeductRequest.mk u1 (decimal_New 3000 (-2)))) w1 in
  account_of w1 u1 = Some (AccountRow.mk 1 u1 10000 10000 0)
  /\ account_of w2 u1 = Some (AccountRow.mk 1 u1 7000 10000 3000)
  /\ snd (service.Deduct (DeductRequest.mk u1 (decimal_New 10000 (-2))) w2)
     = Fail (Wrapf DeductFailed
               (New (BalanceInsufficient (decimal_New 7000 (-2))
                       (decimal_New 10000 (-2)))))
  /\ account_of
       (fst (service.Deduct (DeductRequest.mk u1 (decimal_New 10000 (-2))) w2)) u1
     = Some (AccountRow.mk 1 u1 7000 10000 3000).
Proof. vm_compute. repeat split. Qed.

(** Amounts the column cannot hold as given.  A recharge of 0.001 rounds
    to no change: no row is affected and the store reports the account as
    missing.  A recharge that would take the balance past 99999999.99 is
    refused by the store, and the account stays as it was. *)
Example amounts_off_the_column :
  snd (repository.RechargeBalance u1 (decimal_New 1 (-3)) world_account)
  = Fail (New AccountMissingOrNotUpdated)
  /\ snd (repository.RechargeBalance u1 (decimal_New 1 8) world_account)
     = Fail (Wrapf RechargeFailed (MySQLError 1264))
  /\ account_of
       (fst (repository.RechargeBalance u1 (decimal_New 1 8) world_account)) u1
     = account_of world_account u1.
Proof. vm_compute. repeat split. Qed.

(** With 1.00 on the account, a deduction of 0.001 rounds both columns
    back to what they were: no row is affected and the store reports an
    abnormal state.  A recharge of 0.005 followed by a deduction of 0.005
    both succeed and leave 0.01 more on the balance than before. *)
Example amounts_below_a_hundredth :
  let w1 :=
    ledger_step (CallRechargeBalance u1 (decimal_New 100 (-2))) world_account in
  let w2 := ledger_step (CallRechargeBalance u1 (decimal_New 5 (-3))) w1 in
  snd (repository.DeductBalance u1 (decimal_New 1 (-3)) w1)
  = Fail (New DeductAbnormal)
  /\ snd (repository.RechargeBalance u1 (decimal_New 5 (-3)) w1) = Ok tt
  /\ snd (repository.DeductBalance u1 (decimal_New 5 (-3)) w2) = Ok tt
  /\ account_of w1 u1 = Some (AccountRow.mk 1 u1 100 100 0)
  /\ account_of (ledger_step (CallDeductBalance u1 (decimal_New 5 (-3))) w2) u1
     = Some (AccountRow.mk 1 u1 101 101 1).
Proof. vm_compute. repeat split. Qed.

(** C2.  On an account created by CreateAccount, after any run of recharge
    and deduct calls the balance is not negative; a deduction of more than
    the balance is refused with the insufficient-funds error by the store
    and, wrapped, by the service (which refuses in every case), and it
    leaves every table, so the balance, as it was.  On any store at all, a
    deduction that reaches the check with more than the balance read there
    is refused in the same way. *)
Theorem C2_deduct_never_overdraws
  (w w0 : World) (userUUID : GoString) (ops : list LedgerOp) (amount : Decimal) :
  repository.CreateAccount userUUID w = (w0, Ok tt)
  \/ service.CreateAccount userUUID w = (w0, Ok tt) ->
  let w1 := ledger_run ops w0 in
  exists a,
    account_of w1 userUUID = Some a
    /\ 0 <= AccountRow.balance a
    /\ (LessThan (scan_decimal (AccountRow.balance a)) amount = true ->
        (exists w2,
            repository.DeductBalance userUUID amount w1
            = (w2, Fail (New (BalanceInsufficient
                                (scan_decimal (AccountRow.balance a)) amount)))
            /\ store w2 = store w1
            /\ account_of w2 userUUID = Some a)
        /\ (exists w2 e,
               service.Deduct (DeductRequest.mk userUUID amount) w1 = (w2, Fail e)
               /\ store w2 = store w1
               /\ (userUUID <> [] -> user_of w1 userUUID <> None ->
                   e = Wrapf DeductFailed
                         (New (BalanceInsufficient
                                 (scan_decimal (AccountRow.balance a)) amount))
                   /\ is_insufficient_funds e = true)))
    /\ (forall (v : World) (u : GoString) (row : AccountRow.t) (x : Decimal),
          account_of v u = Some row ->
          LessThanOrEqual x decimal_Zero = false ->
          LessThan (scan_decimal (AccountRow.balance row)) x = true ->
          repository.DeductBalance u x v
          = (called (SelectBalance u) v,
             Fail (New (BalanceInsufficient
                          (scan_decimal (AccountRow.balance row)) x)))).
Proof.
  intros Hc w1.
  assert (Hr : repository.CreateAccount userUUID w = (w0, Ok tt)).
  { destruct Hc as [Hc|Hc]; [exact Hc|now apply service_CreateAccount_runs]. }
  apply CreateAccount_runs in Hr as [_ H0].
  destruct (@ledger_run_account ops w0 userUUID _ H0) as (a & Hf & Hn & _);
    [unfold nonnegative; cbn; lia|].
  destruct Hn as [Hb _].
  exists a. split; [exact Hf|]. split; [exact Hb|].
  split; [|intros v u row x; apply DeductBalance_insufficient].
  intros Hlt. pose proof (LessThan_column_positive _ Hb Hlt) as Hpos. split.
  - eexists. split; [apply DeductBalance_insufficient; [exact Hf|exact Hpos|exact Hlt]|].
    split; [reflexivity|exact Hf].
  - destruct (@service_Deduct_insufficient userUUID amount w1 a Hf Hpos Hlt)
      as (w2 & e & Hd & Hs & He).
    exists w2, e. split; [exact Hd|]. split; [exact Hs|].
    intros Hu Hreg. rewrite (He Hu Hreg). now split.
Qed.

Lemma C2_deduct_never_overdraws_witness :
  let w1 :=
    ledger_run [CallRecharge (RechargeRequest.mk u1 (decimal_New 10000 (-2)));
                CallDeduct (DeductRequest.mk u1 (decimal_New 3000 (-2)))]
      world_account in
  let amount := decimal_New 10000 (-2) in
  exists a,
    account_of w1 u1 = Some a
    /\ 0 <= AccountRow.balance a
    /\ (LessThan (scan_decimal (AccountRow.balance a)) amount = true ->
        (exists w2,
            repository.DeductBalance u1 amount w1
            = (w2, Fail (New (BalanceInsufficient
                                (scan_decimal (AccountRow.balance a)) amount)))
            /\ store w2 = store w1
            /\ account_of w2 u1 = Some a)
        /\ (exists w2 e,
               service.Deduct (DeductRequest.mk u1 amount) w1 = (w2, Fail e)
               /\ store w2 = store w1
               /\ (u1 <> [] -> user_of w1 u1 <> None ->
                   e = Wrapf DeductFailed
                         (New (BalanceInsufficient
                                 (scan_decimal (AccountRow.balance a)) amount))
                   /\ is_insufficient_funds e = true))).
Proof.
  cbv zeta.
  destruct (@C2_deduct_never_overdraws world_u1 world_account u1
              [CallRecharge (RechargeRequest.mk u1 (decimal_New 10000 (-2)));
               CallDeduct (DeductRequest.mk u1 (decimal_New 3000 (-2)))]
              (decimal_New 10000 (-2)) (or_introl eq_refl))
    as (a & Hf & Hb & Hrefused & _).
  exists a. split; [exact Hf|]. split; [exact Hb|exact Hrefused].
Defined.

(** C3.  For every identity and every amount that is zero or negative,
    Recharge and Deduct of the service fail with a validation error and
    return the world they were given: no table has changed and no statement
    has been sent to the store.  The two store functions refuse such an
    amount in the same way. *)
Theorem C3_nonpositive_amount_rejected
  (w : World) (userUUID : GoString) (amount : Decimal) :
  LessThanOrEqual amount decimal_Zero = true ->
  (exists e, service.Recharge (RechargeRequest.mk userUUID amount) w = (w, Fail e)
             /\ is_validation_error e = true)
  /\ (exists e, service.Deduct (DeductRequest.mk userUUID amount) w = (w, Fail e)
                /\ is_validation_error e = true)
  /\ repository.RechargeBalance userUUID amount w
     = (w, Fail (New RechargeAmountNotPositive))
  /\ repository.DeductBalance userUUID amount w
     = (w, Fail (New ConsumeAmountNotPositive)).
Proof.
  intros Ha. repeat split.
  - eexists. split; [apply service_Recharge_rejects; exact Ha|].
    cbn. now destruct (str_eqb userUUID []).
  - eexists. split; [apply service_Deduct_rejects; exact Ha|].
    cbn. now destruct (str_eqb userUUID []).
  - now apply RechargeBalance_rejects.
  - now apply DeductBalance_rejects.
Qed.

Lemma C3_nonpositive_amount_rejected_witness :
  (exists e, service.Recharge (RechargeRequest.mk u1 (decimal_New (-500) (-2)))
               world_account
             = (world_account, Fail e)
             /\ is_validation_error e = true)
  /\ (exists e, service.Deduct (DeductRequest.mk u1 (decimal_New 0 0)) world_account
                = (world_account, Fail e)
                /\ is_validation_error e = true).
Proof.
  split.
  - apply (@C3_nonpositive_amount_rejected world_account u1
             (decimal_New (-500) (-2))).
    reflexivity.
  - apply (@C3_nonpositive_amount_rejected world_account u1 (decimal_New 0 0)).
    reflexivity.
Defined.

Lemma with_user_account_same (d : DB) : with_user_account (user_account d) d = d.
Proof. now destruct d. Qed.

Lemma with_store_same (w : World) : with_store (store w) w = w.
Proof. now destruct w. Qed.

Lemma RechargeBalance_missing (u : GoString) (amount : Decimal) (w : World) :
  account_of w u = None -> LessThanOrEqual amount decimal_Zero = false ->
  repository.RechargeBalance u amount w
  = (called (UpdateRecharge amount u) w, Fail (New AccountMissingOrNotUpdated)).
Proof.
  unfold account_of. intros Hf Ha. rewrite RechargeBalance_runs by exact Ha.
  rewrite update_in_range_none by exact Hf.
  rewrite rows_affected_none by exact Hf. cbn [Z.eqb].
  unfold recharge_store, update_store. rewrite Ha.
  rewrite update_in_range_none by exact Hf.
  rewrite update_where_none by exact Hf.
  rewrite with_user_account_same.
  now rewrite <- (store_called (UpdateRecharge amount u) w), with_store_same.
Qed.

Lemma DeductBalance_missing (u : GoString) (amount : Decimal) (w : World) :
  account_of w u = None -> LessThanOrEqual amount decimal_Zero = false ->
  repository.DeductBalance u amount w
  = (called (SelectBalance u) w, Fail (New AccountMissing)).
Proof.
  intros Hf Ha. rewrite DeductBalance_runs by exact Ha. now rewrite Hf.
Qed.

(** C4.  For an identity without an account row and a positive amount, the
    store's RechargeBalance sends its update, finds zero rows affected and
    returns the account-missing error; DeductBalance reads the balance,
    finds no row and returns the account-missing error.  The service calls
    with a non-empty identity fail with a not-found error as well (the
    user's or the account's).  In each case the tables are as before. *)
Theorem C4_missing_account_not_found
  (w : World) (userUUID : GoString) (amount : Decimal) :
  account_of w userUUID = None ->
  LessThanOrEqual amount decimal_Zero = false ->
  (repository.RechargeBalance userUUID amount w
   = (called (UpdateRecharge amount userUUID) w,
      Fail (New AccountMissingOrNotUpdated))
   /\ is_not_found_error (New AccountMissingOrNotUpdated) = true
   /\ store (called (UpdateRecharge amount userUUID) w) = store w)
  /\ (repository.DeductBalance userUUID amount w
      = (called (SelectBalance userUUID) w, Fail (New AccountMissing))
      /\ is_not_found_error (New AccountMissing) = true
      /\ store (called (SelectBalance userUUID) w) = store w)
  /\ (userUUID <> [] ->
      (exists w' e,
          service.Recharge (RechargeRequest.mk userUUID amount) w = (w', Fail e)
          /\ is_not_found_error e = true /\ store w' = store w)
      /\ (exists w' e,
             service.Deduct (DeductRequest.mk userUUID amount) w = (w', Fail e)
             /\ is_not_found_error e = true /\ store w' = store w)).
Proof.
  intros Hf Ha. split; [|split].
  - split; [now apply RechargeBalance_missing|now split].
  - split; [now apply DeductBalance_missing|now split].
  - intros Hu. split.
    + rewrite service_Recharge_runs by (cbn; assumption). cbn.
      destruct (user_of w userUUID).
      * rewrite RechargeBalance_missing by assumption.
        do 2 eexists. repeat split.
      * do 2 eexists. repeat split.
    + rewrite service_Deduct_runs by (cbn; assumption). cbn.
      destruct (user_of w userUUID).
      * rewrite DeductBalance_missing by assumption.
        do 2 eexists. repeat split.
      * do 2 eexists. repeat split.
Qed.

Lemma C4_missing_account_not_found_witness :
  repository.RechargeBalance u1 (decimal_New 100 (-2)) world_u1
  = (called (UpdateRecharge (decimal_New 100 (-2)) u1) world_u1,
     Fail (New AccountMissingOrNotUpdated))
  /\ repository.DeductBalance u1 (decimal_New 100 (-2)) world_u1
     = (called (SelectBalance u1) world_u1, Fail (New AccountMissing)).
Proof.
  destruct (@C4_missing_account_not_found world_u1 u1 (decimal_New 100 (-2))
              eq_refl eq_refl)
    as [[Hr _] [[Hd _] _]].
  split; [exact Hr|exact Hd].
Defined.

(** ** The resource store *)

Example world_resource_rows :
  resources (store world_resource)
  = [ResourceRow.mk 1 1 (lit "Go Tutorial") (Some (lit "basics"))
       (Some (lit "package main")) (lit "alice") 0 0 0 0 (Some 0)].
Proof. reflexivity. Qed.

(** The keyword filter of the specification's example. *)
Example keyword_Go_not_Rust :
  @total_of sample_Platform (lit "Go") world_resource = 1
  /\ @total_of sample_Platform (lit "Rust") world_resource = 0.
Proof. split; reflexivity. Qed.

Lemma find_update_where {R} (p q : R -> bool) (f : R -> R) (l : list R) :
  (forall r, p (f r) = p r) ->
  find p (update_where q f l)
  = option_map (fun r => if q r then f r else r) (find p l).
Proof.
  intros Hf. unfold update_where.
  induction l as [|r l IH]; cbn; [reflexivity|].
  assert (E : p (if q r then f r else r) = p r) by (destruct (q r); auto).
  rewrite E. destruct (p r); [reflexivity|exact IH].
Qed.

Lemma with_resources_same (d : DB) : with_resources (resources d) d = d.
Proof. now destruct d. Qed.

Lemma counted_missing (s : Stmt) (set : Time -> ResourceRow.t -> ResourceRow.t)
  (id : N) (w : World) :
  resource_of w id = None -> counted s set id w = called s w.
Proof.
  unfold resource_of, counted. intros Hf.
  rewrite update_where_none by exact Hf. rewrite with_resources_same.
  now rewrite <- (store_called s w), with_store_same.
Qed.

Lemma resource_of_counted (s : Stmt) (set : Time -> ResourceRow.t -> ResourceRow.t)
  (id : N) (w : World) (r : ResourceRow.t) :
  (forall now r, ResourceRow.id (set now r) = ResourceRow.id r) ->
  resource_of w id = Some r ->
  resource_of (counted s set id w) id = Some (set (CURRENT_TIMESTAMP w) r).
Proof.
  unfold resource_of, counted. intros Hid Hf. cbn.
  rewrite find_update_where
    by (intros r0; unfold repository.by_id; now rewrite Hid).
  rewrite Hf. cbn. apply find_some in Hf as [_ E]. now rewrite E.
Qed.

Ltac run_resource_calls :=
  cbv [repository.IncrViewCount repository.IncrLikeCount
       repository.IncrCommentCount repository.exec_update_resource
       repository.GetResourceByID query_row counted
       bind try ret fail send read_store write_store read_CURRENT_TIMESTAMP
       read_time_Now].

Lemma IncrViewCount_runs (id : N) (w : World) :
  repository.IncrViewCount id w
  = (counted (UpdateViewCount id) repository.set_view_count id w, Ok tt).
Proof. reflexivity. Qed.

Lemma IncrLikeCount_runs (id : N) (w : World) :
  repository.IncrLikeCount id w
  = (counted (UpdateLikeCount id) repository.set_like_count id w, Ok tt).
Proof. reflexivity. Qed.

Lemma IncrCommentCount_runs (id : N) (w : World) :
  repository.IncrCommentCount id w
  = (counted (UpdateCommentCount id) repository.set_comment_count id w, Ok tt).
Proof. reflexivity. Qed.

(** C5, as stated, fails: no resource has id 7, and each of the three store
    increments still reports success, not an absent resource. *)
Lemma C5_counterexample :
  resource_of world_resource 7 = None
  /\ snd (repository.IncrLikeCount 7 world_resource) = Ok tt
  /\ snd (repository.IncrViewCount 7 world_resource) = Ok tt
  /\ snd (repository.IncrCommentCount 7 world_resource) = Ok tt
  /\ ~ (exists e, snd (repository.IncrLikeCount 7 world_resource) = Fail e)
  /\ ~ (exists e, snd (repository.IncrViewCount 7 world_resource) = Fail e)
  /\ ~ (exists e, snd (repository.IncrCommentCount 7 world_resource) = Fail e).
Proof.
  repeat split; try (intros [e He]; discriminate He).
Qed.

(** C5, amended.  Each of the three store increments sends its single
    update and returns ok for every id.  When no resource has the id the
    tables are unchanged; when one has, its corresponding counter is one
    more than before and its two other counters are as before. *)
Theorem C5_store_increments (w : World) (id : N) :
  (repository.IncrViewCount id w
   = (counted (UpdateViewCount id) repository.set_view_count id w, Ok tt)
   /\ repository.IncrLikeCount id w
      = (counted (UpdateLikeCount id) repository.set_like_count id w, Ok tt)
   /\ repository.IncrCommentCount id w
      = (counted (UpdateCommentCount id) repository.set_comment_count id w, Ok tt))
  /\ match resource_of w id with
     | None =>
         fst (repository.IncrViewCount id w) = called (UpdateViewCount id) w
         /\ fst (repository.IncrLikeCount id w) = called (UpdateLikeCount id) w
         /\ fst (repository.IncrCommentCount id w)
            = called (UpdateCommentCount id) w
     | Some r =>
         (exists r',
             resource_of (fst (repository.IncrViewCount id w)) id = Some r'
             /\ ResourceRow.view_count r' = (ResourceRow.view_count r + 1)%N
             /\ ResourceRow.like_count r' = ResourceRow.like_count r
             /\ ResourceRow.comment_count r' = ResourceRow.comment_count r)
         /\ (exists r',
                resource_of (fst (repository.IncrLikeCount id w)) id = Some r'
                /\ ResourceRow.like_count r' = (ResourceRow.like_count r + 1)%N
                /\ ResourceRow.view_count r' = ResourceRow.view_count r
                /\ ResourceRow.comment_count r' = ResourceRow.comment_count r)
         /\ (exists r',
                resource_of (fst (repository.IncrCommentCount id w)) id = Some r'
                /\ ResourceRow.comment_count r'
                   = (ResourceRow.comment_count r + 1)%N
                /\ ResourceRow.like_count r' = ResourceRow.like_count r
                /\ ResourceRow.view_count r' = ResourceRow.view_count r)
     end.
Proof.
  split; [repeat split|].
  destruct (resource_of w id) as [r|] eqn:Hf.
  - rewrite IncrViewCount_runs, IncrLikeCount_runs, IncrCommentCount_runs.
    cbn [fst]. split; [|split]; eexists;
      (split; [apply resource_of_counted; [reflexivity|exact Hf]|]);
      repeat split.
  - cbn [fst repository.IncrViewCount]. repeat split;
      rewrite ?IncrViewCount_runs, ?IncrLikeCount_runs, ?IncrCommentCount_runs;
      cbn [fst]; now apply counted_missing.
Qed.

(** ** The resource service *)

Lemma service_IncrViewCount_runs (id : N) (w : World) :
  service.IncrViewCount id w = repository.IncrViewCount id w.
Proof. reflexivity. Qed.

Lemma service_IncrLikeCount_runs (id : N) (w : World) :
  service.IncrLikeCount id w
  = if (id <=? 0)%N then (w, Fail (New (ResourceIDInvalid id)))
    else repository.IncrLikeCount id w.
Proof. unfold service.IncrLikeCount. now destruct (id <=? 0)%N. Qed.

(** C7, on the code.  IncrLikeCount of the service refuses id 0 and returns
    the world it was given; for every other id it is the store's increment,
    with no check of who calls.  IncrViewCount of the service is the
    store's increment for every id: at id 0 it sends the update to the
    store and returns ok. *)
Theorem C7_IncrViewCount_zero_reaches_store (w : World) :
  (service.IncrViewCount 0 w
   = (counted (UpdateViewCount 0) repository.set_view_count 0 w, Ok tt)
   /\ calls (fst (service.IncrViewCount 0 w)) = calls w ++ [UpdateViewCount 0])
  /\ service.IncrLikeCount 0 w = (w, Fail (New (ResourceIDInvalid 0)))
  /\ is_validation_error (New (ResourceIDInvalid 0)) = true
  /\ forall id,
       service.IncrViewCount id w = repository.IncrViewCount id w
       /\ service.IncrLikeCount id w
          = if (id <=? 0)%N then (w, Fail (New (ResourceIDInvalid id)))
            else repository.IncrLikeCount id w.
Proof.
  repeat split. apply service_IncrLikeCount_runs.
Qed.

Lemma GetResourceByID_runs (id : N) (w : World) :
  repository.GetResourceByID id w
  = (called (SelectResourceById id) w,
     Ok (option_map repository.scan (resource_of w id))).
Proof.
  unfold resource_of. run_resource_calls. destruct w as [d tn ts cs]. cbn.
  destruct (find _ _); reflexivity.
Qed.

(** C9.  For a positive id no resource row carries, GetResourceByID of the
    service sends its query and returns no resource and no error; for id 0
    it returns a validation error without a call to the store. *)
Theorem C9_GetResourceByID_absent (w : World) (id : N) :
  (0 < id)%N -> resource_of w id = None ->
  service.GetResourceByID id w = (called (SelectResourceById id) w, Ok None)
  /\ service.GetResourceByID 0 w = (w, Fail (New (ResourceIDNotPositive 0)))
  /\ is_validation_error (New (ResourceIDNotPositive 0)) = true.
Proof.
  intros Hid Hf. repeat split. unfold service.GetResourceByID.
  destruct (N.leb_spec id 0); [lia|].
  unfold bind at 1, try at 1. rewrite GetResourceByID_runs, Hf. reflexivity.
Qed.

Lemma C9_GetResourceByID_absent_witness :
  service.GetResourceByID 7 world_resource
  = (called (SelectResourceById 7) world_resource, Ok None)
  /\ service.GetResourceByID 0 world_resource
     = (world_resource, Fail (New (ResourceIDNotPositive 0)))
  /\ is_validation_error (New (ResourceIDNotPositive 0)) = true.
Proof.
  apply (@C9_GetResourceByID_absent world_resource 7); reflexivity.
Defined.

(** A resource that exists is returned with its three counters. *)
Example GetResourceByID_present :
  snd (service.GetResourceByID 1 world_resource)
  = Ok (Some (Resource.mk 1 1 (lit "Go Tutorial") (lit "basics")
                (lit "package main") (lit "alice") 0 0 0 0)).
Proof. reflexivity. Qed.

(** C10, as stated, fails: a comment on resource 1 also rewrites the
    [updated_at] column of that row (here from 0 to 9), so the stored state
    is not the one that differs by the comment counter alone. *)
Lemma C10_counterexample :
  snd (service.CreateComment 1 (lit "nice") world_later) = Ok tt
  /\ option_map ResourceRow.updated_at (resource_of world_later 1)
     = Some (Some 0)
  /\ option_map ResourceRow.updated_at
       (resource_of (fst (service.CreateComment 1 (lit "nice") world_later)) 1)
     = Some (Some 9)
  /\ store (fst (service.CreateComment 1 (lit "nice") world_later))
     <> spec_comment_effect 1 (store world_later).
Proof.
  repeat split. intros E. vm_compute in E. discriminate E.
Qed.

Lemma service_CreateComment_runs (id : N) (content : GoString) (w : World) :
  (0 < id)%N -> TrimSpace content <> [] ->
  service.CreateComment id content w
  = (counted (UpdateCommentCount id) repository.set_comment_count id w, Ok tt).
Proof.
  intros Hid Hc. unfold service.CreateComment.
  destruct (N.leb_spec id 0); [lia|].
  destruct (str_eqb _ []) eqn:E; [now apply str_eqb_nil in E|].
  reflexivity.
Qed.

(** C10, amended.  CreateComment never stores the comment text: for an id
    of at least 1 and a content that is not blank, it sends the one counter
    update and returns ok; users and accounts are untouched, and in
    [resources] exactly the rows of that id change, by one more in
    [comment_count] and by [updated_at] set to the store's current time.
    Two calls that differ only in their non-blank content return the same
    result and the same world. *)
Theorem C10_CreateComment_effect (w : World) (id : N) (c1 c2 : GoString) :
  (0 < id)%N -> TrimSpace c1 <> [] -> TrimSpace c2 <> [] ->
  let w' := fst (service.CreateComment id c1 w) in
  service.CreateComment id c1 w
  = (counted (UpdateCommentCount id) repository.set_comment_count id w, Ok tt)
  /\ service.CreateComment id c2 w = service.CreateComment id c1 w
  /\ users (store w') = users (store w)
  /\ user_account (store w') = user_account (store w)
  /\ resources (store w')
     = map (fun r =>
              if (ResourceRow.id r =? id)%N
              then ResourceRow.mk (ResourceRow.id r) (ResourceRow.user_id r)
                     (ResourceRow.title r) (ResourceRow.text_content r)
                     (ResourceRow.code_content r) (ResourceRow.author r)
                     (ResourceRow.publish_time r) (ResourceRow.like_count r)
                     (ResourceRow.view_count r)
                     (ResourceRow.comment_count r + 1)%N
                     (Some (CURRENT_TIMESTAMP w))
              else r)
         (resources (store w)).
Proof.
  intros Hid H1 H2 w'. subst w'.
  rewrite !service_CreateComment_runs by assumption. repeat split.
Qed.

Lemma C10_CreateComment_effect_witness :
  service.CreateComment 1 (lit "nice") world_later
  = service.CreateComment 1 (lit " a longer remark ") world_later
  /\ option_map ResourceRow.comment_count
       (resource_of (fst (service.CreateComment 1 (lit "nice") world_later)) 1)
     = Some 1%N.
Proof.
  destruct (@C10_CreateComment_effect world_later 1
              (lit " a longer remark ") (lit "nice"))
    as (_ & Hsame & _ & _ & Hrows).
  - reflexivity.
  - discriminate.
  - discriminate.
  - split; [exact Hsame|]. unfold resource_of. rewrite Hsame, Hrows. reflexivity.
Defined.

Lemma GetUserById_runs (id : N) (w : World) :
  repository.GetUserById id w
  = (called (SelectUserById id) w,
     match find (fun u => (User.ID u =? id)%N) (users (store w)) with
     | Some u => Ok (Some u)
     | None => Fail (New UserIDNotExist)
     end).
Proof.
  cbv [repository.GetUserById query_row bind try ret fail send read_store].
  destruct w as [d tn ts cs]. cbn. destruct (find _ _); reflexivity.
Qed.

Lemma find_existsb {R} (p : R -> bool) (l : list R) (x : R) :
  find p l = Some x -> existsb p l = true.
Proof.
  intros Hf. apply find_some in Hf as [Hin Hp].
  apply existsb_exists. now exists x.
Qed.

Lemma insert_resource_error_fails (number : N) (w : World) :
  match number with
  | 1062%N => fail (A := unit) (New ResourceUniqueConflict)
  | 1048%N => fail (New ResourceRequiredNull)
  | 1452%N => fail (New ResourceUserMissing)
  | _ => fail (Wrapf InsertResourceFailed (MySQLError number))
  end w
  = (w, Fail (insert_resource_error number)).
Proof.
  unfold insert_resource_error. destruct number as [|p]; [reflexivity|].
  repeat (destruct p as [p|p|]; try reflexivity).
Qed.

(** The insertion of a resource whose owner is registered: the store
    refuses it for a constraint of the table, or appends the row. *)
Lemma repository_CreateResource_cases `{Platform} (resource : Resource.t)
  (w : World) (owner : User.t) :
  find (fun u => (User.ID u =? Resource.UserID resource)%N) (users (store w))
  = Some owner ->
  repository.CreateResource resource w
  = match INSERT_resources_refused (store w) resource with
    | Some number =>
        (called (InsertResource resource) w, Fail (insert_resource_error number))
    | None =>
        (with_store
           (mkDB (users (store w)) (user_account (store w))
              (resources (store w) ++
               [ResourceRow.mk (resources_seq (store w))
                  (Resource.UserID resource) (Resource.Title resource)
                  (Some (Resource.TextContent resource))
                  (Some (Resource.CodeContent resource))
                  (Resource.Author resource) (Resource.PublishTime resource)
                  (Resource.LikeCount resource) (Resource.ViewCount resource)
                  (Resource.CommentCount resource)
                  (updated_at_default (CURRENT_TIMESTAMP w))])
              (user_account_seq (store w)) (N.succ (resources_seq (store w))))
           (called (InsertResource resource) w),
         Ok tt)
    end.
Proof.
  intros Hf. apply find_existsb in Hf.
  cbv [repository.CreateResource repository.exec_insert_resource
       bind try ret send read_store write_store read_CURRENT_TIMESTAMP].
  destruct w as [d tn ts cs]. cbn [store called] in *.
  destruct (INSERT_resources_refused d resource) as [number|].
  - cbn [fail errors_As_MySQLError]. unfold fail at 1.
    apply insert_resource_error_fails.
  - now rewrite Hf.
Qed.

(** C6.  CreateResource trims the title.  When the trimmed title is empty
    or has more than 100 characters the call fails with a validation error
    and returns the world it was given (no row, no storage call).  When the
    call succeeds, the trimmed title is not empty and has at most 100
    characters (its bytes are at most 100), the owner is a registered user,
    and [resources] has gained exactly one row: the trimmed title, the three
    counters at zero and the author equal to the owner's username as stored
    at that moment. *)
Theorem C6_CreateResource `{Platform} (w w' : World) (userID : N)
  (title text code : GoString) (r : result unit) :
  service.CreateResource userID title text code w = (w', r) ->
  (TrimSpace title = [] \/ 100 < Z.of_nat (List.length (TrimSpace title)) ->
   w' = w /\ exists e, r = Fail e /\ is_validation_error e = true)
  /\ (r = Ok tt ->
      TrimSpace title <> []
      /\ Z.of_nat (List.length (TrimSpace title)) <= len (TrimSpace title) <= 100
      /\ exists owner,
           find (fun u => (User.ID u =? userID)%N) (users (store w)) = Some owner
           /\ resources (store w')
              = resources (store w) ++
                [ResourceRow.mk (resources_seq (store w)) userID
                   (TrimSpace title) (Some (TrimSpace text)) (Some code)
                   (User.Username owner) (time_Now w) 0 0 0
                   (updated_at_default (CURRENT_TIMESTAMP w))]
           /\ users (store w') = users (store w)
           /\ user_account (store w') = user_account (store w)).
Proof.
  unfold service.CreateResource.
  destruct (userID =? 0)%N.
  { intros [= <- <-]. split; [|discriminate]. intros _. split; [reflexivity|].
    now eexists. }
  destruct (str_eqb (TrimSpace title) []) eqn:Et.
  { intros [= <- <-]. split; [|discriminate]. intros _. split; [reflexivity|].
    now eexists. }
  assert (Hne : TrimSpace title <> []).
  { intros E. rewrite E in Et. discriminate. }
  pose proof (length_le_len (TrimSpace title)) as Hlen.
  destruct (Z.gtb_spec (len (TrimSpace title)) 100) as [Hl|Hl].
  { intros [= <- <-]. split; [|discriminate]. intros _. split; [reflexivity|].
    now eexists. }
  unfold bind at 1, try at 1. rewrite GetUserById_runs.
  destruct (find _ (users (store w))) as [owner|] eqn:Hf.
  2:{ intros [= <- <-]. split; [|discriminate]. intros [E|E]; [easy|lia]. }
  destruct (str_eqb (TrimSpace (User.Username owner)) []).
  { intros [= <- <-]. split; [|discriminate]. intros [E|E]; [easy|lia]. }
  unfold bind at 1, read_time_Now at 1. unfold bind at 1, try at 1.
  rewrite (@repository_CreateResource_cases _ _ _ owner) by exact Hf.
  destruct (INSERT_resources_refused _ _) as [number|].
  { intros [= <- <-]. split; [|discriminate]. intros [E|E]; [easy|lia]. }
  intros [= <- <-]. split; [intros [E|E]; [easy|lia]|].
  intros _. split; [exact Hne|]. split; [lia|].
  exists owner. now repeat split.
Qed.

(** The bound of 100 is on bytes: a title of 34 characters that takes 102
    bytes is refused as well. *)
Example title_bytes_not_characters :
  List.length title_34 = 34%nat
  /\ @service.CreateResource sample_Platform 1 title_34 [] [] world_u1
     = (world_u1, Fail (New (TitleTooLong 102))).
Proof. split; reflexivity. Qed.

Lemma C6_CreateResource_witness :
  (exists owner,
      find (fun u => (User.ID u =? 1)%N) (users (store world_u1)) = Some owner
      /\ resources (store world_resource)
         = resources (store world_u1) ++
           [ResourceRow.mk 1 1 (lit "Go Tutorial") (Some (lit "basics"))
              (Some (lit "package main")) (User.Username owner) 0 0 0 0
              (Some 0)])
  /\ (fst (@service.CreateResource sample_Platform 1 (lit "   ") [] [] world_u1)
      = world_u1
      /\ exists e,
           snd (@service.CreateResource sample_Platform 1 (lit "   ") [] [] world_u1)
           = Fail e /\ is_validation_error e = true).
Proof.
  split.
  - destruct (@C6_CreateResource sample_Platform world_u1 world_resource 1
                (lit "  Go Tutorial ") (lit "basics") (lit "package main")
                (Ok tt) eq_refl) as [_ Hok].
    destruct (Hok eq_refl) as (_ & _ & owner & Hf & Hrows & _).
    exists owner. split; [exact Hf|exact Hrows].
  - apply (@C6_CreateResource sample_Platform world_u1 _ 1 (lit "   ") [] [] _
             eq_refl).
    left. reflexivity.
Defined.

(** ** Paged listing *)

Lemma int_wrap_small (z : Z) : int_range z -> int_wrap z = z.
Proof.
  unfold int_range, int_wrap. intros Hz.
  rewrite Z.mod_small by lia. lia.
Qed.

Lemma fold_left_snoc_map {A B} (f : A -> B) (l : list A) (acc : list B) :
  fold_left (fun dtos x => dtos ++ [f x]) l acc = acc ++ map f l.
Proof.
  revert acc. induction l as [|x l IH]; intros acc; cbn.
  - now rewrite app_nil_r.
  - rewrite IH. now rewrite <- app_assoc.
Qed.

Lemma CountResources_runs `{Platform} (keyword : GoString) (w : World) :
  repository.CountResources keyword w
  = (called (CountResources keyword) w, Ok (total_of keyword w)).
Proof. reflexivity. Qed.

Lemma GetResourceList_runs `{Platform} (offset limit : Z) (keyword : GoString)
  (w : World) :
  repository.GetResourceList offset limit keyword w
  = (called (SelectResources keyword offset limit) w,
     match repository.limit_rows offset limit
             (listing keyword (called (SelectResources keyword offset limit) w)) with
     | Ok rows => Ok (map repository.scan rows)
     | Fail err =>
         Fail (match errors_As_MySQLError err with
               | Some n => New (ListQueryMySQL n)
               | None => Wrapf ListQueryFailed err
               end)
     end).
Proof.
  unfold listing.
  cbv [repository.GetResourceList repository.query_resources
       bind try ret fail send read_World].
  destruct w as [d tn ts cs]. cbn [called store time_Now CURRENT_TIMESTAMP calls].
  destruct (repository.limit_rows _ _ _) as [rows|err]; [reflexivity|].
  destruct (errors_As_MySQLError err); reflexivity.
Qed.

(** C8, as stated, fails: for this page number and size 4 the product
    (page-1)*size is 2^64, and the page query is sent with offset 0; the
    caller receives the first page. *)
Lemma C8_counterexample :
  int_range page_overflow
  /\ (page_overflow - 1) * 4 = 2 ^ 64
  /\ calls (fst (@service.GetResourceList sample_Platform page_overflow 4 []
                   world_25))
     = [CountResources []; SelectResources [] 0 4]
  /\ ~ In (SelectResources [] ((page_overflow - 1) * 4) 4)
         (calls (fst (@service.GetResourceList sample_Platform page_overflow 4 []
                        world_25)))
  /\ snd (@service.GetResourceList sample_Platform page_overflow 4 [] world_25)
     = snd (@service.GetResourceList sample_Platform 1 4 [] world_25).
Proof.
  split; [unfold int_range, page_overflow; lia|].
  split; [reflexivity|]. split; [vm_compute; reflexivity|].
  split; [|vm_compute; reflexivity].
  intros Hin. vm_compute in Hin.
  destruct Hin as [E|[E|[]]]; discriminate E.
Qed.

(** C8, amended.  The paged listing refuses a page below 1 and a size
    outside 1..50 and returns the world it was given.  Otherwise it counts
    the rows matching the keyword; when the count is zero it returns an
    empty list with total 0 and sends no page query; when it is not, it
    sends the page query with limit [size] and offset (page-1)*size computed
    in 64-bit integers, and returns the rows the store answers, each mapped
    to its item, with the count as total.  Whenever (page-1)*size fits a
    machine integer the offset is that product and the store answers the
    rows of the listing, as it orders them for this query, from that offset
    on, at most [size] of them.  An item carries the three counters of its
    row. *)
Theorem C8_GetResourceList `{Platform} (w : World) (page size : Z)
  (keyword : GoString) :
  int_range page ->
  let offset := int_wrap ((page - 1) * size) in
  let w1 := called (CountResources keyword) w in
  let w2 := called (SelectResources keyword offset size) w1 in
  service.GetResourceList page size keyword w
  = (if page <? 1 then (w, Fail (New (PageInvalid page)))
     else if (size <? 1) || (size >? 50)
     then (w, Fail (New (SizeInvalid size)))
     else if total_of keyword w =? 0 then (w1, Ok ([], 0))
     else
       (w2,
        match repository.limit_rows offset size (listing keyword w2) with
        | Ok rows =>
            Ok (map (fun row => service.convertModelToDTO (repository.scan row))
                  rows,
                total_of keyword w)
        | Fail err =>
            Fail (Wrapf ListFailed
                    (match errors_As_MySQLError err with
                     | Some n => New (ListQueryMySQL n)
                     | None => Wrapf ListQueryFailed err
                     end))
        end))
  /\ (1 <= page -> 1 <= size -> (page - 1) * size < 2 ^ 63 ->
      offset = (page - 1) * size
      /\ repository.limit_rows offset size (listing keyword w2)
         = Ok (firstn (Z.to_nat size)
                 (skipn (Z.to_nat ((page - 1) * size)) (listing keyword w2))))
  /\ (forall row,
        let item := service.convertModelToDTO (repository.scan row) in
        ResourceItem.LikeCount item = ResourceRow.like_count row
        /\ ResourceItem.ViewCount item = ResourceRow.view_count row
        /\ ResourceItem.CommentCount item = ResourceRow.comment_count row).
Proof.
  intros Hpage offset w1 w2. split; [|split].
  - unfold service.GetResourceList.
    destruct (Z.ltb_spec page 1) as [Hp|Hp]; [reflexivity|].
    destruct ((size <? 1) || (size >? 50)); [reflexivity|].
    unfold bind at 1, try at 1. rewrite CountResources_runs.
    destruct (total_of keyword w =? 0); [reflexivity|].
    unfold bind at 1, try at 1. rewrite GetResourceList_runs.
    assert (Eo : int_mul (int_sub page 1) size = offset).
    { unfold int_mul, int_sub, offset. rewrite (@int_wrap_small (page - 1)).
      - reflexivity.
      - unfold int_range in *. lia. }
    rewrite Eo. fold w1. fold w2.
    destruct (repository.limit_rows _ _ _) as [rows|err]; [|reflexivity].
    cbv [ret]. rewrite fold_left_snoc_map. cbn [app]. now rewrite map_map.
  - intros Hp Hs Hfit.
    assert (Eo : offset = (page - 1) * size).
    { apply int_wrap_small. unfold int_range. nia. }
    split; [exact Eo|]. generalize (listing keyword w2). intros rows.
    rewrite Eo. unfold repository.limit_rows.
    destruct (Z.ltb_spec ((page - 1) * size) 0); [nia|].
    destruct (Z.ltb_spec size 0); [lia|]. reflexivity.
  - intros row. repeat split.
Qed.

Lemma C8_GetResourceList_witness :
  let page := 3 in
  let size := 10 in
  let w2 :=
    called (SelectResources [] (int_wrap ((page - 1) * size)) size)
      (called (CountResources []) world_25) in
  int_wrap ((page - 1) * size) = 20
  /\ @repository.limit_rows sample_Platform (int_wrap ((page - 1) * size)) size
       (@listing sample_Platform [] w2)
     = Ok (firstn 10 (skipn 20 (@listing sample_Platform [] w2))).
Proof.
  apply (@C8_GetResourceList sample_Platform world_25 3 10 []).
  - unfold int_range. lia.
  - lia.
  - lia.
  - reflexivity.
Defined.

(** The pagination example of the specification, over 25 resources. *)
Example pagination_25 :
  let items page :=
    match snd (@service.GetResourceList sample_Platform page 10 [] world_25) with
    | Ok (l, total) => Some (List.length l, total)
    | Fail _ => None
    end in
  items 1 = Some (10%nat, 25)
  /\ items 3 = Some (5%nat, 25)
  /\ items 4 = Some (0%nat, 25).
Proof. vm_compute. repeat split. Qed.

(** * Further properties of the account store and service *)

Lemma map_user_uuid_update (u : GoString) (f : AccountRow.t -> AccountRow.t)
  (l : list AccountRow.t) :
  (forall r, AccountRow.user_uuid (f r) = AccountRow.user_uuid r) ->
  map AccountRow.user_uuid (update_where (repository.by_user_uuid u) f l)
  = map AccountRow.user_uuid l.
Proof.
  intros Hf. unfold update_where. rewrite map_map. apply map_ext.
  intros r. destruct (repository.by_user_uuid u r); [apply Hf|reflexivity].
Qed.

Lemma update_store_uuids (u : GoString) (f : AccountRow.t -> AccountRow.t)
  (assigned : AccountRow.t -> list Z) (d : DB) :
  (forall r, AccountRow.user_uuid (f r) = AccountRow.user_uuid r) ->
  map AccountRow.user_uuid (user_account (update_store u f assigned d))
  = map AccountRow.user_uuid (user_account d).
Proof.
  intros Hf. unfold update_store.
  destruct (repository.update_in_range _ _ _ _); [|reflexivity].
  cbn. now apply map_user_uuid_update.
Qed.

Lemma recharge_store_uuids (u : GoString) (amount : Decimal) (d : DB) :
  map AccountRow.user_uuid (user_account (recharge_store u amount d))
  = map AccountRow.user_uuid (user_account d).
Proof.
  unfold recharge_store. destruct (LessThanOrEqual _ _); [reflexivity|].
  now apply update_store_uuids.
Qed.

Lemma deduct_store_uuids (u : GoString) (amount : Decimal) (d : DB) :
  map AccountRow.user_uuid (user_account (deduct_store u amount d))
  = map AccountRow.user_uuid (user_account d).
Proof.
  unfold deduct_store. destruct (LessThanOrEqual _ _); [reflexivity|].
  destruct (find _ _) as [row|]; [|reflexivity].
  destruct (LessThan _ amount); [reflexivity|]. now apply update_store_uuids.
Qed.

Lemma ledger_step_uuids (op : LedgerOp) (w : World) :
  map AccountRow.user_uuid (user_account (store (ledger_step op w)))
  = map AccountRow.user_uuid (user_account (store w)).
Proof.
  destruct op as [u amt|u amt|req|req]; cbn.
  - rewrite store_RechargeBalance. apply recharge_store_uuids.
  - rewrite store_DeductBalance. apply deduct_store_uuids.
  - apply store_Recharge; [reflexivity|apply recharge_store_uuids].
  - apply store_Deduct; [reflexivity|apply deduct_store_uuids].
Qed.

Lemma find_none_not_in (u : GoString) (l : list AccountRow.t) :
  find (repository.by_user_uuid u) l = None ->
  ~ In u (map AccountRow.user_uuid l).
Proof.
  intros Hf Hin. apply in_map_iff in Hin as (r & Hr & Hin).
  apply (find_none _ _ Hf) in Hin. unfold repository.by_user_uuid in Hin.
  rewrite Hr, str_eqb_refl in Hin. discriminate.
Qed.

(** The store's CreateAccount, case by case. *)
Lemma repository_CreateAccount_cases (u : GoString) (w : World) :
  repository.CreateAccount u w
  = match account_of w u with
    | Some _ => (called (InsertAccount u) w, Fail (New AccountUUIDDuplicate))
    | None =>
        (with_store
           (mkDB (users (store w))
              (user_account (store w)
               ++ [repository.default_account (user_account_seq (store w)) u])
              (resources (store w)) (N.succ (user_account_seq (store w)))
              (resources_seq (store w)))
           (called (InsertAccount u) w),
         Ok tt)
    end.
Proof.
  unfold account_of. run_calls. destruct w as [d tn ts cs]. cbn.
  destruct (find _ _) as [a|] eqn:Hf.
  - rewrite (find_existsb _ _ Hf). reflexivity.
  - apply existsb_find_none in Hf. rewrite Hf. reflexivity.
Qed.

Lemma service_CreateAccount_cases (u : GoString) (w : World) :
  service.CreateAccount u w
  = if str_eqb u [] then (w, Fail (New UUIDEmpty))
    else
      match repository.CreateAccount u w with
      | (w', Ok _) => (w', Ok tt)
      | (w', Fail e) => (w', Fail (Wrapf CreateAccountFailed e))
      end.
Proof.
  unfold service.CreateAccount. destruct (str_eqb u []); [reflexivity|].
  unfold bind at 1, try at 1.
  now destruct (repository.CreateAccount u w) as [w' [[]|e]].
Qed.

Lemma CreateAccount_unique (u : GoString) (w : World) :
  unique_accounts w -> unique_accounts (fst (repository.CreateAccount u w)).
Proof.
  unfold unique_accounts. intros Hu. rewrite repository_CreateAccount_cases.
  unfold account_of. destruct (find _ _) as [a|] eqn:Hf; cbn; [exact Hu|].
  rewrite map_app. cbn. apply NoDup_app; [exact Hu| |].
  - constructor; [intros []|constructor].
  - intros x Hx [<-|[]]. now apply (find_none_not_in _ _ Hf).
Qed.

Lemma service_GetAccountByUserUUID_runs (u : GoString) (w : World) :
  service.GetAccountByUserUUID u w
  = if str_eqb u [] then (w, Fail (New UUIDEmpty))
    else (called (SelectAccount u) w,
          match account_of w u with
          | Some row => Ok (service.response (repository.scan_account row))
          | None => Fail (New AccountInfoNotFound)
          end).
Proof.
  unfold service.GetAccountByUserUUID. destruct (str_eqb u []); [reflexivity|].
  unfold bind at 1, try at 1. rewrite GetAccountByUserUUID_runs.
  now destruct (account_of w u).
Qed.

Lemma account_step_unique (c : AccountCall) (w : World) :
  unique_accounts w -> unique_accounts (account_step c w).
Proof.
  intros Hu. destruct c as [u|u|u|op]; cbn.
  - now apply CreateAccount_unique.
  - rewrite service_CreateAccount_cases. destruct (str_eqb u []); [exact Hu|].
    pose proof (CreateAccount_unique u Hu) as Hc.
    now destruct (repository.CreateAccount u w) as [w' [[]|e]].
  - rewrite service_GetAccountByUserUUID_runs.
    destruct (str_eqb u []); exact Hu.
  - unfold unique_accounts. now rewrite ledger_step_uuids.
Qed.

(** X1.  Whatever account calls run (creations by the store or the service,
    lookups, recharges, deductions), a store in which no user has two
    account rows stays so; and a creation for a user who has a row already
    is refused as a duplicate and leaves the tables as they were. *)
Theorem X1_one_account_per_user (cs : list AccountCall) (w : World) :
  unique_accounts w ->
  unique_accounts (account_run cs w)
  /\ forall u a,
       account_of (account_run cs w) u = Some a ->
       repository.CreateAccount u (account_run cs w)
       = (called (InsertAccount u) (account_run cs w),
          Fail (New AccountUUIDDuplicate))
       /\ (u = []
           \/ service.CreateAccount u (account_run cs w)
              = (called (InsertAccount u) (account_run cs w),
                 Fail (Wrapf CreateAccountFailed (New AccountUUIDDuplicate)))).
Proof.
  intros Hu.
  assert (Hrun : unique_accounts (account_run cs w)).
  { revert w Hu. induction cs as [|c cs IH]; intros w Hu; [exact Hu|].
    cbn. apply IH. now apply account_step_unique. }
  split; [exact Hrun|]. intros u a Hf.
  assert (Hr : repository.CreateAccount u (account_run cs w)
               = (called (InsertAccount u) (account_run cs w),
                  Fail (New AccountUUIDDuplicate))).
  { rewrite repository_CreateAccount_cases. now rewrite Hf. }
  split; [exact Hr|].
  destruct (str_eqb u []) eqn:E.
  - left. now apply str_eqb_nil.
  - right. rewrite service_CreateAccount_cases, E, Hr. reflexivity.
Qed.

Lemma X1_one_account_per_user_witness :
  unique_accounts
    (account_run [CallCreateAccount u1; CallRepositoryCreateAccount u1;
                  CallLedger (CallRechargeBalance u1 (decimal_New 500 (-2)))]
       world_u1).
Proof.
  apply (@X1_one_account_per_user
           [CallCreateAccount u1; CallRepositoryCreateAccount u1;
            CallLedger (CallRechargeBalance u1 (decimal_New 500 (-2)))] world_u1).
  constructor.
Defined.

(** X2.  Creation and lookup of an account agree.  Before a successful
    CreateAccount of the service the lookup of that identity fails with the
    account-not-found message; right after it, the lookup returns the
    identity with balance, total recharge and total consume all zero.  The
    lookup itself changes no table. *)
Theorem X2_create_then_lookup (u : GoString) (w w1 : World) :
  service.CreateAccount u w = (w1, Ok tt) ->
  service.GetAccountByUserUUID u w
  = (called (SelectAccount u) w, Fail (New AccountInfoNotFound))
  /\ service.GetAccountByUserUUID u w1
     = (called (SelectAccount u) w1,
        Ok (AccountResponse.mk u (decimal_New 0 (-2)) (decimal_New 0 (-2))
              (decimal_New 0 (-2))))
  /\ store (fst (service.GetAccountByUserUUID u w1)) = store w1.
Proof.
  intros Hc.
  assert (Hu : str_eqb u [] = false).
  { unfold service.CreateAccount in Hc. destruct (str_eqb u []); [|reflexivity].
    discriminate Hc. }
  apply service_CreateAccount_runs, CreateAccount_runs in Hc as [Hnone Hsome].
  rewrite !service_GetAccountByUserUUID_runs, Hu, Hnone, Hsome.
  repeat split.
Qed.

Lemma X2_create_then_lookup_witness :
  service.GetAccountByUserUUID u1 world_account
  = (called (SelectAccount u1) world_account,
     Ok (AccountResponse.mk u1 (decimal_New 0 (-2)) (decimal_New 0 (-2))
           (decimal_New 0 (-2)))).
Proof.
  apply (@X2_create_then_lookup u1 world_u1 world_account). reflexivity.
Defined.

Lemma in_DECIMAL_10_2_iff (c : Z) :
  in_DECIMAL_10_2 c = true <-> - DECIMAL_10_2_MAX <= c <= DECIMAL_10_2_MAX.
Proof.
  unfold in_DECIMAL_10_2. rewrite andb_true_iff, !Z.leb_le. reflexivity.
Qed.

(** Under the unique index an update selects one row. *)
Lemma unique_selected (u : GoString) (l : list AccountRow.t) (a : AccountRow.t) :
  NoDup (map AccountRow.user_uuid l) ->
  find (repository.by_user_uuid u) l = Some a ->
  forall r, In r l -> repository.by_user_uuid u r = true -> r = a.
Proof.
  induction l as [|x l IH]; cbn; [discriminate|].
  intros Hnd Hf r Hin Hr. apply NoDup_cons_iff in Hnd as [Hx Hnd].
  destruct (repository.by_user_uuid u x) eqn:Ex.
  - injection Hf as <-. destruct Hin as [->|Hin]; [reflexivity|].
    exfalso. apply Hx. apply in_map_iff. exists r. split; [|exact Hin].
    apply str_eqb_eq in Hr, Ex. congruence.
  - destruct Hin as [->|Hin]; [congruence|]. now apply IH.
Qed.

Lemma update_in_range_unique (u : GoString) (f : AccountRow.t -> AccountRow.t)
  (assigned : AccountRow.t -> list Z) (l : list AccountRow.t) (a : AccountRow.t) :
  NoDup (map AccountRow.user_uuid l) ->
  find (repository.by_user_uuid u) l = Some a ->
  forallb in_DECIMAL_10_2 (assigned (f a)) = true ->
  repository.update_in_range u f assigned l = true.
Proof.
  intros Hnd Hf Hr. unfold repository.update_in_range. apply forallb_forall.
  intros r Hin. destruct (repository.by_user_uuid u r) eqn:E; [|reflexivity].
  now rewrite (@unique_selected u l a Hnd Hf r Hin E).
Qed.

Lemma set_recharge_whole (amount : Decimal) (a : AccountRow.t) :
  whole_hundredths amount ->
  repository.set_recharge amount a
  = AccountRow.mk (AccountRow.id a) (AccountRow.user_uuid a)
      (AccountRow.balance a + cents amount)
      (AccountRow.total_recharge a + cents amount)
      (AccountRow.total_consume a).
Proof.
  intros Hw. unfold repository.set_recharge.
  now rewrite !column_plus_whole by exact Hw.
Qed.

Lemma set_deduct_whole (amount : Decimal) (a : AccountRow.t) :
  whole_hundredths amount ->
  repository.set_deduct amount a
  = AccountRow.mk (AccountRow.id a) (AccountRow.user_uuid a)
      (AccountRow.balance a - cents amount)
      (AccountRow.total_recharge a)
      (AccountRow.total_consume a + cents amount).
Proof.
  intros Hw. unfold repository.set_deduct.
  now rewrite column_plus_whole, column_minus_whole by exact Hw.
Qed.

Lemma eqb_set_recharge (amount : Decimal) (a : AccountRow.t) :
  whole_hundredths amount -> LessThanOrEqual amount decimal_Zero = false ->
  AccountRow.eqb a (repository.set_recharge amount a) = false.
Proof.
  intros Hw Ha. pose proof (@cents_positive amount Hw Ha) as Hc.
  rewrite set_recharge_whole by exact Hw. unfold AccountRow.eqb. cbn.
  rewrite N.eqb_refl, str_eqb_refl. cbn.
  destruct (Z.eqb_spec (AccountRow.balance a) (AccountRow.balance a + cents amount));
    [lia|reflexivity].
Qed.

Lemma eqb_set_deduct (amount : Decimal) (a : AccountRow.t) :
  whole_hundredths amount -> LessThanOrEqual amount decimal_Zero = false ->
  AccountRow.eqb a (repository.set_deduct amount a) = false.
Proof.
  intros Hw Ha. pose proof (@cents_positive amount Hw Ha) as Hc.
  rewrite set_deduct_whole by exact Hw. unfold AccountRow.eqb. cbn.
  rewrite N.eqb_refl, str_eqb_refl. cbn.
  destruct (Z.eqb_spec (AccountRow.balance a) (AccountRow.balance a - cents amount));
    [lia|reflexivity].
Qed.

Lemma account_of_by (w : World) (u : GoString) (a : AccountRow.t) :
  account_of w u = Some a -> repository.by_user_uuid u a = true.
Proof. intros Hf. now apply find_some in Hf. Qed.

Lemma RechargeBalance_succeeds (u : GoString) (amount : Decimal) (w : World)
  (a : AccountRow.t) :
  unique_accounts w -> account_of w u = Some a ->
  LessThanOrEqual amount decimal_Zero = false -> whole_hundredths amount ->
  in_DECIMAL_10_2 (AccountRow.balance a + cents amount) = true ->
  in_DECIMAL_10_2 (AccountRow.total_recharge a + cents amount) = true ->
  repository.RechargeBalance u amount w
  = (with_store (recharge_store u amount (store w))
       (called (UpdateRecharge amount u) w), Ok tt)
  /\ account_of (fst (repository.RechargeBalance u amount w)) u
     = Some (repository.set_recharge amount a).
Proof.
  intros Hu Hf Ha Hw Hb Ht.
  assert (Hrange : repository.update_in_range u (repository.set_recharge amount)
                     repository.assigned_recharge (user_account (store w)) = true).
  { apply (@update_in_range_unique u _ _ _ a Hu Hf).
    rewrite set_recharge_whole by exact Hw. cbn. now rewrite Hb, Ht. }
  rewrite RechargeBalance_runs by exact Ha. rewrite Hrange.
  pose proof (@rows_affected_some _ AccountRow.eqb (repository.by_user_uuid u)
                (repository.set_recharge amount) _ a
                (fun r _ => @eqb_set_recharge amount r Hw Ha) Hf) as Hrows.
  destruct (Z.eqb_spec (rows_affected AccountRow.eqb (repository.by_user_uuid u)
                          (repository.set_recharge amount)
                          (user_account (store w))) 0) as [E|_]; [lia|].
  split; [reflexivity|]. unfold account_of, recharge_store, update_store.
  cbn [fst store with_store called]. rewrite Ha, Hrange. cbn [user_account with_user_account].
  rewrite find_update_account by reflexivity.
  unfold account_of in Hf. rewrite Hf. cbn.
  now rewrite (account_of_by w u Hf).
Qed.

Lemma DeductBalance_succeeds (u : GoString) (amount : Decimal) (w : World)
  (a : AccountRow.t) :
  unique_accounts w -> account_of w u = Some a ->
  LessThanOrEqual amount decimal_Zero = false -> whole_hundredths amount ->
  LessThan (scan_decimal (AccountRow.balance a)) amount = false ->
  in_DECIMAL_10_2 (AccountRow.balance a - cents amount) = true ->
  in_DECIMAL_10_2 (AccountRow.total_consume a + cents amount) = true ->
  repository.DeductBalance u amount w
  = (with_store (deduct_store u amount (store w))
       (called (UpdateDeduct amount u) (called (SelectBalance u) w)), Ok tt)
  /\ account_of (fst (repository.DeductBalance u amount w)) u
     = Some (repository.set_deduct amount a).
Proof.
  intros Hu Hf Ha Hw Hcov Hb Ht.
  assert (Hrange : repository.update_in_range u (repository.set_deduct amount)
                     repository.assigned_deduct (user_account (store w)) = true).
  { apply (@update_in_range_unique u _ _ _ a Hu Hf).
    rewrite set_deduct_whole by exact Hw. cbn. now rewrite Hb, Ht. }
  rewrite DeductBalance_runs by exact Ha. rewrite Hf, Hcov, Hrange.
  pose proof (@rows_affected_some _ AccountRow.eqb (repository.by_user_uuid u)
                (repository.set_deduct amount) _ a
                (fun r _ => @eqb_set_deduct amount r Hw Ha) Hf) as Hrows.
  destruct (Z.eqb_spec (rows_affected AccountRow.eqb (repository.by_user_uuid u)
                          (repository.set_deduct amount)
                          (user_account (store w))) 0) as [E|_]; [lia|].
  split; [reflexivity|]. unfold account_of, deduct_store, update_store.
  cbn [fst store with_store called]. rewrite Ha.
  unfold account_of in Hf. rewrite Hf, Hcov, Hrange.
  cbn [user_account with_user_account].
  rewrite find_update_account by reflexivity. rewrite Hf. cbn.
  now rewrite (account_of_by w u Hf).
Qed.

Lemma user_of_called (s : Stmt) (w : World) (u : GoString) :
  user_of (called s w) u = user_of w u.
Proof. reflexivity. Qed.

Lemma service_Recharge_succeeds (u : GoString) (amount : Decimal) (w : World)
  (usr : User.t) (a : AccountRow.t) :
  u <> [] -> LessThanOrEqual amount decimal_Zero = false ->
  whole_hundredths amount -> unique_accounts w ->
  user_of w u = Some usr -> account_of w u = Some a ->
  in_DECIMAL_10_2 (AccountRow.balance a + cents amount) = true ->
  in_DECIMAL_10_2 (AccountRow.total_recharge a + cents amount) = true ->
  service.Recharge (RechargeRequest.mk u amount) w
  = (called (SelectAccount u)
       (with_store (recharge_store u amount (store w))
          (called (UpdateRecharge amount u) (called (SelectUserByUuid u) w))),
     Ok (service.response
           (repository.scan_account (repository.set_recharge amount a))))
  /\ account_of (fst (service.Recharge (RechargeRequest.mk u amount) w)) u
     = Some (repository.set_recharge amount a).
Proof.
  intros Hu Ha Hw Huniq Husr Hacc Hb Ht.
  rewrite service_Recharge_runs by (cbn; assumption). cbn zeta.
  cbn [RechargeRequest.UserUUID RechargeRequest.Amount]. rewrite Husr.
  destruct (@RechargeBalance_succeeds u amount (called (SelectUserByUuid u) w) a)
    as [Hrun Hrow]; try assumption.
  rewrite Hrun in Hrow |- *. cbn [fst] in Hrow. rewrite Hrow. cbn [fst].
  split; [reflexivity|exact Hrow].
Qed.

Lemma service_Deduct_succeeds (u : GoString) (amount : Decimal) (w : World)
  (usr : User.t) (a : AccountRow.t) :
  u <> [] -> LessThanOrEqual amount decimal_Zero = false ->
  whole_hundredths amount -> unique_accounts w ->
  user_of w u = Some usr -> account_of w u = Some a ->
  LessThan (scan_decimal (AccountRow.balance a)) amount = false ->
  in_DECIMAL_10_2 (AccountRow.balance a - cents amount) = true ->
  in_DECIMAL_10_2 (AccountRow.total_consume a + cents amount) = true ->
  service.Deduct (DeductRequest.mk u amount) w
  = (called (SelectAccount u)
       (with_store (deduct_store u amount (store w))
          (called (UpdateDeduct amount u)
             (called (SelectBalance u) (called (SelectUserByUuid u) w)))),
     Ok (service.response
           (repository.scan_account (repository.set_deduct amount a))))
  /\ account_of (fst (service.Deduct (DeductRequest.mk u amount) w)) u
     = Some (repository.set_deduct amount a).
Proof.
  intros Hu Ha Hw Huniq Husr Hacc Hcov Hb Ht.
  rewrite service_Deduct_runs by (cbn; assumption). cbn zeta.
  cbn [DeductRequest.UserUUID DeductRequest.Amount]. rewrite Husr.
  destruct (@DeductBalance_succeeds u amount (called (SelectUserByUuid u) w) a)
    as [Hrun Hrow]; try assumption.
  rewrite Hrun in Hrow |- *. cbn [fst] in Hrow. rewrite Hrow. cbn [fst].
  split; [reflexivity|exact Hrow].
Qed.

(** X3.  A recharge by a registered user who has an account, the only one
    of that user, succeeds when the amount is positive, is a whole number
    of hundredths and leaves the balance and the total recharge within the
    range of their columns: the service sends the user lookup, the update
    and the account read, in that order, and answers with the account as it
    is stored after the update, the balance and the total recharge both
    raised by the amount and the total consume as before. *)
Theorem X3_Recharge_snapshot (u : GoString) (amount : Decimal) (w : World)
  (usr : User.t) (a : AccountRow.t) :
  u <> [] -> LessThanOrEqual amount decimal_Zero = false ->
  whole_hundredths amount -> unique_accounts w ->
  user_of w u = Some usr -> account_of w u = Some a ->
  in_DECIMAL_10_2 (AccountRow.balance a + cents amount) = true ->
  in_DECIMAL_10_2 (AccountRow.total_recharge a + cents amount) = true ->
  exists w',
    service.Recharge (RechargeRequest.mk u amount) w
    = (w', Ok (AccountResponse.mk u
                 (scan_decimal (AccountRow.balance a + cents amount))
                 (scan_decimal (AccountRow.total_recharge a + cents amount))
                 (scan_decimal (AccountRow.total_consume a))))
    /\ account_of w' u
       = Some (AccountRow.mk (AccountRow.id a) u
                 (AccountRow.balance a + cents amount)
                 (AccountRow.total_recharge a + cents amount)
                 (AccountRow.total_consume a))
    /\ calls w'
       = calls w ++ [SelectUserByUuid u; UpdateRecharge amount u; SelectAccount u].
Proof.
  intros Hu Ha Hw Huniq Husr Hacc Hb Ht.
  pose proof (find_by_user_uuid _ _ Hacc) as Huuid.
  destruct (@service_Recharge_succeeds u amount w usr a Hu Ha Hw Huniq Husr Hacc Hb Ht)
    as [Hrun Hrow].
  rewrite Hrun in Hrow |- *. cbn [fst] in Hrow.
  rewrite set_recharge_whole in Hrow |- * by exact Hw. rewrite Huuid in Hrow.
  eexists. split; [|split].
  - unfold service.response, repository.scan_account. cbn. now rewrite Huuid.
  - exact Hrow.
  - cbn. now rewrite <- !app_assoc.
Qed.

Lemma X3_Recharge_snapshot_witness :
  exists w',
    service.Recharge (RechargeRequest.mk u1 (decimal_New 10000 (-2))) world_account
    = (w', Ok (AccountResponse.mk u1 (decimal_New 10000 (-2))
                 (decimal_New 10000 (-2)) (decimal_New 0 (-2)))).
Proof.
  destruct (@X3_Recharge_snapshot u1 (decimal_New 10000 (-2)) world_account
              (User.mk 1 u1 (lit "alice")) (AccountRow.mk 1 u1 0 0 0))
    as (w' & Hrun & _).
  - discriminate.
  - reflexivity.
  - reflexivity.
  - constructor; [intros []|constructor].
  - reflexivity.
  - reflexivity.
  - reflexivity.
  - reflexivity.
  - exists w'. exact Hrun.
Defined.

(** X4.  A deduction by a registered user who has an account, the only one
    of that user, succeeds when the amount is positive, is a whole number
    of hundredths, is covered by the balance and leaves the balance and the
    total consume within the range of their columns: the service sends the
    user lookup, the balance read, the update and the account read, and
    answers with the stored account, the balance lowered and the total
    consume raised by the amount, the total recharge as before. *)
Theorem X4_Deduct_snapshot (u : GoString) (amount : Decimal) (w : World)
  (usr : User.t) (a : AccountRow.t) :
  u <> [] -> LessThanOrEqual amount decimal_Zero = false ->
  whole_hundredths amount -> unique_accounts w ->
  user_of w u = Some usr -> account_of w u = Some a ->
  LessThan (scan_decimal (AccountRow.balance a)) amount = false ->
  in_DECIMAL_10_2 (AccountRow.balance a - cents amount) = true ->
  in_DECIMAL_10_2 (AccountRow.total_consume a + cents amount) = true ->
  exists w',
    service.Deduct (DeductRequest.mk u amount) w
    = (w', Ok (AccountResponse.mk u
                 (scan_decimal (AccountRow.balance a - cents amount))
                 (scan_decimal (AccountRow.total_recharge a))
                 (scan_decimal (AccountRow.total_consume a + cents amount))))
    /\ account_of w' u
       = Some (AccountRow.mk (AccountRow.id a) u
                 (AccountRow.balance a - cents amount)
                 (AccountRow.total_recharge a)
                 (AccountRow.total_consume a + cents amount))
    /\ calls w'
       = calls w ++ [SelectUserByUuid u; SelectBalance u;
                     UpdateDeduct amount u; SelectAccount u].
Proof.
  intros Hu Ha Hw Huniq Husr Hacc Hcov Hb Ht.
  pose proof (find_by_user_uuid _ _ Hacc) as Huuid.
  destruct (@service_Deduct_succeeds u amount w usr a Hu Ha Hw Huniq Husr Hacc Hcov Hb Ht)
    as [Hrun Hrow].
  rewrite Hrun in Hrow |- *. cbn [fst] in Hrow.
  rewrite set_deduct_whole in Hrow |- * by exact Hw. rewrite Huuid in Hrow.
  eexists. split; [|split].
  - unfold service.response, repository.scan_account. cbn. now rewrite Huuid.
  - exact Hrow.
  - cbn. now rewrite <- !app_assoc.
Qed.

Lemma X4_Deduct_snapshot_witness :
  exists w',
    service.Deduct (DeductRequest.mk u1 (decimal_New 3000 (-2)))
      (ledger_step (CallRecharge (RechargeRequest.mk u1 (decimal_New 10000 (-2))))
         world_account)
    = (w', Ok (AccountResponse.mk u1 (decimal_New 7000 (-2))
                 (decimal_New 10000 (-2)) (decimal_New 3000 (-2)))).
Proof.
  destruct (@X4_Deduct_snapshot u1 (decimal_New 3000 (-2))
              (ledger_step
                 (CallRecharge (RechargeRequest.mk u1 (decimal_New 10000 (-2))))
                 world_account)
              (User.mk 1 u1 (lit "alice")) (AccountRow.mk 1 u1 10000 10000 0))
    as (w' & Hrun & _).
  - discriminate.
  - reflexivity.
  - reflexivity.
  - constructor; [intros []|constructor].
  - reflexivity.
  - reflexivity.
  - reflexivity.
  - reflexivity.
  - reflexivity.
  - exists w'. exact Hrun.
Defined.

(** X5.  For a registered user whose one account has a balance that is not
    negative, a recharge followed by a deduction of the same amount, which
    is positive, a whole number of hundredths and within the range of the
    columns, both succeed and bring the balance back to where it was, while
    the total recharge and the total consume have each grown by the
    amount. *)
Theorem X5_recharge_then_deduct (u : GoString) (amount : Decimal) (w : World)
  (usr : User.t) (a : AccountRow.t) :
  u <> [] -> LessThanOrEqual amount decimal_Zero = false ->
  whole_hundredths amount -> unique_accounts w ->
  user_of w u = Some usr -> account_of w u = Some a ->
  0 <= AccountRow.balance a ->
  in_DECIMAL_10_2 (AccountRow.balance a + cents amount) = true ->
  in_DECIMAL_10_2 (AccountRow.total_recharge a + cents amount) = true ->
  in_DECIMAL_10_2 (AccountRow.total_consume a + cents amount) = true ->
  let w1 := fst (service.Recharge (RechargeRequest.mk u amount) w) in
  let w2 := fst (service.Deduct (DeductRequest.mk u amount) w1) in
  (exists resp, snd (service.Recharge (RechargeRequest.mk u amount) w) = Ok resp)
  /\ snd (service.Deduct (DeductRequest.mk u amount) w1)
     = Ok (AccountResponse.mk u
             (scan_decimal (AccountRow.balance a))
             (scan_decimal (AccountRow.total_recharge a + cents amount))
             (scan_decimal (AccountRow.total_consume a + cents amount)))
  /\ account_of w2 u
     = Some (AccountRow.mk (AccountRow.id a) u (AccountRow.balance a)
               (AccountRow.total_recharge a + cents amount)
               (AccountRow.total_consume a + cents amount)).
Proof.
  intros Hu Ha Hw Huniq Husr Hacc Hb0 Hb Ht Hc w1 w2.
  pose proof (find_by_user_uuid _ _ Hacc) as Huuid.
  pose proof (@cents_positive amount Hw Ha) as Hpos.
  destruct (@service_Recharge_succeeds u amount w usr a Hu Ha Hw Huniq Husr Hacc Hb Ht)
    as [Hr Hacc1].
  fold w1 in Hacc1.
  assert (Huniq1 : unique_accounts w1).
  { unfold unique_accounts, w1.
    change (fst (service.Recharge (RechargeRequest.mk u amount) w))
      with (ledger_step (CallRecharge (RechargeRequest.mk u amount)) w).
    now rewrite ledger_step_uuids. }
  assert (Husr1 : user_of w1 u = Some usr).
  { unfold user_of, w1.
    apply (@store_Recharge (RechargeRequest.mk u amount) w
             (fun d => find (fun x => str_eqb (User.UUID x) u) (users d) = Some usr));
      [exact Husr|].
    unfold recharge_store, update_store. cbn.
    destruct (LessThanOrEqual _ _); [exact Husr|].
    destruct (repository.update_in_range _ _ _ _); exact Husr. }
  rewrite set_recharge_whole in Hacc1 by exact Hw.
  apply in_DECIMAL_10_2_iff in Hb.
  destruct (@service_Deduct_succeeds u amount w1 usr _ Hu Ha Hw Huniq1 Husr1 Hacc1)
    as [Hd Hacc2].
  - cbn. rewrite LessThan_column_whole by exact Hw. apply Z.ltb_ge. lia.
  - cbn. apply in_DECIMAL_10_2_iff. unfold DECIMAL_10_2_MAX in *. lia.
  - exact Hc.
  - fold w2 in Hacc2. split; [eexists; now rewrite Hr|]. split.
    + rewrite Hd. cbn [snd]. rewrite set_deduct_whole by exact Hw.
      unfold service.response, repository.scan_account. cbn. rewrite Huuid.
      f_equal. f_equal. f_equal. lia.
    + rewrite Hacc2, set_deduct_whole by exact Hw. cbn. rewrite Huuid.
      f_equal. f_equal. lia.
Qed.

Lemma X5_recharge_then_deduct_witness :
  account_of
    (fst (service.Deduct (DeductRequest.mk u1 (decimal_New 2500 (-2)))
            (fst (service.Recharge (RechargeRequest.mk u1 (decimal_New 2500 (-2)))
                    world_account))))
    u1
  = Some (AccountRow.mk 1 u1 0 2500 2500).
Proof.
  apply (@X5_recharge_then_deduct u1 (decimal_New 2500 (-2)) world_account
           (User.mk 1 u1 (lit "alice")) (AccountRow.mk 1 u1 0 0 0)).
  - discriminate.
  - reflexivity.
  - reflexivity.
  - constructor; [intros []|constructor].
  - reflexivity.
  - reflexivity.
  - cbn. lia.
  - reflexivity.
  - reflexivity.
  - reflexivity.
Defined.

Lemma find_update_other (u u' : GoString) (f : AccountRow.t -> AccountRow.t)
  (l : list AccountRow.t) :
  (forall r, AccountRow.user_uuid (f r) = AccountRow.user_uuid r) ->
  u <> u' ->
  find (repository.by_user_uuid u') (update_where (repository.by_user_uuid u) f l)
  = find (repository.by_user_uuid u') l.
Proof.
  intros Hf Hne. rewrite find_update_account by exact Hf.
  destruct (find (repository.by_user_uuid u') l) as [r|] eqn:E; [|reflexivity].
  cbn. apply find_by_user_uuid in E.
  destruct (repository.by_user_uuid u r) eqn:Hu; [|reflexivity].
  apply str_eqb_eq in Hu. congruence.
Qed.

Lemma update_store_frame (u u' : GoString) (f : AccountRow.t -> AccountRow.t)
  (assigned : AccountRow.t -> list Z) (d : DB) :
  (forall r, AccountRow.user_uuid (f r) = AccountRow.user_uuid r) ->
  u <> u' -> ledger_frame u' d (update_store u f assigned d).
Proof.
  intros Hf Hne. unfold ledger_frame, update_store.
  destruct (repository.update_in_range _ _ _ _); [|now repeat split]. cbn.
  rewrite find_update_other by assumption.
  unfold update_where. rewrite length_map. now repeat split.
Qed.

Lemma recharge_store_frame (u u' : GoString) (amount : Decimal) (d : DB) :
  u <> u' -> ledger_frame u' d (recharge_store u amount d).
Proof.
  intros Hne. unfold recharge_store.
  destruct (LessThanOrEqual _ _); [now repeat split|].
  now apply update_store_frame.
Qed.

Lemma deduct_store_frame (u u' : GoString) (amount : Decimal) (d : DB) :
  u <> u' -> ledger_frame u' d (deduct_store u amount d).
Proof.
  intros Hne. unfold deduct_store.
  destruct (LessThanOrEqual _ _); [now repeat split|].
  destruct (find (repository.by_user_uuid u) _); [|now repeat split].
  destruct (LessThan _ amount); [now repeat split|].
  now apply update_store_frame.
Qed.

(** X6.  A recharge or a deduction, by the store or by the service, that
    names one user leaves the account row of every other user exactly as it
    was; it touches neither the users nor the resources and adds or removes
    no account row. *)
Theorem X6_ledger_frame (op : LedgerOp) (w : World) (u' : GoString) :
  ledger_target op <> u' ->
  account_of (ledger_step op w) u' = account_of w u'
  /\ users (store (ledger_step op w)) = users (store w)
  /\ resources (store (ledger_step op w)) = resources (store w)
  /\ List.length (user_account (store (ledger_step op w)))
     = List.length (user_account (store w)).
Proof.
  intros Hne. change (ledger_frame u' (store w) (store (ledger_step op w))).
  destruct op as [u amt|u amt|req|req]; cbn in Hne |- *.
  - rewrite store_RechargeBalance. now apply recharge_store_frame.
  - rewrite store_DeductBalance. now apply deduct_store_frame.
  - apply store_Recharge; [now repeat split|now apply recharge_store_frame].
  - apply store_Deduct; [now repeat split|now apply deduct_store_frame].
Qed.

Lemma X6_ledger_frame_witness :
  account_of
    (ledger_step (CallRechargeBalance u1 (decimal_New 500 (-2))) world_two) u2
  = account_of world_two u2.
Proof.
  apply (@X6_ledger_frame (CallRechargeBalance u1 (decimal_New 500 (-2)))
           world_two u2).
  discriminate.
Defined.

(** X7.  The service checks the user before the account: for an identity
    with no user row, Recharge and Deduct of a positive amount stop after
    the user lookup with the user-not-found error, whether or not an account
    row exists for that identity, and no table changes. *)
Theorem X7_unregistered_user_blocked (u : GoString) (amount : Decimal)
  (w : World) :
  u <> [] -> LessThanOrEqual amount decimal_Zero = false ->
  user_of w u = None ->
  service.Recharge (RechargeRequest.mk u amount) w
  = (called (SelectUserByUuid u) w, Fail (Wrapf UserNotExist (New UserNotExist)))
  /\ service.Deduct (DeductRequest.mk u amount) w
     = (called (SelectUserByUuid u) w,
        Fail (Wrapf UserNotExist (New UserNotExist)))
  /\ account_of (fst (service.Recharge (RechargeRequest.mk u amount) w)) u
     = account_of w u
  /\ account_of (fst (service.Deduct (DeductRequest.mk u amount) w)) u
     = account_of w u.
Proof.
  intros Hu Ha Hnone.
  rewrite service_Recharge_runs, service_Deduct_runs by (cbn; assumption).
  cbn. rewrite Hnone. repeat split.
Qed.

Lemma X7_unregistered_user_blocked_witness :
  account_of world_two u2 = Some (AccountRow.mk 2 u2 0 0 0)
  /\ service.Recharge (RechargeRequest.mk u2 (decimal_New 100 (-2))) world_two
     = (called (SelectUserByUuid u2) world_two,
        Fail (Wrapf UserNotExist (New UserNotExist))).
Proof.
  split; [reflexivity|].
  apply (@X7_unregistered_user_blocked u2 (decimal_New 100 (-2)) world_two);
    [discriminate|reflexivity|reflexivity].
Defined.

(** * Further properties of the resource store and service *)

Lemma CURRENT_TIMESTAMP_iter_counted (s : Stmt)
  (set : Time -> ResourceRow.t -> ResourceRow.t) (id : N) (n : nat) (w : World) :
  CURRENT_TIMESTAMP (Nat.iter n (counted s set id) w) = CURRENT_TIMESTAMP w.
Proof. induction n as [|n IH]; cbn; [reflexivity|exact IH]. Qed.

Lemma resource_of_iter_counted (s : Stmt)
  (set : Time -> ResourceRow.t -> ResourceRow.t) (id : N) (n : nat) (w : World)
  (r : ResourceRow.t) :
  (forall now r, ResourceRow.id (set now r) = ResourceRow.id r) ->
  resource_of w id = Some r ->
  resource_of (Nat.iter n (counted s set id) w) id
  = Some (Nat.iter n (set (CURRENT_TIMESTAMP w)) r).
Proof.
  intros Hid Hf. induction n as [|n IH]; [exact Hf|].
  rewrite Nat.iter_succ. rewrite (resource_of_counted s set id _ Hid IH).
  now rewrite CURRENT_TIMESTAMP_iter_counted.
Qed.

Lemma iter_set_like_count (now : Time) (n : nat) (r : ResourceRow.t) :
  let r' := Nat.iter n (repository.set_like_count now) r in
  ResourceRow.like_count r' = (ResourceRow.like_count r + N.of_nat n)%N
  /\ ResourceRow.view_count r' = ResourceRow.view_count r
  /\ ResourceRow.comment_count r' = ResourceRow.comment_count r.
Proof.
  induction n as [|n IH]; [cbn; repeat split; lia|].
  cbv zeta in *. rewrite Nat.iter_succ. destruct IH as (Hl & Hv & Hc).
  cbn [repository.set_like_count repository.set_view_count
       repository.set_comment_count ResourceRow.like_count
       ResourceRow.view_count ResourceRow.comment_count].
  rewrite Hl, Hv, Hc. repeat split. lia.
Qed.

Lemma iter_set_view_count (now : Time) (n : nat) (r : ResourceRow.t) :
  let r' := Nat.iter n (repository.set_view_count now) r in
  ResourceRow.view_count r' = (ResourceRow.view_count r + N.of_nat n)%N
  /\ ResourceRow.like_count r' = ResourceRow.like_count r
  /\ ResourceRow.comment_count r' = ResourceRow.comment_count r.
Proof.
  induction n as [|n IH]; [cbn; repeat split; lia|].
  cbv zeta in *. rewrite Nat.iter_succ. destruct IH as (Hl & Hv & Hc).
  cbn [repository.set_like_count repository.set_view_count
       repository.set_comment_count ResourceRow.like_count
       ResourceRow.view_count ResourceRow.comment_count].
  rewrite Hl, Hv, Hc. repeat split. lia.
Qed.

Lemma iter_set_comment_count (now : Time) (n : nat) (r : ResourceRow.t) :
  let r' := Nat.iter n (repository.set_comment_count now) r in
  ResourceRow.comment_count r' = (ResourceRow.comment_count r + N.of_nat n)%N
  /\ ResourceRow.like_count r' = ResourceRow.like_count r
  /\ ResourceRow.view_count r' = ResourceRow.view_count r.
Proof.
  induction n as [|n IH]; [cbn; repeat split; lia|].
  cbv zeta in *. rewrite Nat.iter_succ. destruct IH as (Hl & Hv & Hc).
  cbn [repository.set_like_count repository.set_view_count
       repository.set_comment_count ResourceRow.like_count
       ResourceRow.view_count ResourceRow.comment_count].
  rewrite Hl, Hv, Hc. repeat split. lia.
Qed.

(** X8.  Counter updates add up: after [n] calls of one of the store's
    increments on an existing resource, run one after the other, its
    counter is exactly [n] more than before and its two other counters are
    as before. *)
Theorem X8_n_increments (n : nat) (id : N) (w : World) (r : ResourceRow.t) :
  resource_of w id = Some r ->
  (exists r',
      resource_of (Nat.iter n (fun w => fst (repository.IncrLikeCount id w)) w) id
      = Some r'
      /\ ResourceRow.like_count r' = (ResourceRow.like_count r + N.of_nat n)%N
      /\ ResourceRow.view_count r' = ResourceRow.view_count r
      /\ ResourceRow.comment_count r' = ResourceRow.comment_count r)
  /\ (exists r',
         resource_of (Nat.iter n (fun w => fst (repository.IncrViewCount id w)) w) id
         = Some r'
         /\ ResourceRow.view_count r' = (ResourceRow.view_count r + N.of_nat n)%N
         /\ ResourceRow.like_count r' = ResourceRow.like_count r
         /\ ResourceRow.comment_count r' = ResourceRow.comment_count r)
  /\ (exists r',
         resource_of
           (Nat.iter n (fun w => fst (repository.IncrCommentCount id w)) w) id
         = Some r'
         /\ ResourceRow.comment_count r'
            = (ResourceRow.comment_count r + N.of_nat n)%N
         /\ ResourceRow.like_count r' = ResourceRow.like_count r
         /\ ResourceRow.view_count r' = ResourceRow.view_count r).
Proof.
  intros Hf. split; [|split]; eexists; (split; [|]).
  - exact (@resource_of_iter_counted (UpdateLikeCount id)
             repository.set_like_count id n w r (fun _ _ => eq_refl) Hf).
  - apply iter_set_like_count.
  - exact (@resource_of_iter_counted (UpdateViewCount id)
             repository.set_view_count id n w r (fun _ _ => eq_refl) Hf).
  - apply iter_set_view_count.
  - exact (@resource_of_iter_counted (UpdateCommentCount id)
             repository.set_comment_count id n w r (fun _ _ => eq_refl) Hf).
  - apply iter_set_comment_count.
Qed.

Lemma X8_n_increments_witness :
  exists r',
    resource_of
      (Nat.iter 5 (fun w => fst (repository.IncrLikeCount 1 w)) world_resource) 1
    = Some r'
    /\ ResourceRow.like_count r' = 5%N.
Proof.
  destruct (@X8_n_increments 5 1 world_resource _ eq_refl)
    as [(r' & Hf & Hl & _) _].
  exists r'. split; [exact Hf|exact Hl].
Defined.

(** X9.  The three service operations on counters compose and are visible
    to readers: after a view, a like and a comment with non-blank content on
    an existing resource of id at least 1, GetResourceByID returns that
    resource with each of its three counters one higher and its id, owner,
    title, contents, author and publication time as before. *)
Theorem X9_counters_seen_by_readers (id : N) (content : GoString) (w : World)
  (r : ResourceRow.t) :
  (0 < id)%N -> TrimSpace content <> [] -> resource_of w id = Some r ->
  let w1 := fst (service.IncrViewCount id w) in
  let w2 := fst (service.IncrLikeCount id w1) in
  let w3 := fst (service.CreateComment id content w2) in
  snd (service.IncrViewCount id w) = Ok tt
  /\ snd (service.IncrLikeCount id w1) = Ok tt
  /\ snd (service.CreateComment id content w2) = Ok tt
  /\ snd (service.GetResourceByID id w3)
     = Ok (Some (Resource.mk (ResourceRow.id r) (ResourceRow.user_id r)
                   (ResourceRow.title r)
                   (repository.IFNULL (ResourceRow.text_content r))
                   (repository.IFNULL (ResourceRow.code_content r))
                   (ResourceRow.author r) (ResourceRow.publish_time r)
                   (ResourceRow.like_count r + 1)%N
                   (ResourceRow.view_count r + 1)%N
                   (ResourceRow.comment_count r + 1)%N)).
Proof.
  intros Hid Hc Hf w1 w2 w3. subst w1 w2 w3.
  rewrite service_IncrViewCount_runs, IncrViewCount_runs. cbn [fst snd].
  rewrite service_IncrLikeCount_runs.
  destruct (N.leb_spec id 0); [lia|].
  rewrite IncrLikeCount_runs. cbn [fst snd].
  rewrite service_CreateComment_runs by assumption. cbn [fst snd].
  repeat split.
  unfold service.GetResourceByID. destruct (N.leb_spec id 0); [lia|].
  unfold bind at 1, try at 1. rewrite GetResourceByID_runs.
  pose proof (@resource_of_counted (UpdateViewCount id)
                repository.set_view_count id w r (fun _ _ => eq_refl) Hf) as H1.
  pose proof (@resource_of_counted (UpdateLikeCount id)
                repository.set_like_count id _ _ (fun _ _ => eq_refl) H1) as H2.
  pose proof (@resource_of_counted (UpdateCommentCount id)
                repository.set_comment_count id _ _ (fun _ _ => eq_refl) H2) as H3.
  rewrite H3. reflexivity.
Qed.

Lemma X9_counters_seen_by_readers_witness :
  snd (service.GetResourceByID 1
         (fst (service.CreateComment 1 (lit "nice")
                 (fst (service.IncrLikeCount 1
                         (fst (service.IncrViewCount 1 world_resource)))))))
  = Ok (Some (Resource.mk 1 1 (lit "Go Tutorial") (lit "basics")
                (lit "package main") (lit "alice") 0 1 1 1)).
Proof.
  destruct (@X9_counters_seen_by_readers 1 (lit "nice") world_resource
              (ResourceRow.mk 1 1 (lit "Go Tutorial") (Some (lit "basics"))
                 (Some (lit "package main")) (lit "alice") 0 0 0 0 (Some 0)))
    as (_ & _ & _ & Hget); [reflexivity|discriminate|reflexivity|].
  exact Hget.
Defined.

Lemma resource_of_counted_other (s : Stmt)
  (set : Time -> ResourceRow.t -> ResourceRow.t) (id id' : N) (w : World) :
  (forall now r, ResourceRow.id (set now r) = ResourceRow.id r) ->
  id' <> id ->
  resource_of (counted s set id w) id' = resource_of w id'.
Proof.
  unfold resource_of, counted. intros Hid Hne. cbn.
  rewrite find_update_where
    by (intros r0; unfold repository.by_id; now rewrite Hid).
  destruct (find (repository.by_id id') _) as [r|] eqn:E; [|reflexivity].
  cbn. apply find_some in E as [_ E]. unfold repository.by_id in *.
  apply N.eqb_eq in E. destruct (N.eqb_spec (ResourceRow.id r) id);
    [congruence|reflexivity].
Qed.

(** X10.  A counter update names one resource and touches no other: after
    IncrViewCount, IncrLikeCount or IncrCommentCount of the store on one id,
    the row of every other id reads as before, the table has as many rows as
    before, and users and accounts are unchanged. *)
Theorem X10_increment_frame (id id' : N) (w : World) :
  id' <> id ->
  let after := [fst (repository.IncrViewCount id w);
                fst (repository.IncrLikeCount id w);
                fst (repository.IncrCommentCount id w)] in
  Forall (fun w' =>
            resource_of w' id' = resource_of w id'
            /\ List.length (resources (store w')) = List.length (resources (store w))
            /\ users (store w') = users (store w)
            /\ user_account (store w') = user_account (store w))
    after.
Proof.
  intros Hne after. subst after.
  rewrite IncrViewCount_runs, IncrLikeCount_runs, IncrCommentCount_runs.
  cbn [fst]. repeat constructor;
    try (apply resource_of_counted_other; [reflexivity|exact Hne]);
    unfold counted, update_where; cbn; now rewrite length_map.
Qed.

Lemma X10_increment_frame_witness :
  resource_of (fst (repository.IncrLikeCount 7 world_resource)) 1
  = resource_of world_resource 1.
Proof.
  pose proof (@X10_increment_frame 7 1 world_resource ltac:(discriminate)) as H.
  apply Forall_cons_iff in H as [_ H].
  apply Forall_cons_iff in H as [[H _] _]. exact H.
Defined.

(** CreateResource of the service, case by case. *)
Lemma service_CreateResource_cases `{Platform} (userID : N)
  (title text code : GoString) (w : World) :
  service.CreateResource userID title text code w
  = if (userID =? 0)%N then (w, Fail (New UserIDZero))
    else if str_eqb (TrimSpace title) [] then (w, Fail (New TitleEmpty))
    else if len (TrimSpace title) >? 100
    then (w, Fail (New (TitleTooLong (len (TrimSpace title)))))
    else
      match find (fun u => (User.ID u =? userID)%N) (users (store w)) with
      | None =>
          (called (SelectUserById userID) w,
           Fail (Wrapf (QueryUserByIDFailed userID) (New UserIDNotExist)))
      | Some owner =>
          if str_eqb (TrimSpace (User.Username owner)) []
          then (called (SelectUserById userID) w, Fail (New (UsernameBlank userID)))
          else
            let resource :=
              Resource.mk 0 userID (TrimSpace title) (TrimSpace text) code
                (User.Username owner) (time_Now w) 0 0 0 in
            let w2 :=
              called (InsertResource resource) (called (SelectUserById userID) w) in
            match INSERT_resources_refused (store w) resource with
            | Some number =>
                (w2, Fail (Wrapf (CreateResourceFailed (TrimSpace title) userID)
                             (insert_resource_error number)))
            | None =>
                (with_store
                   (mkDB (users (store w)) (user_account (store w))
                      (resources (store w) ++
                       [ResourceRow.mk (resources_seq (store w)) userID
                          (TrimSpace title) (Some (TrimSpace text)) (Some code)
                          (User.Username owner) (time_Now w) 0 0 0
                          (updated_at_default (CURRENT_TIMESTAMP w))])
                      (user_account_seq (store w))
                      (N.succ (resources_seq (store w))))
                   w2,
                 Ok tt)
            end
      end.
Proof.
  unfold service.CreateResource.
  destruct (userID =? 0)%N; [reflexivity|].
  destruct (str_eqb (TrimSpace title) []); [reflexivity|].
  destruct (len (TrimSpace title) >? 100); [reflexivity|].
  unfold bind at 1, try at 1. rewrite GetUserById_runs.
  destruct (find _ (users (store w))) as [owner|] eqn:Hf; [|reflexivity].
  destruct (str_eqb (TrimSpace (User.Username owner)) []); [reflexivity|].
  unfold bind at 1, read_time_Now at 1. unfold bind at 1, try at 1.
  rewrite (@repository_CreateResource_cases _ _ _ owner) by exact Hf.
  cbv zeta. cbn [store called].
  destruct (INSERT_resources_refused _ _); reflexivity.
Qed.

Lemma find_by_id_fresh (l : list ResourceRow.t) (n : N) :
  (forall r, In r l -> (ResourceRow.id r < n)%N) ->
  find (repository.by_id n) l = None.
Proof.
  intros Hl. destruct (find (repository.by_id n) l) as [r|] eqn:E; [|reflexivity].
  apply find_some in E as [Hin E]. apply N.eqb_eq in E.
  specialize (Hl r Hin). lia.
Qed.

(** X11.  A resource can be read back under the id it was given.  In a store
    whose id sequence is ahead of every stored id, a successful
    CreateResource uses the next id of the sequence, and GetResourceByID of
    that id then returns the resource just stored: the trimmed title and
    text, the code as given, the owner's username as author, the creation
    time, and three zero counters.  The sequence is ahead again
    afterwards. *)
Theorem X11_create_then_get `{Platform} (w w' : World) (userID : N)
  (title text code : GoString) :
  sequence_ahead w ->
  service.CreateResource userID title text code w = (w', Ok tt) ->
  exists owner,
    find (fun u => (User.ID u =? userID)%N) (users (store w)) = Some owner
    /\ service.GetResourceByID (resources_seq (store w)) w'
       = (called (SelectResourceById (resources_seq (store w))) w',
          Ok (Some (Resource.mk (resources_seq (store w)) userID
                      (TrimSpace title) (TrimSpace text) code
                      (User.Username owner) (time_Now w) 0 0 0)))
    /\ sequence_ahead w'.
Proof.
  intros [Hpos Hahead] Hrun. rewrite service_CreateResource_cases in Hrun.
  destruct (userID =? 0)%N; [discriminate|].
  destruct (str_eqb (TrimSpace title) []); [discriminate|].
  destruct (len (TrimSpace title) >? 100); [discriminate|].
  destruct (find _ (users (store w))) as [owner|]; [|discriminate].
  destruct (str_eqb (TrimSpace (User.Username owner)) []); [discriminate|].
  cbv zeta in Hrun.
  destruct (INSERT_resources_refused _ _); [discriminate|].
  injection Hrun as <-.
  exists owner. split; [reflexivity|]. split.
  - unfold service.GetResourceByID.
    destruct (N.leb_spec (resources_seq (store w)) 0); [lia|].
    unfold bind at 1, try at 1. rewrite GetResourceByID_runs.
    unfold resource_of. cbn [store with_store resources called].
    rewrite find_snoc_fresh.
    + reflexivity.
    + now apply find_by_id_fresh.
    + apply N.eqb_refl.
  - split; cbn; [lia|]. intros r Hin. apply in_app_iff in Hin as [Hin|[<-|[]]].
    + specialize (Hahead r Hin). lia.
    + cbn. lia.
Qed.

Lemma X11_create_then_get_witness :
  exists owner,
    find (fun u => (User.ID u =? 1)%N) (users (store world_u1)) = Some owner
    /\ @service.GetResourceByID 1 world_resource
       = (called (SelectResourceById 1) world_resource,
          Ok (Some (Resource.mk 1 1 (lit "Go Tutorial") (lit "basics")
                      (lit "package main") (User.Username owner) 0 0 0 0))).
Proof.
  destruct (@X11_create_then_get sample_Platform world_u1 world_resource 1
              (lit "  Go Tutorial ") (lit "basics") (lit "package main"))
    as (owner & Hf & Hget & _).
  - split; [reflexivity|]. intros r [].
  - reflexivity.
  - exists owner. split; [exact Hf|exact Hget].
Defined.

(** X12.  A CreateResource that fails leaves the rows of every table as
    they were, and the failure is one of six: owner id 0, empty title,
    title above 100 bytes (these three before any call to the store), no
    user row for the owner (a not-found error, after the one user lookup),
    an owner whose username is blank, or an INSERT the store refuses for a
    constraint of the table, whose error comes back wrapped. *)
Theorem X12_failed_create_stores_nothing `{Platform} (w w' : World) (userID : N)
  (title text code : GoString) (e : Err) :
  service.CreateResource userID title text code w = (w', Fail e) ->
  (users (store w') = users (store w)
   /\ user_account (store w') = user_account (store w)
   /\ resources (store w') = resources (store w))
  /\ (e = New UserIDZero /\ userID = 0%N /\ w' = w
      \/ e = New TitleEmpty /\ TrimSpace title = [] /\ w' = w
      \/ e = New (TitleTooLong (len (TrimSpace title)))
         /\ 100 < len (TrimSpace title) /\ w' = w
      \/ e = Wrapf (QueryUserByIDFailed userID) (New UserIDNotExist)
         /\ find (fun u => (User.ID u =? userID)%N) (users (store w)) = None
         /\ is_not_found_error e = true
         /\ w' = called (SelectUserById userID) w
      \/ e = New (UsernameBlank userID)
         /\ (exists owner,
                find (fun u => (User.ID u =? userID)%N) (users (store w))
                = Some owner
                /\ TrimSpace (User.Username owner) = [])
         /\ w' = called (SelectUserById userID) w
      \/ exists owner number,
           let resource :=
             Resource.mk 0 userID (TrimSpace title) (TrimSpace text) code
               (User.Username owner) (time_Now w) 0 0 0 in
           find (fun u => (User.ID u =? userID)%N) (users (store w)) = Some owner
           /\ INSERT_resources_refused (store w) resource = Some number
           /\ e = Wrapf (CreateResourceFailed (TrimSpace title) userID)
                    (insert_resource_error number)
           /\ w' = called (InsertResource resource)
                     (called (SelectUserById userID) w)).
Proof.
  rewrite service_CreateResource_cases.
  destruct (N.eqb_spec userID 0).
  { intros [= <- <-]. split; [now repeat split|]. left. now repeat split. }
  destruct (str_eqb (TrimSpace title) []) eqn:Et.
  { intros [= <- <-]. split; [now repeat split|]. right; left.
    apply str_eqb_nil in Et. now repeat split. }
  destruct (Z.gtb_spec (len (TrimSpace title)) 100).
  { intros [= <- <-]. split; [now repeat split|]. right; right; left.
    repeat split. lia. }
  destruct (find _ (users (store w))) as [owner|] eqn:Hf.
  2:{ intros [= <- <-]. split; [now repeat split|]. right; right; right; left.
      now repeat split. }
  destruct (str_eqb (TrimSpace (User.Username owner)) []) eqn:Eu.
  { intros [= <- <-]. split; [now repeat split|]. right; right; right; right; left.
    apply str_eqb_nil in Eu. repeat split. now exists owner. }
  cbv zeta.
  destruct (INSERT_resources_refused _ _) as [number|] eqn:Er; [|discriminate].
  intros [= <- <-]. split; [now repeat split|].
  right; right; right; right; right. exists owner, number. now repeat split.
Qed.

Lemma X12_failed_create_stores_nothing_witness :
  snd (@service.CreateResource unique_title_Platform 1 (lit "Go Tutorial")
         (lit "again") [] world_resource)
  = Fail (Wrapf (CreateResourceFailed (lit "Go Tutorial") 1)
            (New ResourceUniqueConflict))
  /\ resources
       (store (fst (@service.CreateResource unique_title_Platform 1
                      (lit "Go Tutorial") (lit "again") [] world_resource)))
     = resources (store world_resource).
Proof.
  split; [reflexivity|].
  apply (@X12_failed_create_stores_nothing unique_title_Platform world_resource _ 1
           (lit "Go Tutorial") (lit "again") []
           (Wrapf (CreateResourceFailed (lit "Go Tutorial") 1)
              (New ResourceUniqueConflict))).
  reflexivity.
Defined.

(** X13.  CreateComment refuses id 0 and refuses a content that is empty or
    only white space, each time with a validation error and before any call
    to the store: the world is returned as it was given. *)
Theorem X13_CreateComment_rejects (id : N) (content : GoString) (w : World) :
  id = 0%N \/ TrimSpace content = [] ->
  exists e,
    service.CreateComment id content w = (w, Fail e)
    /\ is_validation_error e = true
    /\ (id = 0%N -> e = New (ResourceIDInvalid 0))
    /\ (id <> 0%N -> e = New CommentEmpty).
Proof.
  intros Hbad. unfold service.CreateComment.
  destruct (N.leb_spec id 0) as [Hz|Hp].
  - assert (id = 0%N) as -> by lia. eexists. repeat split. intros Hne. congruence.
  - destruct Hbad as [->|Hc]; [lia|]. rewrite Hc. cbn.
    eexists. repeat split. intros ->. lia.
Qed.

Lemma X13_CreateComment_rejects_witness :
  exists e,
    service.CreateComment 1 (lit "  ") world_resource = (world_resource, Fail e)
    /\ is_validation_error e = true.
Proof.
  destruct (@X13_CreateComment_rejects 1 (lit "  ") world_resource)
    as (e & Hrun & Hv & _); [right; reflexivity|].
  exists e. split; [exact Hrun|exact Hv].
Defined.

(** ** The listing and its pages *)

Lemma precedes_true (rank : ResourceRow.t -> N) (a b : ResourceRow.t) :
  repository.precedes rank a b = true ->
  ResourceRow.publish_time b <= ResourceRow.publish_time a.
Proof.
  unfold repository.precedes. intros Hp.
  apply orb_true_iff in Hp as [Hp|Hp]; [apply Z.ltb_lt in Hp; lia|].
  apply andb_true_iff in Hp as [Hp _]. apply Z.eqb_eq in Hp. lia.
Qed.

Lemma precedes_false (rank : ResourceRow.t -> N) (a b : ResourceRow.t) :
  repository.precedes rank a b = false ->
  ResourceRow.publish_time a <= ResourceRow.publish_time b.
Proof.
  unfold repository.precedes. intros Hp.
  apply orb_false_iff in Hp as [Hp _]. apply Z.ltb_ge in Hp. exact Hp.
Qed.

Lemma insert_desc_In (rank : ResourceRow.t -> N) (r x : ResourceRow.t)
  (l : list ResourceRow.t) :
  In x (repository.insert_desc rank r l) <-> x = r \/ In x l.
Proof.
  induction l as [|y l IH]; cbn.
  - intuition congruence.
  - destruct (repository.precedes _ _ _); cbn; [intuition congruence|].
    rewrite IH. intuition congruence.
Qed.

Lemma insert_desc_length (rank : ResourceRow.t -> N) (r : ResourceRow.t)
  (l : list ResourceRow.t) :
  List.length (repository.insert_desc rank r l) = S (List.length l).
Proof.
  induction l as [|y l IH]; cbn; [reflexivity|].
  destruct (repository.precedes _ _ _); cbn; [reflexivity|now rewrite IH].
Qed.

Lemma insert_desc_sorted (rank : ResourceRow.t -> N) (r : ResourceRow.t)
  (l : list ResourceRow.t) :
  rows_newest_first l -> rows_newest_first (repository.insert_desc rank r l).
Proof.
  unfold rows_newest_first. induction l as [|y l IH]; intros Hs; cbn.
  - constructor; constructor.
  - apply StronglySorted_inv in Hs as [Hs Hy].
    destruct (repository.precedes rank r y) eqn:Hp.
    + apply precedes_true in Hp.
      constructor; [constructor; assumption|].
      constructor; [assumption|].
      eapply Forall_impl; [|exact Hy]. cbn. intros a Ha. lia.
    + apply precedes_false in Hp.
      constructor; [now apply IH|].
      apply Forall_forall. intros a Ha. apply insert_desc_In in Ha as [->|Ha].
      * exact Hp.
      * rewrite Forall_forall in Hy. now apply Hy.
Qed.

Lemma order_sorted (rank : ResourceRow.t -> N) (l : list ResourceRow.t) :
  rows_newest_first (repository.order_by_publish_time_desc rank l).
Proof.
  induction l as [|r l IH]; cbn.
  - constructor.
  - now apply insert_desc_sorted.
Qed.

Lemma order_In (rank : ResourceRow.t -> N) (x : ResourceRow.t)
  (l : list ResourceRow.t) :
  In x (repository.order_by_publish_time_desc rank l) <-> In x l.
Proof.
  induction l as [|r l IH]; cbn; [tauto|].
  rewrite insert_desc_In, IH. intuition congruence.
Qed.

Lemma order_length (rank : ResourceRow.t -> N) (l : list ResourceRow.t) :
  List.length (repository.order_by_publish_time_desc rank l) = List.length l.
Proof.
  unfold repository.order_by_publish_time_desc.
  induction l as [|r l IH]; cbn; [reflexivity|].
  now rewrite insert_desc_length, IH.
Qed.

(** Where no two rows have the same time, the store has no choice to make:
    every rank gives the same order. *)
Lemma insert_desc_rank (rank rank' : ResourceRow.t -> N) (r : ResourceRow.t)
  (l : list ResourceRow.t) :
  (forall y, In y l -> ResourceRow.publish_time y <> ResourceRow.publish_time r) ->
  repository.insert_desc rank r l = repository.insert_desc rank' r l.
Proof.
  induction l as [|y l IH]; intros Hne; [reflexivity|]. cbn.
  assert (E : repository.precedes rank r y = repository.precedes rank' r y).
  { unfold repository.precedes.
    destruct (Z.eqb_spec (ResourceRow.publish_time y) (ResourceRow.publish_time r))
      as [E|_]; [|reflexivity].
    exfalso. apply (Hne y); [now left|exact E]. }
  rewrite E. destruct (repository.precedes rank' r y); [reflexivity|].
  f_equal. apply IH. intros z Hz. apply Hne. now right.
Qed.

Lemma order_rank (rank rank' : ResourceRow.t -> N) (l : list ResourceRow.t) :
  NoDup (map ResourceRow.publish_time l) ->
  repository.order_by_publish_time_desc rank l
  = repository.order_by_publish_time_desc rank' l.
Proof.
  induction l as [|r l IH]; intros Hnd; [reflexivity|]. cbn [map] in Hnd.
  apply NoDup_cons_iff in Hnd as [Hr Hnd].
  change (repository.insert_desc rank r
            (repository.order_by_publish_time_desc rank l)
          = repository.insert_desc rank' r
              (repository.order_by_publish_time_desc rank' l)).
  rewrite (IH Hnd). apply insert_desc_rank. intros y Hy E. apply order_In in Hy.
  apply Hr. rewrite <- E. now apply in_map.
Qed.

Lemma listing_distinct `{Platform} (keyword : GoString) (w w' : World) :
  distinct_times keyword w -> store w' = store w ->
  listing keyword w' = listing keyword w.
Proof.
  unfold distinct_times, listing. intros Hnd ->. now apply order_rank.
Qed.

Lemma StronglySorted_skipn {A} (R : A -> A -> Prop) (n : nat) (l : list A) :
  StronglySorted R l -> StronglySorted R (skipn n l).
Proof.
  revert l. induction n as [|n IH]; intros [|a l] Hs; cbn; try assumption.
  apply IH. now apply StronglySorted_inv in Hs.
Qed.

Lemma In_firstn {A} (x : A) (n : nat) (l : list A) :
  In x (firstn n l) -> In x l.
Proof.
  intros Hin. rewrite <- (firstn_skipn n l). apply in_or_app. now left.
Qed.

Lemma In_skipn {A} (x : A) (n : nat) (l : list A) :
  In x (skipn n l) -> In x l.
Proof.
  intros Hin. rewrite <- (firstn_skipn n l). apply in_or_app. now right.
Qed.

Lemma StronglySorted_firstn {A} (R : A -> A -> Prop) (n : nat) (l : list A) :
  StronglySorted R l -> StronglySorted R (firstn n l).
Proof.
  revert l. induction n as [|n IH]; intros [|a l] Hs; cbn; try constructor.
  - apply IH. now apply StronglySorted_inv in Hs.
  - apply StronglySorted_inv in Hs as [_ Ha].
    apply Forall_forall. intros x Hx. rewrite Forall_forall in Ha.
    apply Ha. now apply In_firstn in Hx.
Qed.

Lemma StronglySorted_map {A B} (f : A -> B) (R : A -> A -> Prop)
  (R' : B -> B -> Prop) (l : list A) :
  (forall a b, R a b -> R' (f a) (f b)) ->
  StronglySorted R l -> StronglySorted R' (map f l).
Proof.
  intros Hf. induction 1 as [|a l Hs IH Ha]; cbn; constructor; [assumption|].
  apply Forall_map. eapply Forall_impl; [|exact Ha]. intros b. apply Hf.
Qed.

(** X14.  A page the store returns, for an offset and a limit that are not
    negative, holds at most [limit] resources, each of them a stored row
    that matches the keyword filter, and lists them from the newest to the
    oldest publication time. *)
Theorem X14_page_of_the_store `{Platform} (offset limit : Z)
  (keyword : GoString) (w : World) :
  0 <= offset -> 0 <= limit ->
  exists rows,
    repository.GetResourceList offset limit keyword w
    = (called (SelectResources keyword offset limit) w,
       Ok (map repository.scan rows))
    /\ Z.of_nat (List.length rows) <= limit
    /\ (forall row, In row rows ->
                    In row (resources (store w))
                    /\ repository.keyword_filter keyword row = true)
    /\ newest_first (map repository.scan rows).
Proof.
  intros Ho Hl.
  exists (firstn (Z.to_nat limit)
            (skipn (Z.to_nat offset)
               (listing keyword (called (SelectResources keyword offset limit) w)))).
  split; [|split; [|split]].
  - rewrite GetResourceList_runs. unfold repository.limit_rows.
    destruct (Z.ltb_spec offset 0); [lia|].
    destruct (Z.ltb_spec limit 0); [lia|]. reflexivity.
  - rewrite length_firstn. lia.
  - intros row Hin. apply In_firstn, In_skipn in Hin. unfold listing in Hin.
    apply order_In, filter_In in Hin. exact Hin.
  - unfold newest_first. apply StronglySorted_Sorted.
    apply StronglySorted_map
      with (R := fun a b => ResourceRow.publish_time b <= ResourceRow.publish_time a);
      [intros a b Hab; exact Hab|].
    apply StronglySorted_firstn, StronglySorted_skipn. apply order_sorted.
Qed.

Lemma X14_page_of_the_store_witness :
  exists rows,
    @repository.GetResourceList sample_Platform 20 10 [] world_25
    = (called (SelectResources [] 20 10) world_25, Ok (map repository.scan rows))
    /\ Z.of_nat (List.length rows) <= 10
    /\ newest_first (map repository.scan rows).
Proof.
  destruct (@X14_page_of_the_store sample_Platform 20 10 [] world_25)
    as (rows & Hrun & Hlen & _ & Hsorted); [lia|lia|].
  exists rows. repeat split; assumption.
Defined.

Lemma listing_length `{Platform} (keyword : GoString) (w : World) :
  Z.of_nat (List.length (listing keyword w)) = total_of keyword w.
Proof. unfold listing, total_of. now rewrite order_length. Qed.

(** The page the service returns when the offset fits a machine integer. *)
Lemma service_GetResourceList_page `{Platform} (page size : Z)
  (keyword : GoString) (w : World) :
  1 <= page -> 1 <= size <= 50 -> (page - 1) * size < 2 ^ 63 ->
  snd (service.GetResourceList page size keyword w)
  = Ok (map (fun row => service.convertModelToDTO (repository.scan row))
          (firstn (Z.to_nat size)
             (skipn (Z.to_nat ((page - 1) * size))
                (listing keyword
                   (called (SelectResources keyword ((page - 1) * size) size)
                      (called (CountResources keyword) w))))),
        total_of keyword w).
Proof.
  intros Hp Hs Hfit. unfold service.GetResourceList.
  destruct (Z.ltb_spec page 1); [lia|].
  destruct (Z.ltb_spec size 1); [lia|].
  destruct (Z.gtb_spec size 50); [lia|]. cbn [orb].
  unfold bind at 1, try at 1. rewrite CountResources_runs.
  destruct (Z.eqb_spec (total_of keyword w) 0) as [E|E].
  - cbn. rewrite E.
    pose proof (listing_length keyword
                  (called (SelectResources keyword ((page - 1) * size) size)
                     (called (CountResources keyword) w))) as Hl.
    change (total_of keyword
              (called (SelectResources keyword ((page - 1) * size) size)
                 (called (CountResources keyword) w)))
      with (total_of keyword w) in Hl.
    destruct (listing keyword _); [|cbn in Hl; lia].
    now rewrite skipn_nil, firstn_nil.
  - unfold bind at 1, try at 1. rewrite GetResourceList_runs.
    assert (Eo : int_mul (int_sub page 1) size = (page - 1) * size).
    { unfold int_mul, int_sub.
      rewrite (@int_wrap_small (page - 1)) by (unfold int_range; nia).
      apply int_wrap_small. unfold int_range. nia. }
    rewrite Eo. unfold repository.limit_rows.
    destruct (Z.ltb_spec ((page - 1) * size) 0); [nia|].
    destruct (Z.ltb_spec size 0); [lia|]. cbn [orb ret snd].
    rewrite fold_left_snoc_map. cbn [app]. now rewrite map_map.
Qed.

(** X15.  For a page of at least 1, a size in 1..50 and an offset that fits
    a machine integer, the listing succeeds; the total it reports is the
    number of rows matching the keyword, whatever the page, and the page
    holds min(size, max(0, total - (page-1)*size)) items: full pages, then
    the remainder, then empty pages with the total still reported. *)
Theorem X15_page_length `{Platform} (page size : Z) (keyword : GoString)
  (w : World) :
  1 <= page -> 1 <= size <= 50 -> (page - 1) * size < 2 ^ 63 ->
  exists items,
    snd (service.GetResourceList page size keyword w)
    = Ok (items, total_of keyword w)
    /\ Z.of_nat (List.length items)
       = Z.min size (Z.max 0 (total_of keyword w - (page - 1) * size)).
Proof.
  intros Hp Hs Hfit. eexists. split.
  - now apply service_GetResourceList_page.
  - rewrite length_map, length_firstn, length_skipn.
    pose proof (listing_length keyword
                  (called (SelectResources keyword ((page - 1) * size) size)
                     (called (CountResources keyword) w))) as Hl.
    change (total_of keyword
              (called (SelectResources keyword ((page - 1) * size) size)
                 (called (CountResources keyword) w)))
      with (total_of keyword w) in Hl.
    nia.
Qed.

Lemma X15_page_length_witness :
  exists items,
    snd (@service.GetResourceList sample_Platform 3 10 [] world_25)
    = Ok (items, 25)
    /\ Z.of_nat (List.length items) = 5.
Proof.
  destruct (@X15_page_length sample_Platform 3 10 [] world_25)
    as (items & Hrun & Hlen); [lia|lia|reflexivity|].
  exists items. split; [exact Hrun|exact Hlen].
Defined.

Lemma firstn_add {A} (a b : nat) (l : list A) :
  firstn (a + b) l = firstn a l ++ firstn b (skipn a l).
Proof.
  revert l. induction a as [|a IH]; intros l; [reflexivity|].
  destruct l as [|x l]; cbn; [now rewrite firstn_nil|].
  now rewrite IH.
Qed.

(** X16.  Where the matching rows have pairwise distinct publication
    times, the pages tile the listing.  For a size in 1..50, the items of
    pages 1 to k, one page after the other, are the first k*size items of
    the matching rows from the newest to the oldest: no item is returned
    twice and none is skipped; once k*size reaches the total they are all
    the matching rows.  (With equal times the statement sent fixes no order
    among them, and two pages may then overlap or miss a row.) *)
Theorem X16_pages_tile_the_listing `{Platform} (k : nat) (size : Z)
  (keyword : GoString) (w : World) :
  distinct_times keyword w ->
  1 <= size <= 50 -> Z.of_nat k * size < 2 ^ 63 ->
  List.concat (map (page_items size keyword w) (map Z.of_nat (seq 1 k)))
  = map (fun row => service.convertModelToDTO (repository.scan row))
      (firstn (k * Z.to_nat size) (listing keyword w))
  /\ (total_of keyword w <= Z.of_nat k * size ->
      List.concat (map (page_items size keyword w) (map Z.of_nat (seq 1 k)))
      = map (fun row => service.convertModelToDTO (repository.scan row))
          (listing keyword w)).
Proof.
  intros Hnd Hs Hfit.
  assert (Htile :
    List.concat (map (page_items size keyword w) (map Z.of_nat (seq 1 k)))
    = map (fun row => service.convertModelToDTO (repository.scan row))
        (firstn (k * Z.to_nat size) (listing keyword w))).
  { induction k as [|k IH]; [reflexivity|].
    rewrite seq_S, !map_app, concat_app, IH by nia. cbn [map List.concat].
    rewrite app_nil_r. unfold page_items at 1.
    rewrite service_GetResourceList_page by nia.
    rewrite (@listing_distinct _ keyword w
               (called (SelectResources keyword ((Z.of_nat (1 + k) - 1) * size) size)
                  (called (CountResources keyword) w)) Hnd eq_refl).
    replace (Z.to_nat ((Z.of_nat (1 + k) - 1) * size))
      with (k * Z.to_nat size)%nat by nia.
    rewrite <- map_app. f_equal.
    replace (S k * Z.to_nat size)%nat with (k * Z.to_nat size + Z.to_nat size)%nat
      by lia.
    now rewrite firstn_add. }
  split; [exact Htile|]. intros Hall. rewrite Htile.
  rewrite firstn_all2; [reflexivity|].
  pose proof (listing_length keyword w). nia.
Qed.

Lemma X16_pages_tile_the_listing_witness :
  List.concat (map (@page_items sample_Platform 10 [] world_25) (map Z.of_nat (seq 1 3)))
  = map (fun row => @service.convertModelToDTO sample_Platform (repository.scan row))
      (@listing sample_Platform [] world_25).
Proof.
  apply (@X16_pages_tile_the_listing sample_Platform 3 10 [] world_25).
  - unfold distinct_times. cbn.
    repeat (constructor; [cbn; intuition discriminate|]). constructor.
  - lia.
  - reflexivity.
  - vm_compute. discriminate.
Defined.

(** * Properties of pkg *)

(** ** CleanToken *)

Lemma len_app (s t : GoString) : len (s ++ t) = len s + len t.
Proof. induction s as [|r s IH]; cbn [len app]; lia. Qed.

Lemma len_nonneg (s : GoString) : 0 <= len s.
Proof. pose proof (length_le_len s). lia. Qed.

Lemma len_ascii (s : GoString) :
  Forall (fun r => (r < 128)%N) s -> len s = Z.of_nat (List.length s).
Proof.
  induction 1 as [|r s Hr Hs IH]; cbn [len List.length]; [reflexivity|].
  unfold utf8_RuneLen. destruct (N.ltb_spec r 128); lia.
Qed.

Lemma fold_ascii_below (a b : rune) :
  pkg.fold_ascii a = pkg.fold_ascii b -> (b < 128)%N -> (a < 128)%N.
Proof.
  unfold pkg.fold_ascii.
  destruct (N.leb_spec 65 a), (N.leb_spec a 90), (N.leb_spec 65 b),
    (N.leb_spec b 90); cbn; lia.
Qed.

Lemma EqualFold_ascii (s t : GoString) :
  pkg.EqualFold s t = true -> Forall (fun r => (r < 128)%N) t ->
  List.length s = List.length t /\ Forall (fun r => (r < 128)%N) s.
Proof.
  revert t. induction s as [|a s IH]; intros [|b t]; cbn; try discriminate.
  - now split.
  - intros E Ht. apply andb_true_iff in E as [Eab E].
    apply N.eqb_eq in Eab. apply Forall_cons_iff in Ht as [Hb Ht].
    destruct (IH t E Ht) as [Hl Hs]. split; [now rewrite Hl|].
    constructor; [eapply fold_ascii_below; eassumption|exact Hs].
Qed.

Lemma bearer_prefix (p : GoString) :
  pkg.EqualFold p (lit "bearer ") = true ->
  List.length p = 7%nat /\ len p = 7.
Proof.
  intros E. apply EqualFold_ascii in E as [Hl Hp].
  - split; [exact Hl|]. rewrite len_ascii by exact Hp. rewrite Hl. reflexivity.
  - cbn. repeat constructor.
Qed.

(** X17.  CleanToken returns the empty string exactly for a token that is
    empty or all white space; a header that only names the scheme is not
    cleaned to the empty string.  Its result is the trimmed token, or the
    trimmed token without a leading seven bytes that spell the bearer
    prefix in any letter case. *)
Theorem X17_CleanToken_empty_iff_blank (tokenStr : GoString) :
  (pkg.CleanToken tokenStr = [] <-> TrimSpace tokenStr = [])
  /\ (pkg.CleanToken tokenStr = TrimSpace tokenStr
      \/ exists p,
           TrimSpace tokenStr = p ++ pkg.CleanToken tokenStr
           /\ pkg.EqualFold p (lit "bearer ") = true).
Proof.
  unfold pkg.CleanToken. cbv zeta.
  destruct (Z.gtb_spec (len (TrimSpace tokenStr)) 7) as [Hlen|Hlen]; cbn [andb].
  - destruct (pkg.EqualFold _ _) eqn:E.
    + pose proof (bearer_prefix _ E) as [_ Hp].
      pose proof (firstn_skipn 7 (TrimSpace tokenStr)) as Hsplit.
      split.
      * split; intros Hnil.
        -- rewrite Hnil, app_nil_r in Hsplit. rewrite <- Hsplit in Hlen. lia.
        -- rewrite Hnil in Hlen. cbn in Hlen. lia.
      * right. exists (firstn 7 (TrimSpace tokenStr)). now split.
    + split; [tauto|now left].
  - split; [tauto|now left].
Qed.

Lemma TrimLeftSpace_length (s : GoString) :
  (List.length (TrimLeftSpace s) <= List.length s)%nat.
Proof.
  induction s as [|r s IH]; cbn; [lia|].
  destruct (unicode_IsSpace r); cbn; lia.
Qed.

Lemma TrimLeftSpace_fixed (s : GoString) :
  List.length (TrimLeftSpace s) = List.length s -> TrimLeftSpace s = s.
Proof.
  destruct s as [|r s]; cbn; [reflexivity|].
  destruct (unicode_IsSpace r); [|reflexivity].
  pose proof (TrimLeftSpace_length s). cbn. lia.
Qed.

Lemma TrimLeftSpace_head (r : rune) (s : GoString) :
  TrimLeftSpace (r :: s) = r :: s -> unicode_IsSpace r = false.
Proof.
  cbn. destruct (unicode_IsSpace r); [|reflexivity].
  intros E. pose proof (TrimLeftSpace_length s) as Hl.
  rewrite E in Hl. cbn in Hl. lia.
Qed.

(** A string that [TrimSpace] leaves alone has no white space at its ends. *)
Lemma TrimSpace_fixed (t : GoString) :
  TrimSpace t = t -> TrimLeftSpace t = t /\ TrimLeftSpace (rev t) = rev t.
Proof.
  unfold TrimSpace, TrimRightSpace. intros E.
  pose proof (TrimLeftSpace_length t) as H1.
  pose proof (TrimLeftSpace_length (rev (TrimLeftSpace t))) as H2.
  assert (Hl : List.length (rev (TrimLeftSpace (rev (TrimLeftSpace t))))
               = List.length t) by now rewrite E.
  rewrite length_rev in Hl. rewrite length_rev in H2.
  assert (Et : TrimLeftSpace t = t) by (apply TrimLeftSpace_fixed; lia).
  split; [exact Et|]. rewrite Et in Hl. apply TrimLeftSpace_fixed.
  now rewrite length_rev.
Qed.

Lemma TrimSpace_joined (p t : GoString) (a : rune) (p' : GoString) :
  p = a :: p' -> unicode_IsSpace a = false ->
  t <> [] -> TrimSpace t = t -> TrimSpace (p ++ t) = p ++ t.
Proof.
  intros -> Ha Ht E. apply TrimSpace_fixed in E as [_ Er].
  unfold TrimSpace, TrimRightSpace. cbn [app TrimLeftSpace]. rewrite Ha.
  change (a :: p' ++ t) with ((a :: p') ++ t). rewrite rev_app_distr.
  destruct (rev t) as [|c q] eqn:Erev.
  - apply (f_equal (@rev rune)) in Erev. rewrite rev_involutive in Erev.
    now destruct Ht.
  - apply TrimLeftSpace_head in Er. cbn [app TrimLeftSpace]. rewrite Er.
    change (c :: q ++ rev (a :: p')) with ((c :: q) ++ rev (a :: p')).
    rewrite <- Erev, <- rev_app_distr. apply rev_involutive.
Qed.

(** X18.  CleanToken undoes the bearer scheme: for a non-empty token with no
    white space at either end, prefixed by the seven characters of the
    bearer prefix in any mix of upper and lower case, it returns exactly the
    token. *)
Theorem X18_CleanToken_strips_bearer (p t : GoString) :
  pkg.EqualFold p (lit "bearer ") = true ->
  t <> [] -> TrimSpace t = t ->
  pkg.CleanToken (p ++ t) = t.
Proof.
  intros E Ht Etrim. pose proof (bearer_prefix _ E) as [Hl Hp].
  destruct p as [|a p']; [discriminate|].
  assert (Ha : unicode_IsSpace a = false).
  { cbn in E. apply andb_true_iff in E as [Ea _]. apply N.eqb_eq in Ea.
    unfold pkg.fold_ascii in Ea.
    assert (Hab : a = 66%N \/ a = 98%N)
      by (destruct (N.leb_spec 65 a), (N.leb_spec a 90); cbn in Ea; lia).
    destruct Hab as [->| ->]; reflexivity. }
  unfold pkg.CleanToken.
  rewrite (@TrimSpace_joined (a :: p') t a p' eq_refl Ha Ht Etrim). cbv zeta.
  assert (Hlen : (len ((a :: p') ++ t) >? 7) = true).
  { rewrite len_app, Hp. destruct t as [|c t]; [now destruct Ht|].
    cbn [len]. pose proof (utf8_RuneLen_pos c). pose proof (len_nonneg t).
    apply Z.gtb_lt. lia. }
  rewrite Hlen. cbn [andb].
  assert (Hfirst : firstn 7 ((a :: p') ++ t) = a :: p').
  { rewrite <- Hl. rewrite firstn_app, Nat.sub_diag, firstn_all. cbn [firstn].
    apply app_nil_r. }
  rewrite Hfirst, E. rewrite <- Hl. rewrite skipn_app, Nat.sub_diag, skipn_all.
  reflexivity.
Qed.

Lemma X18_CleanToken_strips_bearer_witness :
  pkg.CleanToken (lit "BeArEr " ++ lit "abc.def.ghi") = lit "abc.def.ghi".
Proof.
  apply (@X18_CleanToken_strips_bearer (lit "BeArEr ") (lit "abc.def.ghi"));
    [reflexivity|discriminate|reflexivity].
Defined.

(** ** sizeLimitWriter *)

Section SizeLimitProperties.

Variable Writer : Type.
Variable InnerErr : Type.
Variable inner_Write :
  Writer -> list Byte.byte -> Writer * (Z * option InnerErr).

(** What [io.Writer] asks of a [Write]: the count is between 0 and the
    length of the chunk. *)
Hypothesis inner_count :
  forall wr p, 0 <= fst (snd (inner_Write wr p)) <= Z.of_nat (List.length p).

Lemma Write_step (w : pkg.sizeLimitWriter Writer) (p : list Byte.byte) :
  0 <= pkg.written w <= pkg.maxSize w ->
  pkg.maxSize w + Z.of_nat (List.length p) < 2 ^ 63 ->
  let w' := fst (pkg.Write inner_Write w p) in
  let n := fst (snd (pkg.Write inner_Write w p)) in
  pkg.maxSize w' = pkg.maxSize w
  /\ pkg.written w' = pkg.written w + n
  /\ 0 <= n <= Z.of_nat (List.length p)
  /\ 0 <= pkg.written w' <= pkg.maxSize w
  /\ (pkg.maxSize w < pkg.written w + Z.of_nat (List.length p) ->
      pkg.Write inner_Write w p = (w, (0, Some (pkg.errSizeExceed InnerErr)))).
Proof.
  intros Hw Hfit. unfold pkg.Write.
  rewrite (@int_wrap_small (pkg.written w + Z.of_nat (List.length p)))
    by (unfold int_range; lia).
  destruct (Z.gtb_spec (pkg.written w + Z.of_nat (List.length p)) (pkg.maxSize w))
    as [Hover|Hok].
  - cbn. repeat split; lia.
  - pose proof (inner_count (pkg.writer w) p) as Hn.
    destruct (inner_Write (pkg.writer w) p) as [inner [n err]]. cbn in Hn |- *.
    rewrite int_wrap_small by (unfold int_range; lia).
    repeat split; lia.
Qed.

(** X19.  The size limit holds across a whole copy: starting with a count of
    written bytes between 0 and the limit, after any sequence of Write calls
    on chunks that are not absurdly long, the count is still between 0 and
    the limit, it is the start count plus the counts the calls returned, and
    the limit itself is unchanged; a call whose chunk would take the count
    past the limit returns 0 with the size error and changes nothing. *)
Theorem X19_size_limit_kept (chunks : list (list Byte.byte))
  (w : pkg.sizeLimitWriter Writer) :
  0 <= pkg.written w <= pkg.maxSize w ->
  Forall (fun p => pkg.maxSize w + Z.of_nat (List.length p) < 2 ^ 63) chunks ->
  let w' := fst (pkg.Write_all inner_Write w chunks) in
  let ns := snd (pkg.Write_all inner_Write w chunks) in
  0 <= pkg.written w' <= pkg.maxSize w
  /\ pkg.maxSize w' = pkg.maxSize w
  /\ pkg.written w' = pkg.written w + fold_right Z.add 0 ns
  /\ forall p,
       pkg.maxSize w + Z.of_nat (List.length p) < 2 ^ 63 ->
       pkg.maxSize w < pkg.written w' + Z.of_nat (List.length p) ->
       pkg.Write inner_Write w' p = (w', (0, Some (pkg.errSizeExceed InnerErr))).
Proof.
  revert w. induction chunks as [|p chunks IH]; intros w Hw Hfit; cbn zeta.
  - cbn. repeat split; try lia. intros p Hp Hover.
    now apply (Write_step w p Hw Hp).
  - apply Forall_cons_iff in Hfit as [Hp Hfit].
    destruct (Write_step w p Hw Hp) as (Hmax & Hwr & Hn & Hw1 & _).
    cbn [pkg.Write_all].
    destruct (pkg.Write inner_Write w p) as [w1 [n err]] eqn:E1.
    cbn [fst snd] in Hmax, Hwr, Hn, Hw1.
    rewrite <- Hmax in Hw1, Hfit.
    specialize (IH w1 Hw1 Hfit). cbv zeta in IH.
    destruct (pkg.Write_all inner_Write w1 chunks) as [w2 ns] eqn:E2.
    cbn [fst snd fold_right] in IH |- *.
    destruct IH as (Hb & Hm & Hsum & Hrej). rewrite Hmax in Hb, Hm, Hrej.
    repeat split; try lia. exact Hrej.
Qed.

End SizeLimitProperties.

Lemma X19_size_limit_kept_witness :
  let w := pkg.mkSizeLimitWriter (@nil Byte.byte) 5 0 in
  let chunks := [[Byte.x61; Byte.x62; Byte.x63]; [Byte.x64; Byte.x65; Byte.x66];
                 [Byte.x67]] in
  snd (pkg.Write_all buffer_Write w chunks) = [3; 0; 1]
  /\ 0 <= pkg.written (fst (pkg.Write_all buffer_Write w chunks)) <= 5.
Proof.
  split; [reflexivity|].
  apply (@X19_size_limit_kept (list Byte.byte) unit buffer_Write).
  - intros wr p. cbn. lia.
  - cbn. lia.
  - repeat constructor.
Defined.

(** ** Verification codes *)

Lemma Load_Delete_same (key : GoString) (m : pkg.CodeStore) :
  pkg.Load (pkg.Delete key m) key = None.
Proof.
  unfold pkg.Load, pkg.Delete.
  induction m as [|[k v] m IH]; cbn; [reflexivity|].
  destruct (str_eqb k key) eqn:E; cbn; [exact IH|]. now rewrite E.
Qed.

Lemma Load_Delete_other (key key' : GoString) (m : pkg.CodeStore) :
  key' <> key -> pkg.Load (pkg.Delete key m) key' = pkg.Load m key'.
Proof.
  intros Hne. unfold pkg.Load, pkg.Delete.
  induction m as [|[k v] m IH]; cbn; [reflexivity|].
  destruct (str_eqb k key) eqn:E; cbn.
  - apply str_eqb_eq in E. subst k.
    destruct (str_eqb key key') eqn:E'; [|exact IH].
    apply str_eqb_eq in E'. congruence.
  - destruct (str_eqb k key'); [reflexivity|exact IH].
Qed.

Lemma Load_Store_same (key : GoString) (v : pkg.codeItem) (m : pkg.CodeStore) :
  pkg.Load (pkg.Store key v m) key = Some v.
Proof. unfold pkg.Load, pkg.Store. cbn. now rewrite str_eqb_refl. Qed.

Lemma Load_Store_other (key key' : GoString) (v : pkg.codeItem)
  (m : pkg.CodeStore) :
  key' <> key -> pkg.Load (pkg.Store key v m) key' = pkg.Load m key'.
Proof.
  intros Hne. unfold pkg.Store.
  unfold pkg.Load at 1. cbn.
  destruct (str_eqb key key') eqn:E.
  - apply str_eqb_eq in E. congruence.
  - now apply Load_Delete_other.
Qed.

(** X20.  A verification code can be used once.  A code saved for an
    address verifies, with that same code, at any time up to and including
    five minutes after it was saved, and the successful check deletes it:
    the next check for that address, with any code and at any time, fails
    with the invalid-code error. *)
Theorem X20_code_used_once (saved now : Time) (email code : GoString)
  (m : pkg.CodeStore) :
  now <= saved + 5 * pkg.Minute ->
  let m1 := pkg.saveCodeToMap saved email code m in
  let m2 := fst (pkg.VerifyCodeFromMap now email code m1) in
  snd (pkg.VerifyCodeFromMap now email code m1) = None
  /\ pkg.Load m2 email = None
  /\ forall later code',
       pkg.VerifyCodeFromMap later email code' m2 = (m2, Some pkg.CodeInvalid).
Proof.
  intros Hnow m1 m2. subst m1 m2. unfold pkg.saveCodeToMap, pkg.VerifyCodeFromMap.
  rewrite Load_Store_same. cbn [pkg.ExpireAt pkg.Code].
  destruct (Z.ltb_spec (saved + 5 * pkg.Minute) now); [lia|].
  rewrite str_eqb_refl. cbn [negb fst snd].
  split; [reflexivity|]. split; [apply Load_Delete_same|].
  intros later code'. now rewrite Load_Delete_same.
Qed.

Lemma X20_code_used_once_witness :
  snd (pkg.VerifyCodeFromMap 300000000000 (lit "a@b.cn") (lit "123456")
         (pkg.saveCodeToMap 0 (lit "a@b.cn") (lit "123456") []))
  = None.
Proof.
  apply (@X20_code_used_once 0 300000000000 (lit "a@b.cn") (lit "123456") []).
  unfold pkg.Minute. lia.
Defined.

(** X21.  A wrong code does not use up the saved one: within the five
    minutes, a check with a different code fails with the wrong-code error
    and leaves the store exactly as it was, so that a later check with the
    right code, still within the five minutes, succeeds.  Nothing counts
    the failed attempts. *)
Theorem X21_wrong_code_keeps_entry (saved now later : Time)
  (email code guess : GoString) (m : pkg.CodeStore) :
  guess <> code ->
  now <= saved + 5 * pkg.Minute -> later <= saved + 5 * pkg.Minute ->
  let m1 := pkg.saveCodeToMap saved email code m in
  pkg.VerifyCodeFromMap now email guess m1 = (m1, Some pkg.CodeWrong)
  /\ snd (pkg.VerifyCodeFromMap later email code
            (fst (pkg.VerifyCodeFromMap now email guess m1))) = None.
Proof.
  intros Hne Hnow Hlater m1. subst m1.
  assert (Hwrong :
    pkg.VerifyCodeFromMap now email guess (pkg.saveCodeToMap saved email code m)
    = (pkg.saveCodeToMap saved email code m, Some pkg.CodeWrong)).
  { unfold pkg.saveCodeToMap, pkg.VerifyCodeFromMap.
    rewrite Load_Store_same. cbn [pkg.ExpireAt pkg.Code].
    destruct (Z.ltb_spec (saved + 5 * pkg.Minute) now); [lia|].
    destruct (str_eqb code guess) eqn:E; [|reflexivity].
    apply str_eqb_eq in E. congruence. }
  split; [exact Hwrong|]. rewrite Hwrong. cbn [fst].
  unfold pkg.saveCodeToMap, pkg.VerifyCodeFromMap.
  rewrite Load_Store_same. cbn [pkg.ExpireAt pkg.Code].
  destruct (Z.ltb_spec (saved + 5 * pkg.Minute) later); [lia|].
  now rewrite str_eqb_refl.
Qed.

Lemma X21_wrong_code_keeps_entry_witness :
  pkg.VerifyCodeFromMap 10 (lit "a@b.cn") (lit "000000")
    (pkg.saveCodeToMap 0 (lit "a@b.cn") (lit "123456") [])
  = (pkg.saveCodeToMap 0 (lit "a@b.cn") (lit "123456") [], Some pkg.CodeWrong).
Proof.
  apply (@X21_wrong_code_keeps_entry 0 10 20 (lit "a@b.cn") (lit "123456")
           (lit "000000") []);
    [discriminate|unfold pkg.Minute; lia|unfold pkg.Minute; lia].
Defined.

(** X22.  A code expires strictly after five minutes: a check later than
    that fails with the expired error even with the right code, and it
    deletes the entry, so the check after it reports an invalid code. *)
Theorem X22_code_expires (saved now : Time) (email code guess : GoString)
  (m : pkg.CodeStore) :
  saved + 5 * pkg.Minute < now ->
  let m1 := pkg.saveCodeToMap saved email code m in
  let m2 := fst (pkg.VerifyCodeFromMap now email guess m1) in
  snd (pkg.VerifyCodeFromMap now email guess m1) = Some pkg.CodeExpired
  /\ pkg.Load m2 email = None
  /\ forall later code',
       pkg.VerifyCodeFromMap later email code' m2 = (m2, Some pkg.CodeInvalid).
Proof.
  intros Hnow m1 m2. subst m1 m2. unfold pkg.saveCodeToMap, pkg.VerifyCodeFromMap.
  rewrite Load_Store_same. cbn [pkg.ExpireAt pkg.Code].
  destruct (Z.ltb_spec (saved + 5 * pkg.Minute) now); [|lia].
  cbn [fst snd]. split; [reflexivity|]. split; [apply Load_Delete_same|].
  intros later code'. now rewrite Load_Delete_same.
Qed.

Lemma X22_code_expires_witness :
  snd (pkg.VerifyCodeFromMap 300000000001 (lit "a@b.cn") (lit "123456")
         (pkg.saveCodeToMap 0 (lit "a@b.cn") (lit "123456") []))
  = Some pkg.CodeExpired.
Proof.
  apply (@X22_code_expires 0 300000000001 (lit "a@b.cn") (lit "123456")
           (lit "123456") []).
  unfold pkg.Minute. lia.
Defined.

(** X23.  Codes are kept per address and the last one saved wins: saving or
    checking a code for one address leaves what is stored for every other
    address as it was, and after a second save for the same address only
    the second code is stored, with its own expiry. *)
Theorem X23_codes_per_address (t1 t2 now : Time)
  (email other code1 code2 guess : GoString) (m : pkg.CodeStore) :
  other <> email ->
  pkg.Load (pkg.saveCodeToMap t1 email code1 m) other = pkg.Load m other
  /\ pkg.Load (fst (pkg.VerifyCodeFromMap now email guess m)) other
     = pkg.Load m other
  /\ pkg.Load (pkg.saveCodeToMap t2 email code2 (pkg.saveCodeToMap t1 email code1 m))
       email
     = Some (pkg.mkCodeItem code2 (t2 + 5 * pkg.Minute)).
Proof.
  intros Hne. split; [|split].
  - unfold pkg.saveCodeToMap. now apply Load_Store_other.
  - unfold pkg.VerifyCodeFromMap.
    destruct (pkg.Load m email) as [item|]; [|reflexivity].
    destruct (pkg.ExpireAt item <? now); cbn [fst];
      [now apply Load_Delete_other|].
    destruct (negb _); cbn [fst]; [reflexivity|now apply Load_Delete_other].
  - unfold pkg.saveCodeToMap. apply Load_Store_same.
Qed.

Lemma X23_codes_per_address_witness :
  pkg.Load (pkg.saveCodeToMap 5 (lit "a@b.cn") (lit "123456")
              [(lit "c@d.cn", pkg.mkCodeItem (lit "777777") 9)])
    (lit "c@d.cn")
  = Some (pkg.mkCodeItem (lit "777777") 9).
Proof.
  apply (@X23_codes_per_address 5 6 7 (lit "a@b.cn") (lit "c@d.cn")
           (lit "123456") (lit "654321") (lit "0")
           [(lit "c@d.cn", pkg.mkCodeItem (lit "777777") 9)]).
  discriminate.
Defined.

(** ** base64Encode *)

Lemma utf8_EncodeRune_length (r : rune) :
  Z.of_nat (List.length (pkg.utf8_EncodeRune r)) = utf8_RuneLen r.
Proof.
  unfold pkg.utf8_EncodeRune, utf8_RuneLen.
  destruct (r <? 128)%N, (r <? 2048)%N, (r <? 65536)%N; reflexivity.
Qed.

Lemma bytes_length (str : GoString) :
  Z.of_nat (List.length (pkg.bytes str)) = len str.
Proof.
  unfold pkg.bytes. induction str as [|r str IH]; cbn [flat_map len];
    [reflexivity|].
  rewrite length_app, Nat2Z.inj_add, IH, utf8_EncodeRune_length. reflexivity.
Qed.

Lemma utf8_EncodeRune_bytes (r : rune) :
  Forall (fun b => (b < 256)%N) (pkg.utf8_EncodeRune r).
Proof.
  unfold pkg.utf8_EncodeRune.
  destruct (N.ltb_spec r 128); [repeat constructor; lia|].
  destruct (r <? 2048)%N;
    [repeat constructor;
     try (pose proof (N.mod_upper_bound (r / 64) 32 ltac:(lia)); lia);
     pose proof (N.mod_upper_bound r 64 ltac:(lia)); lia|].
  destruct (r <? 65536)%N; repeat constructor;
    try (pose proof (N.mod_upper_bound (r / 4096) 16 ltac:(lia)); lia);
    try (pose proof (N.mod_upper_bound (r / 262144) 8 ltac:(lia)); lia);
    try (pose proof (N.mod_upper_bound (r / 4096) 64 ltac:(lia)); lia);
    try (pose proof (N.mod_upper_bound (r / 64) 64 ltac:(lia)); lia);
    pose proof (N.mod_upper_bound r 64 ltac:(lia)); lia.
Qed.

Lemma hex_digit_range (d : N) :
  (d < 16)%N ->
  (48 <= pkg.hex_digit d <= 57 \/ 97 <= pkg.hex_digit d <= 102)%N.
Proof.
  intros Hd. unfold pkg.hex_digit. destruct (N.ltb_spec d 10); lia.
Qed.

(** X24.  Despite its name, base64Encode writes hexadecimal: its output
    has exactly two characters for each byte of the UTF-8 input, every one
    of them a digit 0-9 or a lower-case letter a-f. *)
Theorem X24_base64Encode_is_hex (str : GoString) :
  len (pkg.base64Encode str) = 2 * len str
  /\ Z.of_nat (List.length (pkg.base64Encode str)) = 2 * len str
  /\ Forall (fun c => (48 <= c <= 57 \/ 97 <= c <= 102)%N)
       (pkg.base64Encode str).
Proof.
  assert (Hhex : Forall (fun c => (48 <= c <= 57 \/ 97 <= c <= 102)%N)
                   (pkg.base64Encode str)).
  { unfold pkg.base64Encode, pkg.bytes.
    apply Forall_flat_map. apply Forall_flat_map.
    apply Forall_forall. intros r _.
    eapply Forall_impl; [|apply utf8_EncodeRune_bytes].
    intros b Hb. cbv beta in Hb.
    constructor; [|constructor; [|constructor]].
    - apply hex_digit_range. apply N.Div0.div_lt_upper_bound. lia.
    - apply hex_digit_range. apply N.mod_upper_bound. lia. }
  assert (Hlen : Z.of_nat (List.length (pkg.base64Encode str)) = 2 * len str).
  { rewrite <- bytes_length. unfold pkg.base64Encode.
    induction (pkg.bytes str) as [|b l IH]; cbn [flat_map List.length app];
      [reflexivity|]. lia. }
  split; [|split; assumption].
  rewrite len_ascii; [exact Hlen|].
  eapply Forall_impl; [|exact Hhex]. cbn. intros c Hc. lia.
Qed.
